(** * NutriAgent: MCP gateway, OpenFoodFacts tools and the agent's tool loop

    A shallow embedding of three source files of the repository:
    - the OpenFoodFacts tool executors and [dispatchTool] (tools module),
    - the MCP Streamable-HTTP JSON-RPC server ([handleMcpRequest]),
    - the Durable-Object agent ([NutriAgent.callLLM], [handleChat],
      [onRequest]).

    JavaScript values that come out of [JSON.parse] are modelled by the
    inductive [value]; [async] functions are computations in a
    state-and-exception monad, a rejected promise being a [Throw]; the
    outside world (data source, language model, remote MCP endpoint, UUID
    generator, clock) is a record of oracles indexed by the number of calls
    made so far. *)

From Stdlib Require Import ZArith String List SpecFloat.
From stdpp Require Import gmap strings list pretty.

Local Open Scope string_scope.
Set Warnings "-register-all".

(* ===================================================================== *)
(** * JavaScript values                                                   *)
(* ===================================================================== *)

(** A JS number is an IEEE-754 double; the program only carries numbers
    around, tests them for truthiness and prints them. *)
Definition number := spec_float.

Definition num_0 : number := S754_zero false.
Definition num_1 : number := S754_finite false 4503599627370496 (-52).
Definition num_5 : number := S754_finite false 5629499534213120 (-50).

Inductive value :=
| VUndefined
| VNull
| VBool (b : bool)
| VNum (n : number)
| VStr (s : string)
| VArr (xs : list value)
| VObj (fields : list (string * value)).

(** Thrown values. Every value thrown in the modelled code is an instance
    of [Error]; the texts of engine-raised errors are those of V8. *)
Inductive exn :=
| Error (msg : string)
| TypeError (msg : string)
| URIError (msg : string)
| SyntaxError (msg : string).

(** [err.message] *)
Definition message (e : exn) : string :=
  match e with
  | Error m | TypeError m | URIError m | SyntaxError m => m
  end.

Definition exn_name (e : exn) : string :=
  match e with
  | Error _ => "Error"
  | TypeError _ => "TypeError"
  | URIError _ => "URIError"
  | SyntaxError _ => "SyntaxError"
  end.

(** [String(err)] for an [Error] instance ([Error.prototype.toString]):
    the name alone when the message is empty. *)
Definition String_of_exn (e : exn) : string :=
  if String.eqb (message e) "" then exn_name e
  else exn_name e ++ ": " ++ message e.

(** The line feed, for texts that contain one. *)
Definition LF : string := String (Ascii.ascii_of_nat 10) EmptyString.

Inductive result (A : Type) :=
| Ok (a : A)
| Throw (e : exn).
Arguments Ok {A} a.
Arguments Throw {A} e.

Definition is_throw {A} (r : result A) : bool :=
  match r with Ok _ => false | Throw _ => true end.

(** Sequencing of expressions that may throw. *)
Definition bindR {A B} (r : result A) (k : A -> result B) : result B :=
  match r with
  | Ok a => k a
  | Throw e => Throw e
  end.

Notation "'let+' x ':=' r 'in' k" := (bindR r (fun x => k))
  (at level 10, x name, r at level 100, k at level 200).

(** ** Truthiness, nullish coalescing, property reads *)

Definition num_truthy (n : number) : bool :=
  match n with
  | S754_zero _ | S754_nan => false
  | _ => true
  end.

Definition truthy (v : value) : bool :=
  match v with
  | VUndefined | VNull => false
  | VBool b => b
  | VNum n => num_truthy n
  | VStr s => negb (String.eqb s "")
  | VArr _ | VObj _ => true
  end.

Definition nullish (v : value) : bool :=
  match v with
  | VUndefined | VNull => true
  | _ => false
  end.

(** [a ?? b] *)
Definition coalesce (a b : value) : value :=
  if nullish a then b else a.
Infix "??" := coalesce (at level 45, left associativity).

Fixpoint assoc (k : string) (fs : list (string * value)) : value :=
  match fs with
  | [] => VUndefined
  | (k', v) :: fs' => if String.eqb k' k then v else assoc k fs'
  end.

(** [v.k] for the property names the program reads (none of them is
    [length], an index, or a member of [Object.prototype]): reading a
    property of [undefined] or [null] throws, an object yields its own
    property, every other value yields [undefined]. *)
Definition get (v : value) (k : string) : result value :=
  match v with
  | VUndefined =>
      Throw (TypeError ("Cannot read properties of undefined (reading '" ++ k ++ "')"))
  | VNull =>
      Throw (TypeError ("Cannot read properties of null (reading '" ++ k ++ "')"))
  | VObj fs => Ok (assoc k fs)
  | _ => Ok VUndefined
  end.

(** Property read on a value known not to be nullish. *)
Definition prop (v : value) (k : string) : value :=
  match v with
  | VObj fs => assoc k fs
  | _ => VUndefined
  end.

(** [Object.hasOwn(o, k)] on the members of an object. *)
Definition has_own (k : string) (fs : list (string * value)) : bool :=
  existsb (fun kv => String.eqb (fst kv) k) fs.

(** Induction on values that goes through the elements of arrays and the
    members of objects. *)
Fixpoint value_nested_ind (Q : value -> Prop)
    (HUndefined : Q VUndefined) (HNull : Q VNull)
    (HBool : forall b, Q (VBool b)) (HNum : forall n, Q (VNum n))
    (HStr : forall s, Q (VStr s))
    (HArr : forall xs, Forall Q xs -> Q (VArr xs))
    (HObj : forall fs, Forall (fun kv => Q (snd kv)) fs -> Q (VObj fs))
    (v : value) : Q v :=
  match v with
  | VUndefined => HUndefined
  | VNull => HNull
  | VBool b => HBool b
  | VNum n => HNum n
  | VStr s => HStr s
  | VArr xs =>
      HArr xs
        ((fix elements (xs : list value) : Forall Q xs :=
            match xs with
            | [] => @List.Forall_nil _ Q
            | x :: xs' =>
                @List.Forall_cons _ Q x xs'
                  (value_nested_ind Q HUndefined HNull HBool HNum HStr HArr HObj x)
                  (elements xs')
            end) xs)
  | VObj fs =>
      HObj fs
        ((fix members (fs : list (string * value))
            : Forall (fun kv => Q (snd kv)) fs :=
            match fs with
            | [] => @List.Forall_nil _ _
            | kv :: fs' =>
                @List.Forall_cons _ (fun kv => Q (snd kv)) kv fs'
                  (value_nested_ind Q HUndefined HNull HBool HNum HStr HArr HObj (snd kv))
                  (members fs')
            end) fs)
  end.

(** The values [String] converts: all but the objects with a member
    [toString] of their own, and the arrays that hold one (at any
    depth). *)
Fixpoint convertible (v : value) : bool :=
  match v with
  | VArr xs => forallb convertible xs
  | VObj fs => negb (has_own "toString" fs)
  | _ => true
  end.

(* ===================================================================== *)
(** * The platform: runtime primitives and external services              *)
(* ===================================================================== *)

Record http_response := {
  res_ok : bool;
  res_status : Z;
  res_statusText : string;
  res_json : result value;          (* outcome of [res.json()] *)
}.

Inductive http_outcome :=
| NetFail (e : exn)                 (* [fetch] itself rejects *)
| NetResp (r : http_response).

(** ** Chat messages (agent) *)

Inductive Role := system | user | assistant | tool.

Record ToolCall := {
  tc_id : string;
  tc_name : string;                 (* [function.name] *)
  tc_arguments : string;            (* [function.arguments] *)
}.

(** [ChatMessage], with the [reasoning_content] field that objects coming
    from the backend may carry; [content] is [None] when the field is
    [null] or absent. *)
Record ChatMessage := {
  role : Role;
  content : option string;
  tool_call_id : option string;
  tool_calls : option (list ToolCall);
  reasoning_content : option string;
}.

Record ToolDef := {
  name : string;
  description : string;
  inputSchema : value;
}.

Record LlmRequest := {
  lr_url : string;
  lr_authorization : string;
  lr_model : string;
  lr_messages : list ChatMessage;
  lr_tools : list ToolDef;
}.

Inductive llm_outcome :=
| LlmFail (e : exn)                       (* [fetch] or [res.json()] rejects *)
| LlmHttpError (status : Z) (text : string)  (* [!res.ok] *)
| LlmOk (choices : list ChatMessage).     (* [data.choices[i].message] *)

Record Platform := {
  (* runtime primitives *)
  Number_toString : number -> string;
  encodeURIComponent_str : string -> option string;  (* [None]: URIError *)
  URLSearchParams_encode : string -> string;
  toLowerCase : string -> string;
  replace_whitespace_runs : string -> string;        (* [.replace(/\s+/g, "-")] *)
  JSON_stringify : value -> string;                  (* [JSON.stringify(v)] *)
  JSON_stringify_indent : value -> string;           (* [JSON.stringify(v, null, 2)] *)
  JSON_parse : string -> result value;
  (* external services; the first argument counts the earlier calls *)
  off_http : nat -> string -> http_outcome;          (* OpenFoodFacts *)
  glm_http : nat -> LlmRequest -> llm_outcome;       (* chat completions *)
  (* the exchanges of [McpClient] with the remote MCP endpoint, by outcome *)
  mcp_listTools : nat -> result (list ToolDef);      (* [McpClient.listTools] *)
  mcp_callTool : nat -> string -> value -> result string; (* [McpClient.callTool] *)
  randomUUID : nat -> string;
  Date_now : nat -> Z;
}.

(* ===================================================================== *)
(** * State-and-exception monad                                           *)
(* ===================================================================== *)

Definition M (S A : Type) : Type := S -> result A * S.

Definition ret {S A} (a : A) : M S A := fun s => (Ok a, s).
Definition throw {S A} (e : exn) : M S A := fun s => (Throw e, s).
Definition of_result {S A} (r : result A) : M S A := fun s => (r, s).

Definition bind {S A B} (m : M S A) (k : A -> M S B) : M S B :=
  fun s =>
    match m s with
    | (Ok a, s') => k a s'
    | (Throw e, s') => (Throw e, s')
    end.

(** [try { m } catch (err) { h err }] *)
Definition try_catch {S A} (m : M S A) (h : exn -> M S A) : M S A :=
  fun s =>
    match m s with
    | (Ok a, s') => (Ok a, s')
    | (Throw e, s') => h e s'
    end.

Definition gets {S A} (f : S -> A) : M S A := fun s => (Ok (f s), s).
Definition modify {S} (f : S -> S) : M S unit := fun s => (Ok tt, f s).

(** Run a computation over a component [T] of the state [S]. *)
Definition lift {S T A} (proj : S -> T) (upd : T -> S -> S) (m : M T A) : M S A :=
  fun s => let (r, t') := m (proj s) in (r, upd t' s).

Notation "'let*' x ':=' m 'in' k" := (bind m (fun x => k))
  (at level 10, x name, m at level 100, k at level 200).
Notation "m ';;' k" := (bind m (fun _ => k))
  (at level 100, k at level 200, right associativity).

(** Map with a fallible function; the first [Throw] aborts
    ([Array.prototype.map] with a callback that throws). *)
Fixpoint mapR {A B} (f : A -> result B) (l : list A) : result (list B) :=
  match l with
  | [] => Ok []
  | x :: l' =>
      match f x with
      | Throw e => Throw e
      | Ok y =>
          match mapR f l' with
          | Throw e => Throw e
          | Ok ys => Ok (y :: ys)
          end
      end
  end.

(** [Promise.allSettled]: every computation is started in array order and
    its outcome recorded; the aggregate never rejects. *)
Fixpoint allSettled {S A} (ms : list (M S A)) : M S (list (result A)) :=
  match ms with
  | [] => ret []
  | m :: ms' =>
      fun s =>
        let (r, s') := m s in
        match allSettled ms' s' with
        | (Ok rs, s'') => (Ok (r :: rs), s'')
        | (Throw e, s'') => (Throw e, s'')
        end
  end.

(* ===================================================================== *)
(** * Tool schemas (shared by the MCP catalogue and the built-in one)     *)
(* ===================================================================== *)

Definition schema_field (type descr : string) : value :=
  VObj [ ("type", VStr type); ("description", VStr descr) ].

Definition schema_object (properties : list (string * value))
    (required : list string) : value :=
  VObj [ ("type", VStr "object");
         ("properties", VObj properties);
         ("required", VArr (List.map VStr required)) ].

Definition schema_barcode_lookup : value :=
  schema_object
    [ ("barcode", schema_field "string"
         "The product barcode (EAN-13 or UPC-A), e.g. '3017620422003' for Nutella") ]
    [ "barcode" ].

Definition schema_search : value :=
  schema_object
    [ ("query", schema_field "string" "Product name or keyword to search for");
      ("page", schema_field "number" "Page number (default 1)");
      ("page_size", schema_field "number" "Results per page, max 50 (default 5)") ]
    [ "query" ].

Definition schema_category : value :=
  schema_object
    [ ("category", schema_field "string" "Food category name");
      ("page", schema_field "number" "Page number (default 1)");
      ("page_size", schema_field "number" "Results per page (default 5)") ]
    [ "category" ].

Definition schema_compare : value :=
  schema_object
    [ ("barcodes",
        VObj [ ("type", VStr "array");
               ("items", VObj [ ("type", VStr "string") ]);
               ("description", VStr "Array of barcodes to compare") ]) ]
    [ "barcodes" ].

Definition schema_allergen : value :=
  schema_object [ ("barcode", schema_field "string" "Product barcode") ] [ "barcode" ].

(* ===================================================================== *)
(** * OpenFoodFacts tools                                                 *)
(* ===================================================================== *)

Module Tools.

(** What the tool layer changes: the number of requests issued to the data
    source, and (for observation only) the executor invocations made
    through [dispatchTool], oldest first. *)
Record tool_state := {
  off_calls : nat;
  dispatch_log : list (string * value);
}.

Definition T := M tool_state.

Definition OFF_BASE : string := "https://world.openfoodfacts.org".

(** [TOOL_DEFINITIONS]: the built-in catalogue, each entry being the
    [function] member of an OpenAI-style [{type: "function", function}]. *)
Definition TOOL_DEFINITIONS : list ToolDef :=
  [ {| name := "get_product_by_barcode";
       description := "Look up a food product by its barcode (EAN/UPC). Returns full nutritional facts, Nutri-Score, ingredients, allergens.";
       inputSchema := schema_barcode_lookup |};
    {| name := "search_products";
       description := "Search the OpenFoodFacts database by product name or keyword. Returns a list of matching products with nutritional info.";
       inputSchema := schema_search |};
    {| name := "get_products_by_category";
       description := "Browse products in a specific food category, e.g. 'breakfast-cereals', 'yogurts', 'sodas'.";
       inputSchema := schema_category |};
    {| name := "compare_products";
       description := "Compare nutritional facts and Nutri-Score across multiple products by their barcodes.";
       inputSchema := schema_compare |};
    {| name := "get_allergen_info";
       description := "Get allergen and trace information for a product by barcode. Useful for dietary restriction checks.";
       inputSchema := schema_allergen |} ].

Definition product_url (enc : string) : string :=
  OFF_BASE ++ "/api/v2/product/" ++ enc ++ ".json".

Definition allergen_url (enc : string) : string :=
  OFF_BASE ++ "/api/v2/product/" ++ enc
    ++ ".json?fields=product_name,allergens,allergens_tags,traces,traces_tags".

Section WithPlatform.
Variable P : Platform.

(** [String(v)] and template-literal interpolation, on data (parsed JSON
    and object literals of the program, which hold no function). An array
    is joined with commas, [null] and [undefined] elements giving the
    empty text. An object is converted by [Object.prototype.toString]
    unless it has a member [toString] of its own: that member is not
    callable, neither is a [valueOf] of its own, and the inherited
    [valueOf] returns the object, so the conversion throws. *)
Fixpoint ToString (v : value) : result string :=
  match v with
  | VUndefined => Ok "undefined"
  | VNull => Ok "null"
  | VBool true => Ok "true"
  | VBool false => Ok "false"
  | VNum n => Ok (Number_toString P n)
  | VStr s => Ok s
  | VArr xs =>
      let+ pieces :=
        (fix join (xs : list value) : result (list string) :=
           match xs with
           | [] => Ok []
           | x :: xs' =>
               let+ piece := (if nullish x then Ok "" else ToString x) in
               let+ rest := join xs' in
               Ok (piece :: rest)
           end) xs in
      Ok (String.concat "," pieces)
  | VObj fs =>
      if has_own "toString" fs
      then Throw (TypeError "Cannot convert object to primitive value")
      else Ok "[object Object]"
  end.

Definition encodeURIComponent (v : value) : result string :=
  let+ text := ToString v in
  match encodeURIComponent_str P text with
  | Some s => Ok s
  | None => Throw (URIError "URI malformed")
  end.

(** [offFetch(url)] *)
Definition offFetch (url : string) : T value :=
  fun s =>
    let s' := {| off_calls := S (off_calls s); dispatch_log := dispatch_log s |} in
    match off_http P (off_calls s) url with
    | NetFail e => (Throw e, s')
    | NetResp r =>
        if res_ok r then (res_json r, s')
        else (Throw (Error ("OpenFoodFacts " ++ pretty (res_status r) ++ ": "
                              ++ res_statusText r)), s')
    end.

(** [summarise(p)]: [p] is whatever the data source sent. *)
Definition summarise (p : value) : result value :=
  let+ n0 := get p "nutriments" in
  let n := n0 ?? VObj [] in
  let+ code := ToString (prop p "code" ?? VStr "") in
  let+ product_name :=
    ToString (prop p "product_name" ?? prop p "product_name_en" ?? VStr "Unknown") in
  let+ brands := ToString (prop p "brands" ?? VStr "") in
  let+ categories := ToString (prop p "categories" ?? VStr "") in
  let+ nutriscore_grade := ToString (prop p "nutriscore_grade" ?? VStr "unknown") in
  let+ ecoscore_grade := ToString (prop p "ecoscore_grade" ?? VStr "unknown") in
  let+ image_url :=
    ToString (prop p "image_front_url" ?? prop p "image_url" ?? VStr "") in
  let+ ingredients_text :=
    ToString (prop p "ingredients_text" ?? prop p "ingredients_text_en" ?? VStr "") in
  let+ allergens := ToString (prop p "allergens" ?? VStr "") in
  let+ quantity := ToString (prop p "quantity" ?? VStr "") in
      Ok (VObj
        [ ("code", VStr code);
          ("product_name", VStr product_name);
          ("brands", VStr brands);
          ("categories", VStr categories);
          ("nutriscore_grade", VStr nutriscore_grade);
          ("nova_group", prop p "nova_group" ?? VStr "unknown");
          ("ecoscore_grade", VStr ecoscore_grade);
          ("image_url", VStr image_url);
          ("nutriments", VObj
             [ ("energy_kcal_100g", prop n "energy_kcal_100g");
               ("fat_100g", prop n "fat_100g");
               ("saturated_fat_100g",
                  prop n "saturated-fat_100g" ?? prop n "saturated_fat_100g");
               ("carbohydrates_100g", prop n "carbohydrates_100g");
               ("sugars_100g", prop n "sugars_100g");
               ("fiber_100g", prop n "fiber_100g");
               ("proteins_100g", prop n "proteins_100g");
               ("salt_100g", prop n "salt_100g");
               ("sodium_100g", prop n "sodium_100g") ]);
          ("ingredients_text", VStr ingredients_text);
          ("allergens", VStr allergens);
          ("quantity", VStr quantity) ]).

(** TOOL 1: [getProductByBarcode(barcode)] *)
Definition getProductByBarcode (barcode : value) : T value :=
  let* enc := of_result (encodeURIComponent barcode) in
  let* data := offFetch (product_url enc) in
  let* product := of_result (get data "product") in
  if negb (truthy product)
  then
    let* text := of_result (ToString barcode) in
    throw (Error ("Product not found for barcode " ++ text))
  else of_result (summarise product).

(** [(data.products ?? []).map(summarise)] *)
Definition summarise_all (products : value) : result value :=
  match products ?? VArr [] with
  | VArr ps =>
      match mapR summarise ps with
      | Ok l => Ok (VArr l)
      | Throw e => Throw e
      end
  | _ => Throw (TypeError "(data.products ?? []).map is not a function")
  end.

Definition listing (data : value) : result value :=
  match get data "count" with
  | Throw e => Throw e
  | Ok c =>
      match summarise_all (prop data "products") with
      | Throw e => Throw e
      | Ok ps => Ok (VObj [ ("count", c ?? VNum num_0); ("products", ps) ])
      end
  end.

(** TOOL 2: [searchProducts(query, page, pageSize)] *)
Definition searchProducts (query page pageSize : value) : T value :=
  let page := match page with VUndefined => VNum num_1 | _ => page end in
  let pageSize := match pageSize with VUndefined => VNum num_5 | _ => pageSize end in
  let* search_terms := of_result (ToString query) in
  let* page := of_result (ToString page) in
  let* page_size := of_result (ToString pageSize) in
  let url :=
    OFF_BASE ++ "/cgi/search.pl?search_terms="
      ++ URLSearchParams_encode P search_terms
      ++ "&search_simple=1&action=process&json=true&page="
      ++ URLSearchParams_encode P page
      ++ "&page_size=" ++ URLSearchParams_encode P page_size in
  let* data := offFetch url in
  of_result (listing data).

(** TOOL 3: [getProductsByCategory(category, page, pageSize)] *)
Definition getProductsByCategory (category page pageSize : value) : T value :=
  let page := match page with VUndefined => VNum num_1 | _ => page end in
  let pageSize := match pageSize with VUndefined => VNum num_5 | _ => pageSize end in
  match category with
  | VStr c =>
      let tag := replace_whitespace_runs P (toLowerCase P c) in
      let* enc := of_result (encodeURIComponent (VStr tag)) in
      let* page := of_result (ToString page) in
      let* page_size := of_result (ToString pageSize) in
      let url := OFF_BASE ++ "/category/" ++ enc ++ ".json?page=" ++ page
                   ++ "&page_size=" ++ page_size in
      let* data := offFetch url in
      of_result (listing data)
  | VUndefined =>
      throw (TypeError "Cannot read properties of undefined (reading 'toLowerCase')")
  | VNull =>
      throw (TypeError "Cannot read properties of null (reading 'toLowerCase')")
  | _ => throw (TypeError "category.toLowerCase is not a function")
  end.

(** The [filter(fulfilled).map(value)] stage of [compareProducts]. *)
Definition fulfilled {A} (r : result A) : bool :=
  match r with Ok _ => true | Throw _ => false end.

Definition fulfilled_values {A} (rs : list (result A)) : list A :=
  omap (fun r => match r with Ok v => Some v | Throw _ => None end)
       (List.filter fulfilled rs).

(** TOOL 4: [compareProducts(barcodes)] *)
Definition compareProducts (barcodes : value) : T value :=
  match barcodes with
  | VArr bs =>
      let* results := allSettled (List.map getProductByBarcode bs) in
      ret (VArr (fulfilled_values results))
  | VUndefined =>
      throw (TypeError "Cannot read properties of undefined (reading 'map')")
  | VNull =>
      throw (TypeError "Cannot read properties of null (reading 'map')")
  | _ => throw (TypeError "barcodes.map is not a function")
  end.

(** TOOL 5: [getAllergenInfo(barcode)] *)
Definition getAllergenInfo (barcode : value) : T value :=
  let* enc := of_result (encodeURIComponent barcode) in
  let* data := offFetch (allergen_url enc) in
  let* p0 := of_result (get data "product") in
  let p := p0 ?? VObj [] in
  let* product_name := of_result (ToString (prop p "product_name" ?? VStr "Unknown")) in
  let* allergens := of_result (ToString (prop p "allergens" ?? VStr "")) in
  let* traces := of_result (ToString (prop p "traces" ?? VStr "")) in
  ret (VObj
    [ ("product_name", VStr product_name);
      ("allergens", VStr allergens);
      ("allergens_tags", prop p "allergens_tags" ?? VArr []);
      ("traces", VStr traces);
      ("traces_tags", prop p "traces_tags" ?? VArr []) ]).

Definition log_dispatch (name : string) (args : value) : T unit :=
  modify (fun s => {| off_calls := off_calls s;
                      dispatch_log := dispatch_log s ++ [(name, args)] |}).

(** [dispatchTool(name, args)] *)
Definition dispatchTool (name : string) (args : value) : T value :=
  log_dispatch name args ;;
  if String.eqb name "get_product_by_barcode" then
    let* barcode := of_result (get args "barcode") in
    getProductByBarcode barcode
  else if String.eqb name "search_products" then
    let* query := of_result (get args "query") in
    searchProducts query (prop args "page" ?? VNum num_1)
                   (prop args "page_size" ?? VNum num_5)
  else if String.eqb name "get_products_by_category" then
    let* category := of_result (get args "category") in
    getProductsByCategory category (prop args "page" ?? VNum num_1)
                          (prop args "page_size" ?? VNum num_5)
  else if String.eqb name "compare_products" then
    let* barcodes := of_result (get args "barcodes") in
    compareProducts barcodes
  else if String.eqb name "get_allergen_info" then
    let* barcode := of_result (get args "barcode") in
    getAllergenInfo barcode
  else throw (Error ("Unknown tool: " ++ name)).

End WithPlatform.
End Tools.

(* ===================================================================== *)
(** * MCP Streamable-HTTP server                                          *)
(* ===================================================================== *)

Module Mcp.
Import Tools.

Definition MCP_PROTOCOL_VERSION : string := "2025-03-26".

Definition SERVER_INFO : value :=
  VObj [ ("name", VStr "NutriAgent-MCP"); ("version", VStr "1.2.0") ].

Definition SERVER_CAPABILITIES : value :=
  VObj [ ("tools", VObj [ ("listChanged", VBool false) ]) ].

Definition MCP_TOOLS : list ToolDef :=
  [ {| name := "get_product_by_barcode";
       description := "Look up a food product by its barcode (EAN/UPC). Returns full nutritional facts, Nutri-Score, ingredients, allergens.";
       inputSchema := schema_barcode_lookup |};
    {| name := "search_products";
       description := "Search the OpenFoodFacts database by product name or keyword. Returns matching products with nutritional info.";
       inputSchema := schema_search |};
    {| name := "get_products_by_category";
       description := "Browse products in a specific food category, e.g. 'breakfast-cereals', 'yogurts', 'sodas'.";
       inputSchema := schema_category |};
    {| name := "compare_products";
       description := "Compare nutritional facts and Nutri-Score across multiple products by their barcodes.";
       inputSchema := schema_compare |};
    {| name := "get_allergen_info";
       description := "Get allergen and trace information for a product by barcode. Useful for dietary restriction checks.";
       inputSchema := schema_allergen |} ].

Definition tool_value (t : ToolDef) : value :=
  VObj [ ("name", VStr (name t));
         ("description", VStr (description t));
         ("inputSchema", inputSchema t) ].

(** The isolate's mutable state: the tool layer's, the session store
    ([Map<string, {createdAt}>]) and the draws made from the UUID generator
    and the clock. *)
Record gw_state := {
  tools : tool_state;
  sessions : gmap string Z;
  uuid_draws : nat;
  clock_reads : nat;
}.

Definition G := M gw_state.

Definition set_tools (t : tool_state) (s : gw_state) : gw_state :=
  {| tools := t; sessions := sessions s;
     uuid_draws := uuid_draws s; clock_reads := clock_reads s |}.

(** ** JSON-RPC envelopes and HTTP messages *)

Inductive rpc_payload :=
| RpcResult (result : value)
| RpcError (code : Z) (msg : string) (data : value).

Record JsonRpcResponse := {
  jsonrpc : string;
  rpc_id : value;
  payload : rpc_payload;
}.

Definition rpcOk (id result : value) : JsonRpcResponse :=
  {| jsonrpc := "2.0"; rpc_id := id; payload := RpcResult result |}.

Definition rpcError (id : value) (code : Z) (msg : string) : JsonRpcResponse :=
  {| jsonrpc := "2.0"; rpc_id := id; payload := RpcError code msg VUndefined |}.

(** The parts of a [Request] the server reads; a header is [None] when
    [headers.get] returns [null]. *)
Record Request := {
  method : string;
  authorization : option string;
  mcp_session_id : option string;
  content_type : option string;
  body_json : result value;         (* outcome of [request.json()] *)
}.

Record Env := {
  MCP_API_KEY : option string;
  GLM_API_KEY : option string;
  GLM_BASE_URL : option string;
  GLM_MODEL : option string;
}.

Inductive resp_body :=
| NoBody
| TextBody (text : string)
| JsonRpcBody (r : JsonRpcResponse)
| JsonRpcBatch (rs : list JsonRpcResponse)
| SseStream (first_chunk : string)
| ChatBody (response : option string).

Record Response := {
  status : Z;
  headers : list (string * string);
  rbody : resp_body;
}.

Fixpoint header_get (h : string) (hs : list (string * string)) : option string :=
  match hs with
  | [] => None
  | (k, v) :: hs' => if String.eqb k h then Some v else header_get h hs'
  end.

(** [Response.json(data, {status, headers})]: the content type is supplied
    when the caller gives none. *)
Definition Response_json (b : resp_body) (st : Z) (hs : list (string * string))
    : Response :=
  {| status := st;
     headers := match header_get "Content-Type" hs with
                | Some _ => hs
                | None => hs ++ [ ("Content-Type", "application/json") ]
                end;
     rbody := b |}.

(** [new Response(text, {status})]: a body that is a text gets the
    content type of plain text. *)
Definition Response_text (text : string) (st : Z) : Response :=
  {| status := st;
     headers := [ ("Content-Type", "text/plain;charset=UTF-8") ];
     rbody := TextBody text |}.

(** [s.includes(sub)] *)
Definition includes (sub s : string) : bool :=
  match String.index 0 sub s with Some _ => true | None => false end.

(** [!s] for an optional string. *)
Definition absent (o : option string) : bool :=
  match o with
  | None => true
  | Some s => String.eqb s ""
  end.

(** [checkMcpAuth(request, env)] *)
Definition checkMcpAuth (request : Request) (env : Env) : option Response :=
  match MCP_API_KEY env with
  | None => None
  | Some key =>
      if String.eqb key "" then None
      else
        let unauthorized msg :=
          Some (Response_json (JsonRpcBody (rpcError VNull (-32001) msg)) 401
                  [ ("Content-Type", "application/json") ]) in
        match authorization request with
        | None => unauthorized "Unauthorized: Bearer token required"
        | Some auth =>
            if absent (Some auth) || negb (String.prefix "Bearer " auth)
            then unauthorized "Unauthorized: Bearer token required"
            else
              let token := String.substring 7 (String.length auth - 7) auth in
              if negb (String.eqb token key)
              then unauthorized "Unauthorized: invalid token"
              else None
        end
  end.

Definition method_is (m : value) (s : string) : bool :=
  match m with
  | VStr m' => String.eqb m' s
  | _ => false
  end.

(** [MCP_TOOLS.find((t) => t.name === toolName)] *)
Definition find_tool (toolName : value) : option ToolDef :=
  List.find (fun t => method_is toolName (name t)) MCP_TOOLS.

Definition tool_result (text : string) (isError : bool) : value :=
  VObj [ ("content", VArr [ VObj [ ("type", VStr "text"); ("text", VStr text) ] ]);
         ("isError", VBool isError) ].

(** [v as string], for a value that is a string. *)
Definition as_string (v : value) : string :=
  match v with
  | VStr s => s
  | _ => ""
  end.

Section WithPlatform.
Variable P : Platform.

(** [getOrCreateSession(sessionId)] *)
Definition getOrCreateSession (sessionId : option string) : G string :=
  fun s =>
    let known :=
      match sessionId with
      | Some sid =>
          negb (String.eqb sid "") && bool_decide (is_Some (sessions s !! sid))
      | None => false
      end in
    match sessionId, known with
    | Some sid, true => (Ok sid, s)
    | _, _ =>
        let id := randomUUID P (uuid_draws s) in
        (Ok id,
         {| tools := tools s;
            sessions := <[ id := Date_now P (clock_reads s) ]> (sessions s);
            uuid_draws := S (uuid_draws s);
            clock_reads := S (clock_reads s) |})
    end.

(** [handleToolCall(id, params)] *)
Definition handleToolCall (id params : value) : G JsonRpcResponse :=
  if negb (truthy params) || negb (truthy (prop params "name")) then
    ret (rpcError id (-32602) "Missing required parameter: name")
  else
    let toolName := prop params "name" in
    let args := prop params "arguments" ?? VObj [] in
    match find_tool toolName with
    | None =>
        let* text := of_result (ToString P toolName) in
        ret (rpcError id (-32602) ("Unknown tool: " ++ text))
    | Some _ =>
        (* [toolName] is a string here, being [===] to a registered name *)
        try_catch
          (let* result := lift tools set_tools
                            (dispatchTool P (as_string toolName) args) in
           ret (rpcOk id (tool_result (JSON_stringify_indent P result) false)))
          (fun err =>
             ret (rpcOk id (tool_result ("Error: " ++ message err) true)))
    end.

(** [handleRpcMethod(req)] *)
Definition handleRpcMethod (req : value) : G (option JsonRpcResponse) :=
  let* id0 := of_result (get req "id") in
  let id := id0 ?? VNull in
  let m := prop req "method" in
  if method_is m "notifications/initialized" then ret None
  else if method_is m "notifications/cancelled" then ret None
  else if method_is m "initialize" then
    ret (Some (rpcOk id (VObj [ ("protocolVersion", VStr MCP_PROTOCOL_VERSION);
                                ("serverInfo", SERVER_INFO);
                                ("capabilities", SERVER_CAPABILITIES) ])))
  else if method_is m "ping" then ret (Some (rpcOk id (VObj [])))
  else if method_is m "tools/list" then
    ret (Some (rpcOk id (VObj [ ("tools", VArr (List.map tool_value MCP_TOOLS)) ])))
  else if method_is m "tools/call" then
    let* r := handleToolCall id (prop req "params") in
    ret (Some r)
  else
    let* text := of_result (ToString P m) in
    ret (Some (rpcError id (-32601) ("Method not found: " ++ text))).

(** [Promise.all(body.map(handleRpcMethod))]: every call is started, in
    array order; the aggregate rejects with the first rejection. *)
Fixpoint first_throw {A} (rs : list (result A)) : result (list A) :=
  match rs with
  | [] => Ok []
  | Throw e :: _ => Throw e
  | Ok a :: rs' =>
      match first_throw rs' with
      | Ok l => Ok (a :: l)
      | Throw e => Throw e
      end
  end.

Definition Promise_all {S A} (ms : list (M S A)) : M S (list A) :=
  let* rs := allSettled ms in
  of_result (first_throw rs).

Definition session_header (sid : string) : list (string * string) :=
  [ ("Mcp-Session-Id", sid) ].

(** [handleMcpRequest(request, env)] *)
Definition handleMcpRequest (request : Request) (env : Env) : G Response :=
  match checkMcpAuth request env with
  | Some authErr => ret authErr
  | None =>
      if String.eqb (method request) "GET" then
        let* sessionId := getOrCreateSession (mcp_session_id request) in
        ret {| status := 200;
               headers := [ ("Content-Type", "text/event-stream");
                            ("Cache-Control", "no-cache");
                            ("Connection", "keep-alive");
                            ("Mcp-Session-Id", sessionId) ];
               rbody := SseStream (": MCP SSE keepalive" ++ LF ++ LF) |}
      else if String.eqb (method request) "DELETE" then
        (match mcp_session_id request with
         | Some sid =>
             if String.eqb sid "" then ret tt
             else modify (fun s =>
                    {| tools := tools s; sessions := delete sid (sessions s);
                       uuid_draws := uuid_draws s; clock_reads := clock_reads s |})
         | None => ret tt
         end) ;;
        ret {| status := 204; headers := []; rbody := NoBody |}
      else if negb (String.eqb (method request) "POST") then
        ret (Response_text "Method Not Allowed" 405)
      else
        let contentType := default "" (content_type request) in
        if negb (includes "application/json" contentType) then
          ret (Response_json
                 (JsonRpcBody (rpcError VNull (-32700)
                                 "Content-Type must be application/json")) 415 [])
        else
          match body_json request with
          | Throw _ =>
              ret (Response_json (JsonRpcBody (rpcError VNull (-32700) "Parse error"))
                     400 [])
          | Ok (VArr reqs) =>
              let* results := Promise_all (List.map handleRpcMethod reqs) in
              let responses := omap (fun r => r) results in
              let* sessionId := getOrCreateSession (mcp_session_id request) in
              match responses with
              | [] => ret {| status := 202; headers := session_header sessionId;
                             rbody := NoBody |}
              | _ => ret (Response_json (JsonRpcBatch responses) 200
                            [ ("Content-Type", "application/json");
                              ("Mcp-Session-Id", sessionId) ])
              end
          | Ok rpcReq =>
              let* sessionId := getOrCreateSession (mcp_session_id request) in
              let* result := handleRpcMethod rpcReq in
              match result with
              | None => ret {| status := 202; headers := session_header sessionId;
                               rbody := NoBody |}
              | Some r => ret (Response_json (JsonRpcBody r) 200
                                 [ ("Content-Type", "application/json");
                                   ("Mcp-Session-Id", sessionId) ])
              end
          end
  end.

End WithPlatform.
End Mcp.

(* ===================================================================== *)
(** * The agent (Durable Object)                                          *)
(* ===================================================================== *)

Module Agent.
Import Tools Mcp.

Definition SYSTEM_PROMPT : string :=
  String.concat LF
    [ "You are NutriAgent, a friendly and knowledgeable nutrition assistant.";
      "You help users explore food products, check nutritional facts, compare items,";
      "and understand food labels using the OpenFoodFacts database.";
      "";
      "CAPABILITIES (via tools):";
      "• Look up any product by barcode (EAN/UPC)";
      "• Search products by name or keyword";
      "• Browse products by category";
      "• Compare nutritional profiles across products";
      "• Check allergens and traces for dietary restrictions";
      "";
      "GUIDELINES:";
      "• Always use the tools to get real data — never make up nutritional values.";
      "• Present nutrient data in a clear, readable format.";
      "• Explain Nutri-Score (A-E), NOVA group (1-4), and Eco-Score when relevant.";
      "• If a product is not found, suggest alternative searches.";
      "• Be concise but thorough. Use tables when comparing products.";
      "• When listing nutrients use per-100g values with units.";
      "• Proactively warn about allergens when they appear in results." ].

(** Messages put on the WebSocket connection by [connection.send]. *)
Inductive ws_event :=
| EvWelcome (text : string)
| EvPipeline (step status detail : string)
| EvStatus (status : string)
| EvToolCall (tool args : string)
| EvResponse (content : string)
| EvError (text : string).

(** The Durable Object: the persisted [AgentState], the cached tool
    catalogue, the tool layer's state, the calls made so far to the
    backend and through the MCP client, and what was sent on the
    connection (oldest first). *)
Record agent_state := {
  messages : list ChatMessage;
  conversationId : string;
  llmTools : option (list ToolDef);
  ag_tools : tool_state;
  glm_calls : nat;
  mcp_calls : nat;
  sent : list ws_event;
}.

Definition A := M agent_state.

Definition set_ag_tools (t : tool_state) (s : agent_state) : agent_state :=
  {| messages := messages s; conversationId := conversationId s;
     llmTools := llmTools s; ag_tools := t; glm_calls := glm_calls s;
     mcp_calls := mcp_calls s; sent := sent s |}.

Definition set_messages (h : list ChatMessage) (s : agent_state) : agent_state :=
  {| messages := h; conversationId := conversationId s;
     llmTools := llmTools s; ag_tools := ag_tools s; glm_calls := glm_calls s;
     mcp_calls := mcp_calls s; sent := sent s |}.

Definition set_llmTools (t : list ToolDef) (s : agent_state) : agent_state :=
  {| messages := messages s; conversationId := conversationId s;
     llmTools := Some t; ag_tools := ag_tools s; glm_calls := glm_calls s;
     mcp_calls := mcp_calls s; sent := sent s |}.

Definition tick_glm (s : agent_state) : agent_state :=
  {| messages := messages s; conversationId := conversationId s;
     llmTools := llmTools s; ag_tools := ag_tools s; glm_calls := S (glm_calls s);
     mcp_calls := mcp_calls s; sent := sent s |}.

Definition tick_mcp (s : agent_state) : agent_state :=
  {| messages := messages s; conversationId := conversationId s;
     llmTools := llmTools s; ag_tools := ag_tools s; glm_calls := glm_calls s;
     mcp_calls := S (mcp_calls s); sent := sent s |}.

Definition push_sent (e : ws_event) (s : agent_state) : agent_state :=
  {| messages := messages s; conversationId := conversationId s;
     llmTools := llmTools s; ag_tools := ag_tools s; glm_calls := glm_calls s;
     mcp_calls := mcp_calls s; sent := sent s ++ [e] |}.

(** [connection.send(JSON.stringify(e))] *)
Definition send (e : ws_event) : A unit := modify (push_sent e).

(** [sendPipeline(connection, step, status, detail)] *)
Definition sendPipeline (step status detail : string) : A unit :=
  send (EvPipeline step status detail).

Definition plain (r : Role) (text : string) : ChatMessage :=
  {| role := r; content := Some text; tool_call_id := None;
     tool_calls := None; reasoning_content := None |}.

Definition tool_turn (id result : string) : ChatMessage :=
  {| role := tool; content := Some result; tool_call_id := Some id;
     tool_calls := None; reasoning_content := None |}.

(** [assistantMessage.tool_calls && assistantMessage.tool_calls.length > 0]
    holds exactly when this list is not empty. *)
Definition requested (m : ChatMessage) : list ToolCall :=
  default [] (tool_calls m).

(** [m.content ?? ""] *)
Definition final_answer (m : ChatMessage) : string :=
  default "" (content m).

(** The body of [callLLM] after the response is parsed: the backend may
    put the answer in [reasoning_content]. *)
Definition normalise (msg : ChatMessage) : ChatMessage :=
  if absent (content msg) && negb (absent (reasoning_content msg))
  then {| role := role msg; content := reasoning_content msg;
          tool_call_id := tool_call_id msg; tool_calls := tool_calls msg;
          reasoning_content := reasoning_content msg |}
  else msg.

(** The part of [callLLM] that reads the backend's response. *)
Definition read_completion (o : llm_outcome) : result ChatMessage :=
  match o with
  | LlmFail e => Throw e
  | LlmHttpError st text => Throw (Error ("GLM API " ++ pretty st ++ ": " ++ text))
  | LlmOk [] =>
      Throw (TypeError "Cannot read properties of undefined (reading 'message')")
  | LlmOk (msg :: _) => Ok (normalise msg)
  end.

Section WithPlatform.
Variable P : Platform.
Variable env : Env.

(** [getLLMTools()] *)
Definition getLLMTools : A (list ToolDef) :=
  fun s =>
    match llmTools s with
    | Some t => (Ok t, s)
    | None =>
        let t :=
          match mcp_listTools P (mcp_calls s) with
          | Ok mcpTools =>
              List.map (fun t => {| name := name t; description := description t;
                                    inputSchema := inputSchema t |}) mcpTools
          | Throw _ => TOOL_DEFINITIONS
          end in
        (Ok t, set_llmTools t (tick_mcp s))
    end.

(** [executeTool(name, args)] *)
Definition executeTool (name : string) (args : value) : A string :=
  try_catch
    (fun s => (mcp_callTool P (mcp_calls s) name args, tick_mcp s))
    (fun _ =>
       let* result := lift ag_tools set_ag_tools (dispatchTool P name args) in
       ret (JSON_stringify_indent P result)).

(** [callLLM(messages)] *)
Definition callLLM (history : list ChatMessage) : A ChatMessage :=
  let apiKey := default "undefined" (GLM_API_KEY env) in
  let baseUrl := default "https://api.z.ai/api/paas/v4" (GLM_BASE_URL env) in
  let model := default "GLM-4.7-Flash" (GLM_MODEL env) in
  let* tools := getLLMTools in
  let body :=
    {| lr_url := baseUrl ++ "/chat/completions";
       lr_authorization := "Bearer " ++ apiKey;
       lr_model := model;
       lr_messages := plain system SYSTEM_PROMPT :: history;
       lr_tools := tools |} in
  fun s => (read_completion (glm_http P (glm_calls s) body), tick_glm s).

Definition when (b : bool) (m : A unit) : A unit := if b then m else ret tt.

(** The [try { JSON.parse; executeTool } catch (err) { ... }] block that
    computes the text of one tool-result turn. *)
Definition tool_call_result (tc : ToolCall) : A string :=
  try_catch
    (let* args := of_result (JSON_parse P (tc_arguments tc)) in
     executeTool (tc_name tc) args)
    (fun err =>
       ret (JSON_stringify P (VObj [ ("error", VStr (String_of_exn err)) ]))).

(** The [for (const tc of assistantMessage.tool_calls)] loop; with
    [interactive] the progress events of [handleChat] are sent, without it
    this is the loop of [onRequest]. *)
Fixpoint run_tool_calls (interactive : bool) (tcs : list ToolCall)
    (history : list ChatMessage) : A (list ChatMessage) :=
  match tcs with
  | [] => ret history
  | tc :: tcs' =>
      when interactive
        (sendPipeline "tools" "active" ("Executing " ++ tc_name tc) ;;
         send (EvToolCall (tc_name tc) (tc_arguments tc))) ;;
      let* result := tool_call_result tc in
      when interactive
        (sendPipeline "tools" "complete" (tc_name tc ++ " returned data")) ;;
      run_tool_calls interactive tcs' (history ++ [ tool_turn (tc_id tc) result ])
  end.

(** The [while (tool_calls && tool_calls.length > 0 && maxIterations-- > 0)]
    loop: returns the last backend message and the history. *)
Fixpoint tool_loop (interactive : bool) (maxIterations : nat)
    (assistantMessage : ChatMessage) (history : list ChatMessage)
    : A (ChatMessage * list ChatMessage) :=
  match requested assistantMessage, maxIterations with
  | _ :: _, S remaining =>
      let history := (history ++ [ assistantMessage ])%list in
      when interactive
        (sendPipeline "mcp" "active" "Routing tool calls via MCP Server") ;;
      let* history := run_tool_calls interactive (requested assistantMessage) history in
      when interactive
        (sendPipeline "llm" "active" "Analyzing tool results" ;;
         send (EvStatus "thinking")) ;;
      let* next := callLLM history in
      tool_loop interactive remaining next history
  | _, _ => ret (assistantMessage, history)
  end.

(** [handleChat(connection, userMessage)] *)
Definition handleChat (userMessage : string) : A unit :=
  let* previous := gets messages in
  let history := (previous ++ [ plain user userMessage ])%list in
  sendPipeline "agent" "active" "Processing your query" ;;
  send (EvStatus "thinking") ;;
  try_catch
    (sendPipeline "llm" "active" "Reasoning with GLM-4.7-Flash" ;;
     let* first := callLLM history in
     let* r := tool_loop true 8 first history in
     modify (set_messages (snd r ++ [ plain assistant (final_answer (fst r)) ])) ;;
     sendPipeline "done" "complete" "Response ready" ;;
     send (EvResponse (final_answer (fst r))))
    (fun err =>
       sendPipeline "done" "complete" "Error encountered" ;;
       send (EvError ("Sorry, something went wrong: " ++ message err))).

(** The parts of the HTTP request [onRequest] reads; [chat_message] is the
    outcome of [const { message } = await request.json()]. *)
Record ChatRequest := {
  pathname : string;
  http_method : string;
  chat_message : result string;
}.

(** [onRequest(request)] *)
Definition onRequest (request : ChatRequest) : A Response :=
  if String.eqb (pathname request) "/api/chat"
     && String.eqb (http_method request) "POST" then
    let* msg := of_result (chat_message request) in
    let* previous := gets messages in
    let history := (previous ++ [ plain user msg ])%list in
    let* first := callLLM history in
    let* r := tool_loop false 8 first history in
    modify (set_messages (snd r ++ [ plain assistant (final_answer (fst r)) ])) ;;
    ret (Response_json (ChatBody (content (fst r))) 200 [])
  else
    ret (Response_text "NutriAgent is running" 200).

End WithPlatform.
End Agent.

(* ===================================================================== *)
(** * Notions used to state the properties                                *)
(* ===================================================================== *)

Import Tools Mcp Agent.

(** The five tool names of the registry. *)
Definition registered_names : list string :=
  [ "get_product_by_barcode"; "search_products"; "get_products_by_category";
    "compare_products"; "get_allergen_info" ].

(** "Every [tools/call] with a name outside the registry is answered with
    the invalid-params error", read literally. *)
Definition unknown_name_always_rejected (P : Platform) : Prop :=
  forall id params w,
    (forall n, In n registered_names -> prop params "name" <> VStr n) ->
    exists msg,
      fst (handleToolCall P id params w) = Ok (rpcError id (-32602) msg).

(** The data source answered, with a JSON document that carries no product
    record ([product] is absent or [null]). *)
Definition no_product_record (o : http_outcome) : Prop :=
  exists r data,
    o = NetResp r /\ res_ok r = true /\ res_json r = Ok data /\
    nullish data = false /\ nullish (prop data "product") = true.

(** What the comparison tool is to return: the barcodes are looked up in
    input order, the summary of a lookup that succeeds is kept, a lookup
    that fails contributes nothing. The second component is the state of
    the tool layer after all lookups. *)
Fixpoint successful_summaries (P : Platform) (barcodes : list value)
    (s : tool_state) : list value * tool_state :=
  match barcodes with
  | [] => ([], s)
  | b :: rest =>
      match getProductByBarcode P b s with
      | (Ok summary, s1) =>
          let (l, s2) := successful_summaries P rest s1 in (summary :: l, s2)
      | (Throw _, s1) => successful_summaries P rest s1
      end
  end.

(** The envelopes the dispatcher treats as notifications: those whose
    method is one of the two notification methods of the protocol,
    whether they carry an identifier or not. *)
Definition is_notification (req : value) : bool :=
  method_is (prop req "method") "notifications/initialized"
  || method_is (prop req "method") "notifications/cancelled".


(** The call of a tool that [handleToolCall] can answer: the name is
    missing or falsy, or registered, or a value that converts to text. *)
Definition answerable_call (params : value) : bool :=
  negb (truthy params && truthy (prop params "name"))
  || match find_tool (prop params "name") with Some _ => true | None => false end
  || convertible (prop params "name").

(** The envelopes the dispatcher handles without an exception: any value
    but [null] and [undefined] whose method is one of the five it answers
    by itself, or [tools/call] with a call that can be answered, or any
    other value that converts to text. *)
Definition dispatchable (req : value) : bool :=
  negb (nullish req) &&
  (let m := prop req "method" in
   if existsb (method_is m)
        [ "notifications/initialized"; "notifications/cancelled"; "initialize";
          "ping"; "tools/list" ]
   then true
   else if method_is m "tools/call" then answerable_call (prop req "params")
   else convertible m).

(** [req.id ?? null] *)
Definition envelope_id (req : value) : value := prop req "id" ?? VNull.


(** A POST request that reaches the JSON-RPC dispatcher with the body [b]. *)
Definition json_post (request : Request) (b : value) : Prop :=
  method request = "POST" /\
  includes "application/json" (default "" (content_type request)) = true /\
  body_json request = Ok b.


(** [sessionId && sessions.has(sessionId)] *)
Definition recognised (sessionId : option string) (w : gw_state) : bool :=
  match sessionId with
  | Some sid => negb (String.eqb sid "") && bool_decide (is_Some (sessions w !! sid))
  | None => false
  end.

(** The session token a request is answered with, and the session store
    afterwards: a recognised identifier is kept and the store is left
    alone, otherwise the next identifier of the generator is registered. *)
Definition session_after (P : Platform) (sessionId : option string) (w : gw_state)
    : string * gmap string Z :=
  if recognised sessionId w then (default "" sessionId, sessions w)
  else (randomUUID P (uuid_draws w),
        <[ randomUUID P (uuid_draws w) := Date_now P (clock_reads w) ]> (sessions w)).

(** The session store after the close operation. *)
Definition closed_sessions (sessionId : option string) (w : gw_state)
    : gmap string Z :=
  match sessionId with
  | Some sid => if String.eqb sid "" then sessions w else delete sid (sessions w)
  | None => sessions w
  end.

Definition set_sessions (m : gmap string Z) (w : gw_state) : gw_state :=
  {| tools := tools w; sessions := m;
     uuid_draws := uuid_draws w; clock_reads := clock_reads w |}.

(** The first sentence of the session contract, read literally: whatever
    the request, the response carries a session token. *)
Definition every_response_has_session_token (P : Platform) : Prop :=
  forall request env w resp w',
    handleMcpRequest P request env w = (Ok resp, w') ->
    is_Some (header_get "Mcp-Session-Id" (headers resp)).

(** The gateway state outside the tool layer. *)
Definition same_sessions (w w' : gw_state) : Prop :=
  sessions w' = sessions w /\ uuid_draws w' = uuid_draws w /\
  clock_reads w' = clock_reads w.

(** ** The agent's loop *)

(** The event that opens a round of tool calls in [handleChat]. *)
Definition is_round_start (e : ws_event) : bool :=
  match e with
  | EvPipeline step status _ => String.eqb step "mcp" && String.eqb status "active"
  | _ => false
  end.

Definition rounds_started (evs : list ws_event) : nat :=
  length (List.filter is_round_start evs).

Definition is_tool_turn (m : ChatMessage) : bool :=
  match role m with tool => true | _ => false end.

(** The tool-result turns among the turns of a history. *)
Definition tool_result_turns (h : list ChatMessage) : nat :=
  length (List.filter is_tool_turn h).

(** [m] is the tool-result turn of the invocation [tc]. *)
Definition is_result_of (tc : ToolCall) (m : ChatMessage) : Prop :=
  exists result, m = tool_turn (tc_id tc) result.

(** A round of the loop: the backend message that requested tools, and
    the tool-result turns appended for it. *)
Definition round : Type := ChatMessage * list ChatMessage.

Definition round_turns (rd : round) : list ChatMessage := fst rd :: snd rd.

Definition well_formed_round (rd : round) : Prop :=
  requested (fst rd) <> [] /\ Forall2 is_result_of (requested (fst rd)) (snd rd).

(** The content of a backend message as the adapter is to return it: the
    primary content, or the reasoning text when the primary content is
    empty or missing and a reasoning text (not empty) is present. *)
Definition effective_content (m : ChatMessage) : option string :=
  match content m, reasoning_content m with
  | None, Some r => if String.eqb r "" then None else Some r
  | Some c, Some r =>
      if String.eqb c "" then (if String.eqb r "" then Some c else Some r) else Some c
  | c, None => c
  end.

(** "The alternate field does not leak above the adapter", read
    literally: the message handed to the loop carries no reasoning
    field. *)
Definition reasoning_stays_behind_adapter (P : Platform) (env : Env) : Prop :=
  forall h w m w',
    callLLM P env h w = (Ok m, w') -> reasoning_content m = None.

(** The backend answers every request with a completion. *)
Definition backend_answers (P : Platform) : Prop :=
  forall n req, exists m rest, glm_http P n req = LlmOk (m :: rest).

(** "N rounds of tool invocations append exactly N tool-result turns",
    read literally, for one run of [handleChat]. *)
Definition tool_turns_equal_rounds (P : Platform) (env : Env) (utterance : string)
    (w : agent_state) : Prop :=
  let w' := snd (handleChat P env utterance w) in
  tool_result_turns (drop (length (messages w)) (messages w')) =
  rounds_started (drop (length (sent w)) (sent w')).

(** Steps of the agent that leave the conversation, the backend counter
    and the connection alone. *)
Definition quiet (w w' : agent_state) : Prop :=
  glm_calls w' = glm_calls w /\ messages w' = messages w /\ sent w' = sent w.

(** The state in which [handleChat] leaves the agent when it fails. *)
Definition chat_failed (err : exn) (w : agent_state) : agent_state :=
  push_sent (EvError ("Sorry, something went wrong: " ++ message err))
    (push_sent (EvPipeline "done" "complete" "Error encountered") w).

(** The state in which [handleChat] leaves the agent when it answers. *)
Definition chat_answered (last : ChatMessage) (history : list ChatMessage)
    (w : agent_state) : agent_state :=
  push_sent (EvResponse (final_answer last))
    (push_sent (EvPipeline "done" "complete" "Response ready")
       (set_messages (history ++ [ plain assistant (final_answer last) ]) w)).

(** The state of the agent when [handleChat] calls the backend first. *)
Definition chat_started (w : agent_state) : agent_state :=
  push_sent (EvPipeline "llm" "active" "Reasoning with GLM-4.7-Flash")
    (push_sent (EvStatus "thinking")
       (push_sent (EvPipeline "agent" "active" "Processing your query") w)).

(** [url.pathname === "/api/chat" && request.method === "POST"] *)
Definition is_chat (request : ChatRequest) : bool :=
  String.eqb (pathname request) "/api/chat" && String.eqb (http_method request) "POST".

(* ===================================================================== *)
(** * Concrete platforms, used to run the model on examples               *)
(* ===================================================================== *)

(** A platform whose runtime primitives are the simplest ones and whose
    MCP endpoint is unreachable (so that tools run in process); the data
    source and the backend are given. *)
Definition platform_with (off : nat -> string -> http_outcome)
    (glm : nat -> LlmRequest -> llm_outcome) : Platform :=
  {| Number_toString := fun _ => "0";
     encodeURIComponent_str := Some;
     URLSearchParams_encode := fun s => s;
     toLowerCase := fun s => s;
     replace_whitespace_runs := fun s => s;
     JSON_stringify := fun _ => "{}";
     JSON_stringify_indent := fun _ => "{}";
     JSON_parse := fun _ => Ok (VObj []);
     off_http := off;
     glm_http := glm;
     mcp_listTools := fun _ => Throw (Error "fetch failed");
     mcp_callTool := fun _ _ _ => Throw (Error "fetch failed");
     randomUUID := fun n => "uuid-" ++ pretty n;
     Date_now := fun n => (1700000000000 + Z.of_nat n)%Z |}.

Definition json_response (v : value) : http_outcome :=
  NetResp {| res_ok := true; res_status := 200; res_statusText := "OK";
             res_json := Ok v |}.

Definition not_found_response : http_outcome :=
  NetResp {| res_ok := false; res_status := 404; res_statusText := "Not Found";
             res_json := Ok (VObj [ ("status", VNum num_0) ]) |}.

Definition tool_state0 : tool_state := {| off_calls := 0; dispatch_log := [] |}.

Definition gw_state0 : gw_state :=
  {| tools := tool_state0; sessions := ∅; uuid_draws := 0; clock_reads := 0 |}.

Definition agent_state0 : agent_state :=
  {| messages := []; conversationId := "c-0"; llmTools := None;
     ag_tools := tool_state0; glm_calls := 0; mcp_calls := 0; sent := [] |}.

Definition env0 : Env :=
  {| MCP_API_KEY := None; GLM_API_KEY := Some "k"; GLM_BASE_URL := None;
     GLM_MODEL := None |}.

(** A data source that knows one product, under every URL. *)
Definition off_nutella : nat -> string -> http_outcome :=
  fun _ _ => json_response
    (VObj [ ("status", VNum num_1);
            ("product", VObj [ ("code", VStr "3017620422003");
                               ("product_name", VStr "Nutella") ]) ]).

(** A data source that answers without a product record. *)
Definition off_no_product : nat -> string -> http_outcome :=
  fun _ _ => json_response (VObj [ ("status", VNum num_0) ]).

(** A backend that never answers. *)
Definition glm_down : nat -> LlmRequest -> llm_outcome :=
  fun _ _ => LlmFail (Error "fetch failed").

Definition demo_platform : Platform := platform_with off_nutella glm_down.

(** Backend messages. *)
Definition tool_request (text : option string) (calls : list ToolCall)
    : ChatMessage :=
  {| role := assistant; content := text; tool_call_id := None;
     tool_calls := Some calls; reasoning_content := None |}.

Definition lookup_call (id : string) : ToolCall :=
  {| tc_id := id; tc_name := "get_product_by_barcode"; tc_arguments := "{}" |}.

(** A backend that asks for two lookups at once, then answers. *)
Definition glm_two_lookups : nat -> LlmRequest -> llm_outcome :=
  fun n _ =>
    if Nat.eqb n 0
    then LlmOk [ tool_request None [ lookup_call "call-A"; lookup_call "call-B" ] ]
    else LlmOk [ plain assistant "Only A was found." ].

(** A backend that asks for a tool in every answer. *)
Definition glm_always_tools : nat -> LlmRequest -> llm_outcome :=
  fun _ _ => LlmOk [ tool_request (Some "Still looking.") [ lookup_call "call-A" ] ].

(** A backend that asks for a lookup, reasoning aloud, and then answers in
    the alternate field. *)
Definition glm_lookup_then_reasoning : nat -> LlmRequest -> llm_outcome :=
  fun n _ =>
    if Nat.eqb n 0
    then LlmOk [ {| role := assistant; content := None; tool_call_id := None;
                    tool_calls := Some [ lookup_call "call-A" ];
                    reasoning_content := Some "I need the product first." |} ]
    else LlmOk [ {| role := assistant; content := Some ""; tool_call_id := None;
                    tool_calls := None;
                    reasoning_content := Some "About 539 kcal." |} ].

(** A backend that answers in the alternate field. *)
Definition glm_reasoning : nat -> LlmRequest -> llm_outcome :=
  fun _ _ =>
    LlmOk [ {| role := assistant; content := Some ""; tool_call_id := None;
               tool_calls := None; reasoning_content := Some "About 539 kcal." |} ].

(** Requests to the MCP endpoint. *)
Definition get_request : Request :=
  {| method := "GET"; authorization := None; mcp_session_id := None;
     content_type := None;
     body_json := Throw (SyntaxError "Unexpected end of JSON input") |}.

Definition delete_request : Request :=
  {| method := "DELETE"; authorization := None; mcp_session_id := Some "uuid-0";
     content_type := None;
     body_json := Throw (SyntaxError "Unexpected end of JSON input") |}.

Definition post_request (b : value) : Request :=
  {| method := "POST"; authorization := None; mcp_session_id := None;
     content_type := Some "application/json"; body_json := Ok b |}.

Definition envelope (id : value) (m : string) : value :=
  VObj [ ("jsonrpc", VStr "2.0"); ("id", id); ("method", VStr m) ].


(** The gateway after one session was opened. *)
Definition gw_state1 : gw_state :=
  {| tools := tool_state0; sessions := {[ "uuid-0" := 1700000000000%Z ]};
     uuid_draws := 1; clock_reads := 1 |}.

(* ===================================================================== *)
(** * Notions and models for the rest of the program                      *)
(* ===================================================================== *)

(** The keys of a product summary, in the order [summarise] writes them. *)
Definition summary_fields : list string :=
  [ "code"; "product_name"; "brands"; "categories"; "nutriscore_grade";
    "nova_group"; "ecoscore_grade"; "image_url"; "nutriments";
    "ingredients_text"; "allergens"; "quantity" ].

(** The members of a summary that [summarise] passes through [String]. *)
Definition summary_text_fields : list string :=
  [ "code"; "product_name"; "brands"; "categories"; "nutriscore_grade";
    "ecoscore_grade"; "image_url"; "ingredients_text"; "allergens"; "quantity" ].

(** The values [summarise] passes to [String], in the order of the
    summary. *)
Definition summarised_texts (p : value) : list value :=
  [ prop p "code" ?? VStr "";
    prop p "product_name" ?? prop p "product_name_en" ?? VStr "Unknown";
    prop p "brands" ?? VStr "";
    prop p "categories" ?? VStr "";
    prop p "nutriscore_grade" ?? VStr "unknown";
    prop p "ecoscore_grade" ?? VStr "unknown";
    prop p "image_front_url" ?? prop p "image_url" ?? VStr "";
    prop p "ingredients_text" ?? prop p "ingredients_text_en" ?? VStr "";
    prop p "allergens" ?? VStr "";
    prop p "quantity" ?? VStr "" ].

(** The raw products [summarise] accepts: any value but [null] and
    [undefined] whose texts convert. *)
Definition summarisable (p : value) : bool :=
  negb (nullish p) && forallb convertible (summarised_texts p).

(** The most requests to the data source a tool invocation may issue: one
    per barcode for the comparison, none for an unknown tool, one
    otherwise. *)
Definition request_budget (name : string) (args : value) : nat :=
  if String.eqb name "compare_products" then
    match prop args "barcodes" with
    | VArr bs => length bs
    | _ => 0
    end
  else if existsb (String.eqb name) registered_names then 1
  else 0.

(** A step of the tool layer that issues at most [n] requests and enters
    no executor. *)
Definition spends (n : nat) (s s' : tool_state) : Prop :=
  dispatch_log s' = dispatch_log s /\
  off_calls s <= off_calls s' /\ off_calls s' <= off_calls s + n.

(** The requests [handleMcpRequest] serves: they pass the bearer check and
    are a GET, a DELETE, or a POST of a JSON document. *)
Definition served (request : Request) (env : Env) : bool :=
  match checkMcpAuth request env with
  | Some _ => false
  | None =>
      String.eqb (method request) "GET" || String.eqb (method request) "DELETE"
      || (String.eqb (method request) "POST"
          && includes "application/json" (default "" (content_type request))
          && negb (is_throw (body_json request)))
  end.

(** The six methods the dispatcher knows. *)
Definition known_methods : list string :=
  [ "notifications/initialized"; "notifications/cancelled"; "initialize";
    "ping"; "tools/list"; "tools/call" ].

(** ** The interactive channel *)

(** A WebSocket message: a text, or binary data. *)
Inductive WSMessage :=
| WsText (text : string)
| WsBinary.

(** [onMessage] up to its call of [handleChat]: [Ok None] when the message
    is ignored, [Ok (Some c)] when [handleChat(connection, c)] is called
    with [c = parsed.content], [Throw] when reading [parsed.type] throws. *)
Definition onMessage_dispatch (P : Platform) (message : WSMessage)
    : result (option value) :=
  match message with
  | WsBinary => Ok None
  | WsText text =>
      let parsed :=
        match JSON_parse P text with
        | Ok v => v
        | Throw _ => VObj [ ("type", VStr "chat"); ("content", VStr text) ]
        end in
      match get parsed "type" with
      | Throw e => Throw e
      | Ok type =>
          if method_is type "chat" && truthy (prop parsed "content")
          then Ok (Some (prop parsed "content"))
          else Ok None
      end
  end.

(** [onMessage(connection, message)], for the messages whose content is a
    text (as the declared type of [parsed] has it). *)
Definition onMessage (P : Platform) (env : Env) (message : WSMessage)
    : option (A unit) :=
  match onMessage_dispatch P message with
  | Throw e => Some (throw e)
  | Ok None => Some (ret tt)
  | Ok (Some (VStr content)) => Some (handleChat P env content)
  | Ok (Some _) => None
  end.

(** [onConnect(connection)] *)
Definition onConnect : A unit :=
  send (EvWelcome "👋 Welcome to NutriAgent! Ask me about any food product — search by name, scan a barcode, or compare items.").

(* ===================================================================== *)
(** * MCP client                                                          *)
(* ===================================================================== *)

(** ** Header values

    A text stands for the UTF-8 bytes of a JavaScript string. What a
    header value becomes when it is set on a [Request] or a [Response]
    (Fetch standard): leading and trailing HTTP whitespace is removed;
    the value is refused, with a [TypeError], when what remains holds a
    NUL, a line feed or a carriage return, or when the string has a code
    point above U+00FF (it is no byte string). *)
Definition http_whitespace (a : Ascii.ascii) : bool :=
  let n := Ascii.nat_of_ascii a in
  Nat.eqb n 9 || Nat.eqb n 10 || Nat.eqb n 13 || Nat.eqb n 32.

Fixpoint strip_leading (s : string) : string :=
  match s with
  | EmptyString => EmptyString
  | String a s' => if http_whitespace a then strip_leading s' else s
  end.

Fixpoint strip_trailing (s : string) : string :=
  match s with
  | EmptyString => EmptyString
  | String a s' =>
      match strip_trailing s' with
      | EmptyString => if http_whitespace a then EmptyString else String a EmptyString
      | rest => String a rest
      end
  end.

Definition header_byte (a : Ascii.ascii) : bool :=
  let n := Ascii.nat_of_ascii a in
  negb (Nat.eqb n 0 || Nat.eqb n 10 || Nat.eqb n 13) && Nat.ltb n 196.

Definition header_value (v : string) : result string :=
  let v' := strip_trailing (strip_leading v) in
  if forallb header_byte (list_ascii_of_string v') then Ok v'
  else Throw (TypeError "Invalid header value.").

(** A text without HTTP whitespace and without a byte a header value
    cannot hold. *)
Definition header_safe (s : string) : bool :=
  forallb (fun a => header_byte a && negb (http_whitespace a))
    (list_ascii_of_string s).

Definition header_option (o : option string) : result (option string) :=
  match o with
  | None => Ok None
  | Some v => let+ v' := header_value v in Ok (Some v')
  end.

(** The double nearest to an integer (numeric literals and [Date.now()]). *)
Definition number_of_Z (z : Z) : number := binary_normalize 53 1024 z 0 false.

(** [JSON.parse(JSON.stringify(v))] for a value that is not [undefined]:
    members that are [undefined] are dropped from objects and become
    [null] in arrays, as do the numbers JSON cannot write. *)
Fixpoint wire (v : value) : value :=
  match v with
  | VNum (S754_zero _) => VNum num_0
  | VNum (S754_finite _ _ _) => v
  | VNum _ => VNull
  | VArr xs =>
      VArr (List.map (fun x => match x with VUndefined => VNull | _ => wire x end) xs)
  | VObj fs =>
      VObj (List.flat_map
              (fun '(k, x) => match x with VUndefined => [] | _ => [ (k, wire x) ] end)
              fs)
  | _ => v
  end.

(** The members of an object that survive serialisation. *)
Definition wire_fields (fs : list (string * value)) : list (string * value) :=
  List.flat_map
    (fun '(k, x) => match x with VUndefined => [] | _ => [ (k, wire x) ] end) fs.

Module Client.
Import Tools Mcp.

(** An [McpClient]: its key, the session it was given, whether the
    handshake was made, and the readings it took of the clock. *)
Record client := {
  apiKey : option string;
  sessionId : option string;
  initialized : bool;
  now_reads : nat;
}.

(** What [rpc] reads of the response of [fetch]. *)
Record Reply := {
  reply_status : Z;
  reply_session : option string;    (* [headers.get("mcp-session-id")] *)
  reply_text : result string;       (* [res.text()] *)
  reply_json : result value;        (* [res.json()] *)
}.

(** [res.ok] *)
Definition reply_ok (r : Reply) : bool :=
  (200 <=? reply_status r)%Z && (reply_status r <=? 299)%Z.

Definition set_session (sid : string) (c : client) : client :=
  {| apiKey := apiKey c; sessionId := Some sid;
     initialized := initialized c; now_reads := now_reads c |}.

Definition set_initialized (c : client) : client :=
  {| apiKey := apiKey c; sessionId := sessionId c;
     initialized := true; now_reads := now_reads c |}.

Definition tick_clock (c : client) : client :=
  {| apiKey := apiKey c; sessionId := sessionId c;
     initialized := initialized c; now_reads := S (now_reads c) |}.

(** [truthy ? Some : None] for an optional header value. *)
Definition present (o : option string) : option string :=
  if absent o then None else o.

Section WithTransport.
Variable P : Platform.
(** The endpoint behind [baseUrl]: [fetch(baseUrl, {method: "POST", ...})]
    acting on the state [W] of whatever serves it. The request's
    [body_json] is the document the client serialises. *)
Variable W : Type.
Variable fetch : Request -> M W Reply.

Definition C := M (client * W).

(** The end of [rpc]: the document of a successful response is an error
    to throw or carries the result. *)
Definition read_document (data : value) : result value :=
  let+ err := get data "error" in
  if truthy err then
    let+ code := ToString P (prop err "code") in
    let+ text := ToString P (prop err "message") in
    Throw (Error ("MCP error " ++ code ++ ": " ++ text))
  else Ok (prop data "result").

(** What [rpc] returns for a response. *)
Definition settle (res : Reply) : result value :=
  if (reply_status res =? 202)%Z then Ok VNull
  else if negb (reply_ok res) then
    match reply_text res with
    | Throw e => Throw e
    | Ok text =>
        Throw (Error ("MCP server " ++ pretty (reply_status res) ++ ": " ++ text))
    end
  else
    match reply_json res with
    | Throw e => Throw e
    | Ok data => read_document data
    end.

(** [if (sid) this.sessionId = sid] *)
Definition capture (sid : option string) (c : client) : client :=
  match present sid with
  | Some sid => set_session sid c
  | None => c
  end.

(** The request [rpc] sends: [POST] with the JSON content type, the
    bearer key and the session identifier when the client has them. *)
Definition rpc_request (c : client) (body : value) : Request :=
  {| Mcp.method := "POST";
     authorization :=
       match present (apiKey c) with
       | Some key => Some ("Bearer " ++ key)
       | None => None
       end;
     mcp_session_id := present (sessionId c);
     content_type := Some "application/json";
     body_json := Ok body |}.

Definition rpc_body (method : string) (params id : value) : value :=
  VObj ([ ("jsonrpc", VStr "2.0"); ("method", VStr method) ]
        ++ match id with VUndefined => [] | _ => [ ("id", id) ] end
        ++ (if truthy params then [ ("params", params) ] else []))%list.

(** [rpc(method, params, id)]; an omitted argument is [undefined]. *)
Definition rpc (method : string) (params id : value) : C value :=
  fun cw =>
    let (c, w) := cw in
    match fetch (rpc_request c (rpc_body method params id)) w with
    | (Throw e, w') => (Throw e, (c, w'))
    | (Ok res, w') => (settle res, (capture (reply_session res) c, w'))
    end.

(** [initialize()] *)
Definition initialize : C unit :=
  fun cw =>
    if initialized (fst cw) then (Ok tt, cw)
    else
      (rpc "initialize"
         (VObj [ ("protocolVersion", VStr "2025-03-26");
                 ("clientInfo", VObj [ ("name", VStr "NutriAgent");
                                       ("version", VStr "1.2.0") ]);
                 ("capabilities", VObj []) ])
         (VNum (number_of_Z 1)) ;;
       rpc "notifications/initialized" VUndefined VUndefined ;;
       modify (fun cw' => (set_initialized (fst cw'), snd cw'))) cw.

(** [listTools()] *)
Definition listTools : C value :=
  initialize ;;
  let* result := rpc "tools/list" VUndefined (VNum (number_of_Z 2)) in
  of_result (get result "tools").

(** [result.content.filter((c) => c.type === "text").map((c) => c.text)
    .join("\n")] *)
Definition text_of_content (content : value) : result string :=
  match content with
  | VArr cs =>
      match mapR (fun c => match get c "type" with
                           | Ok type => Ok (method_is type "text", prop c "text")
                           | Throw e => Throw e
                           end) cs with
      | Throw e => Throw e
      | Ok tagged =>
          let+ texts :=
            mapR (fun t => if nullish (snd t) then Ok "" else ToString P (snd t))
              (List.filter fst tagged) in
          Ok (String.concat LF texts)
      end
  | VUndefined =>
      Throw (TypeError "Cannot read properties of undefined (reading 'filter')")
  | VNull => Throw (TypeError "Cannot read properties of null (reading 'filter')")
  | _ => Throw (TypeError "result.content.filter is not a function")
  end.

(** [callTool(name, args)] *)
Definition callTool (name : string) (args : value) : C string :=
  initialize ;;
  let* now := (fun cw => (Ok (Date_now P (now_reads (fst cw))),
                          (tick_clock (fst cw), snd cw))) in
  let* result := rpc "tools/call"
                   (VObj [ ("name", VStr name); ("arguments", args) ])
                   (VNum (number_of_Z now)) in
  let* content := of_result (get result "content") in
  let* text := of_result (text_of_content content) in
  if truthy (prop result "isError") then throw (Error text) else ret text.

End WithTransport.

(** ** The client talking to the server of this program *)

(** A JSON-RPC response as a JSON document. *)
Definition rpc_json (r : JsonRpcResponse) : value :=
  VObj ([ ("jsonrpc", VStr (jsonrpc r)); ("id", rpc_id r) ]
        ++ match payload r with
           | RpcResult v => [ ("result", v) ]
           | RpcError code msg data =>
               [ ("error", VObj [ ("code", VNum (number_of_Z code));
                                  ("message", VStr msg);
                                  ("data", data) ]) ]
           end)%list.

Definition body_document (b : resp_body) : option value :=
  match b with
  | JsonRpcBody r => Some (rpc_json r)
  | JsonRpcBatch rs => Some (VArr (List.map rpc_json rs))
  | ChatBody response =>
      Some (VObj [ ("response", match response with
                                | Some text => VStr text
                                | None => VUndefined
                                end) ])
  | NoBody | TextBody _ | SseStream _ => None
  end.

(** The response of [handleMcpRequest] as the client reads it. The bodies
    the server sends in answer to a POST are JSON documents or empty. *)
Definition reply_of (P : Platform) (resp : Response) : Reply :=
  {| reply_status := status resp;
     reply_session := header_get "Mcp-Session-Id" (headers resp);
     reply_text :=
       match rbody resp, body_document (rbody resp) with
       | _, Some doc => Ok (JSON_stringify P doc)
       | TextBody text, None => Ok text
       | _, None => Ok ""
       end;
     reply_json :=
       match rbody resp, body_document (rbody resp) with
       | _, Some doc => Ok (wire doc)
       | TextBody text, None => JSON_parse P text
       | _, None => Throw (SyntaxError "Unexpected end of JSON input")
       end |}.

(** The request as the server receives it: [fetch] sets the header
    values (and rejects when one is refused), and the body travels as JSON
    text. *)
Definition received (request : Request) : result Request :=
  let+ auth := header_option (authorization request) in
  let+ sid := header_option (mcp_session_id request) in
  let+ ctype := header_option (content_type request) in
  Ok {| Mcp.method := Mcp.method request;
        authorization := auth;
        mcp_session_id := sid;
        content_type := ctype;
        body_json := match body_json request with
                     | Ok b => Ok (wire b)
                     | Throw e => Throw e
                     end |}.

(** The headers of a response, as set by its constructor. *)
Definition response_headers (hs : list (string * string))
    : result (list (string * string)) :=
  mapR (fun kv => let+ v := header_value (snd kv) in Ok (fst kv, v)) hs.

(** The endpoint [/mcp] of the Worker, which hands the request to
    [handleMcpRequest]. An exception of the handler, or of the constructor
    of its response, is taken as the failure of the exchange; the handler
    throws on none of the requests [rpc] builds. *)
Definition serve (P : Platform) (env : Env) (request : Request) : M gw_state Reply :=
  fun w =>
    match received request with
    | Throw e => (Throw e, w)
    | Ok request' =>
        match handleMcpRequest P request' env w with
        | (Ok resp, w') =>
            match response_headers (headers resp) with
            | Ok hs =>
                (Ok (reply_of P {| status := status resp; headers := hs;
                                   rbody := rbody resp |}), w')
            | Throw e => (Throw e, w')
            end
        | (Throw e, w') => (Throw e, w')
        end
    end.

End Client.

(** The [Authorization] header of the client as it arrives, when
    [fetch] accepts it. *)
Definition sent_authorization (c : Client.client) : result (option string) :=
  header_option (authorization (Client.rpc_request c VNull)).

(** The server lets the client's requests through: it expects no key, or
    the [Authorization] header arrives as ["Bearer "] followed by the key
    it expects (which asks that the client's key has no whitespace at its
    end and nothing a header cannot carry). *)
Definition credentials_match (env : Env) (c : Client.client) : Prop :=
  exists auth,
    sent_authorization c = Ok auth /\
    (absent (MCP_API_KEY env) = true \/
     exists key, MCP_API_KEY env = Some key /\ auth = Some ("Bearer " ++ key)).

(** A session identifier that a header carries unchanged. *)
Definition travels (s : string) : Prop := header_value s = Ok s.

(** The session identifier the client holds, if any, is one a header
    carries unchanged (the client only ever holds what it read from a
    header). *)
Definition session_travels (c : Client.client) : Prop :=
  forall s, Client.present (Client.sessionId c) = Some s -> travels s.

(** The state of the gateway after [getOrCreateSession]. *)
Definition session_opened (P : Platform) (sessionId : option string) (w : gw_state)
    : gw_state :=
  {| tools := tools w;
     sessions := snd (session_after P sessionId w);
     uuid_draws := if recognised sessionId w then uuid_draws w else S (uuid_draws w);
     clock_reads := if recognised sessionId w then clock_reads w
                    else S (clock_reads w) |}.

(** What one exchange without a tool call does to the client and to the
    gateway: a session is opened or recognised, and its token kept. *)
Definition session_step (P : Platform) (cw : Client.client * gw_state)
    : Client.client * gw_state :=
  let sid := Client.present (Client.sessionId (fst cw)) in
  (Client.capture (Some (fst (session_after P sid (snd cw)))) (fst cw),
   session_opened P sid (snd cw)).

(** The client and the gateway once the handshake is made. *)
Definition after_handshake (P : Platform) (cw : Client.client * gw_state)
    : Client.client * gw_state :=
  if Client.initialized (fst cw) then cw
  else let cw2 := session_step P (session_step P cw) in
       (Client.set_initialized (fst cw2), snd cw2).

(** The generator of session identifiers yields texts that are not empty
    and that a header carries unchanged, as UUIDs are. *)
Definition uuids_travel (P : Platform) : Prop :=
  forall n, randomUUID P n <> "" /\ travels (randomUUID P n).

(** The conditions under which the exchanges of a client are served. *)
Definition exchanges_served (P : Platform) (env : Env) (c : Client.client) : Prop :=
  credentials_match env c /\ session_travels c /\ uuids_travel P.

(* ===================================================================== *)
(** * Basic authentication of the chat UI                                 *)
(* ===================================================================== *)

Module Auth.
Import Mcp.

(** The members of [Env] that [checkAuth] reads. *)
Record AuthEnv := {
  AUTH_USER : option string;
  AUTH_PASS : option string;
}.

(** [isAuthEnabled(env)] *)
Definition isAuthEnabled (env : AuthEnv) : bool :=
  negb (absent (AUTH_USER env)) && negb (absent (AUTH_PASS env)).

Definition colon : Ascii.ascii := Ascii.ascii_of_nat 58.

(** [s.split(":")] *)
Fixpoint split_colon (s : string) : list string :=
  match s with
  | EmptyString => [ "" ]
  | String c s' =>
      if Ascii.eqb c colon then "" :: split_colon s'
      else match split_colon s' with
           | piece :: rest => String c piece :: rest
           | [] => [ String c "" ]
           end
  end.

Definition double_quote : string := String (Ascii.ascii_of_nat 34) EmptyString.

Section WithRuntime.
(** [atob], which throws on text that is not base64, and the login page
    (a file of the repository that is imported as a text). *)
Variable atob : string -> result string.
Variable LOGIN_HTML : string.

(** [unauthorizedResponse()] *)
Definition unauthorizedResponse : Response :=
  {| status := 401;
     headers := [ ("Content-Type", "text/html; charset=utf-8");
                  ("WWW-Authenticate",
                   "Basic realm=" ++ double_quote ++ "NutriAgent" ++ double_quote) ];
     rbody := TextBody LOGIN_HTML |}.

(** [checkAuth(request, env)] *)
Definition checkAuth (request : Request) (env : AuthEnv) : result (option Response) :=
  if negb (isAuthEnabled env) then Ok None
  else
    match authorization request with
    | None => Ok (Some unauthorizedResponse)
    | Some auth =>
        if absent (Some auth) || negb (String.prefix "Basic " auth)
        then Ok (Some unauthorizedResponse)
        else
          match atob (String.substring 6 (String.length auth - 6) auth) with
          | Throw e => Throw e
          | Ok decoded =>
              let pieces := split_colon decoded in
              let login := hd "" pieces in
              let pass := String.concat ":" (tl pieces) in
              if bool_decide (Some login = AUTH_USER env)
                 && bool_decide (Some pass = AUTH_PASS env)
              then Ok None
              else Ok (Some unauthorizedResponse)
          end
    end.

End WithRuntime.
End Auth.

(** A text without a colon. *)
Definition colon_free (s : string) : Prop :=
  forall a b, s <> a ++ ":" ++ b.

(** ** Further examples *)





(** The platform of the examples with a parser that accepts nothing. *)
Definition no_json : Platform :=
  {| Number_toString := Number_toString demo_platform;
     encodeURIComponent_str := encodeURIComponent_str demo_platform;
     URLSearchParams_encode := URLSearchParams_encode demo_platform;
     toLowerCase := toLowerCase demo_platform;
     replace_whitespace_runs := replace_whitespace_runs demo_platform;
     JSON_stringify := JSON_stringify demo_platform;
     JSON_stringify_indent := JSON_stringify_indent demo_platform;
     JSON_parse := fun _ => Throw (SyntaxError "Unexpected token");
     off_http := off_http demo_platform;
     glm_http := glm_http demo_platform;
     mcp_listTools := mcp_listTools demo_platform;
     mcp_callTool := mcp_callTool demo_platform;
     randomUUID := randomUUID demo_platform;
     Date_now := Date_now demo_platform |}.

Definition put_request : Request :=
  {| method := "PUT"; authorization := None; mcp_session_id := None;
     content_type := Some "application/json"; body_json := Ok (VObj []) |}.

Definition status_request : ChatRequest :=
  {| pathname := "/"; http_method := "GET";
     chat_message := Throw (SyntaxError "Unexpected end of JSON input") |}.

(** A server that expects a key, and clients without one. *)
Definition env_key : Env :=
  {| MCP_API_KEY := Some "s3cret"; GLM_API_KEY := Some "k"; GLM_BASE_URL := None;
     GLM_MODEL := None |}.

(** A client that holds the key of [env_key]. *)
Definition client_key : Client.client :=
  {| Client.apiKey := Some "s3cret"; Client.sessionId := None;
     Client.initialized := false; Client.now_reads := 0 |}.

(** Keys with and without a space at the end. *)
Definition env_abc : Env :=
  {| MCP_API_KEY := Some "abc"; GLM_API_KEY := Some "k"; GLM_BASE_URL := None;
     GLM_MODEL := None |}.

Definition env_abc_space : Env :=
  {| MCP_API_KEY := Some "abc "; GLM_API_KEY := Some "k"; GLM_BASE_URL := None;
     GLM_MODEL := None |}.

Definition client_abc_space : Client.client :=
  {| Client.apiKey := Some "abc "; Client.sessionId := None;
     Client.initialized := false; Client.now_reads := 0 |}.

Definition client0 : Client.client :=
  {| Client.apiKey := None; Client.sessionId := None;
     Client.initialized := false; Client.now_reads := 0 |}.

(** A client that made the handshake and holds the session of [gw_state1]. *)
Definition client1 : Client.client :=
  {| Client.apiKey := None; Client.sessionId := Some "uuid-0";
     Client.initialized := true; Client.now_reads := 1 |}.

(** Basic credentials, and the decoder on the one text the examples use. *)
Definition auth_env : Auth.AuthEnv :=
  {| Auth.AUTH_USER := Some "ada"; Auth.AUTH_PASS := Some "pw" |}.

Definition atob_example (s : string) : result string :=
  if String.eqb s "YWRhOnB3" then Ok "ada:pw"
  else Throw (Error "InvalidCharacterError").

Definition basic_request : Request :=
  {| method := "GET"; authorization := Some "Basic YWRhOnB3"; mcp_session_id := None;
     content_type := None;
     body_json := Throw (SyntaxError "Unexpected end of JSON input") |}.

(* ===================================================================== *)
(** * Properties of the tool registry and of [tools/call]                  *)
(* ===================================================================== *)

Lemma MCP_TOOLS_names : List.map name MCP_TOOLS = registered_names.
Proof. reflexivity. Qed.

Lemma find_tool_registered t :
  In t MCP_TOOLS -> find_tool (VStr (name t)) = Some t.
Proof.
  intros Hin. simpl in Hin.
  repeat (destruct Hin as [<- | Hin]; [ reflexivity | ]).
  destruct Hin.
Qed.

Lemma find_tool_some toolName t :
  find_tool toolName = Some t -> In t MCP_TOOLS /\ toolName = VStr (name t).
Proof.
  unfold find_tool. intros Hf.
  apply List.find_some in Hf as [Hin Hm]. split; [ exact Hin | ].
  unfold method_is in Hm. destruct toolName; try discriminate.
  apply String.eqb_eq in Hm. now subst.
Qed.

Lemma registered_name_truthy t :
  In t MCP_TOOLS -> truthy (VStr (name t)) = true.
Proof.
  intros Hin. simpl in Hin.
  repeat (destruct Hin as [<- | Hin]; [ reflexivity | ]).
  destruct Hin.
Qed.

Lemma prop_string_truthy params k s :
  prop params k = VStr s -> truthy params = true.
Proof. destruct params; simpl; intros H; try discriminate; reflexivity. Qed.

(** ** Conversion to text *)

Lemma ToString_array P xs :
  ToString P (VArr xs) =
    let+ pieces := mapR (fun x => if nullish x then Ok "" else ToString P x) xs in
    Ok (String.concat "," pieces).
Proof.
  cbn [ToString]. f_equal.
  induction xs as [ | x xs IH]; [ reflexivity | ].
  cbn [mapR]. rewrite <- IH.
  destruct (if nullish x then Ok "" else ToString P x); reflexivity.
Qed.

Lemma ToString_convertible P v :
  is_throw (ToString P v) = negb (convertible v).
Proof.
  induction v as [ | | b | n | s | xs IH | fs _ ] using value_nested_ind;
    try reflexivity.
  - destruct b; reflexivity.
  - rewrite ToString_array. cbn [convertible].
    induction IH as [ | x xs Hx _ IHxs]; [ reflexivity | ].
    cbn [mapR forallb bindR].
    destruct (nullish x) eqn:Hnull.
    + assert (Hc : convertible x = true) by (destruct x; try discriminate; reflexivity).
      rewrite Hc. cbn [andb bindR].
      destruct (mapR _ xs); cbn in *; exact IHxs.
    + destruct (ToString P x) as [piece | e]; cbn in Hx.
      * assert (Hc : convertible x = true) by (destruct (convertible x); [ reflexivity | discriminate ]).
        rewrite Hc. cbn [andb bindR].
        destruct (mapR _ xs); cbn in *; exact IHxs.
      * assert (Hc : convertible x = false) by (destruct (convertible x); [ discriminate | reflexivity ]).
        rewrite Hc. reflexivity.
  - cbn [ToString convertible]. destruct (has_own "toString" fs); reflexivity.
Qed.


Lemma ToString_throws P v e :
  ToString P v = Throw e -> convertible v = false.
Proof.
  intros Ht. pose proof (ToString_convertible P v) as H. rewrite Ht in H.
  destruct (convertible v); [ discriminate | reflexivity ].
Qed.

(** A conversion that fails throws a [TypeError]. *)
Lemma ToString_TypeError P v e :
  ToString P v = Throw e ->
  e = TypeError "Cannot convert object to primitive value".
Proof.
  revert e.
  induction v as [ | | b | n | s | xs IH | fs _ ] using value_nested_ind;
    intros e; try discriminate.
  - destruct b; discriminate.
  - rewrite ToString_array.
    induction IH as [ | x xs Hx _ IHxs]; [ discriminate | ].
    cbn [mapR bindR].
    destruct (nullish x).
    + cbn [bindR]. destruct (mapR _ xs) as [pieces | e']; cbn [bindR] in *;
        [ discriminate | ].
      intros [= <-]. apply IHxs. reflexivity.
    + destruct (ToString P x) as [piece | e']; cbn [bindR].
      * destruct (mapR _ xs) as [pieces | e'']; cbn [bindR] in *;
          [ discriminate | ].
        intros [= <-]. apply IHxs. reflexivity.
      * intros [= <-]. apply Hx. reflexivity.
  - cbn [ToString]. destruct (has_own "toString" fs); [ | discriminate ].
    now intros [= <-].
Qed.

(** C1. For every registered tool name, [tools/call] answers with a
    successful JSON-RPC response and never throws: the result is the
    object [{content: [{type: "text", text}], isError}], with
    [isError: false] and the serialised result as text when the executor
    returns, and with [isError: true] and the failure text (the message
    of the exception after ["Error: "]) when the executor throws. *)
Theorem tools_call_wraps_executor_outcome
    (P : Platform) (id params : value) (t : ToolDef) (w : gw_state) :
  In t MCP_TOOLS ->
  prop params "name" = VStr (name t) ->
  let args := prop params "arguments" ?? VObj [] in
  let outcome := dispatchTool P (name t) args (tools w) in
  handleToolCall P id params w =
    (Ok {| jsonrpc := "2.0";
           rpc_id := id;
           payload :=
             RpcResult
               match fst outcome with
               | Ok result =>
                   VObj [ ("content",
                           VArr [ VObj [ ("type", VStr "text");
                                         ("text", VStr (JSON_stringify_indent P result)) ] ]);
                          ("isError", VBool false) ]
               | Throw err =>
                   VObj [ ("content",
                           VArr [ VObj [ ("type", VStr "text");
                                         ("text", VStr ("Error: " ++ message err)) ] ]);
                          ("isError", VBool true) ]
               end |},
     set_tools (snd outcome) w).
Proof.
  intros Hin Hname args outcome.
  unfold handleToolCall.
  rewrite (prop_string_truthy _ _ _ Hname), Hname, (registered_name_truthy _ Hin).
  rewrite (find_tool_registered _ Hin). cbn [negb orb as_string].
  unfold try_catch, bind, lift, ret. fold args. fold outcome.
  destruct outcome as [[result | err] t']; reflexivity.
Qed.

Lemma tools_call_wraps_executor_outcome_witness :
  handleToolCall (platform_with off_no_product glm_down) (VNum num_1)
    (VObj [ ("name", VStr "get_product_by_barcode");
            ("arguments", VObj [ ("barcode", VStr "0000000000000") ]) ]) gw_state0
  = (Ok {| jsonrpc := "2.0";
           rpc_id := VNum num_1;
           payload :=
             RpcResult
               (VObj [ ("content",
                        VArr [ VObj [ ("type", VStr "text");
                                      ("text", VStr "Error: Product not found for barcode 0000000000000") ] ]);
                       ("isError", VBool true) ]) |},
     {| tools := {| off_calls := 1;
                    dispatch_log := [ ("get_product_by_barcode",
                                       VObj [ ("barcode", VStr "0000000000000") ]) ] |};
        sessions := sessions gw_state0;
        uuid_draws := 0;
        clock_reads := 0 |}).
Proof.
  apply (tools_call_wraps_executor_outcome (platform_with off_no_product glm_down)
           (VNum num_1)
           (VObj [ ("name", VStr "get_product_by_barcode");
                   ("arguments", VObj [ ("barcode", VStr "0000000000000") ]) ])
           {| name := "get_product_by_barcode";
              description := "Look up a food product by its barcode (EAN/UPC). Returns full nutritional facts, Nutri-Score, ingredients, allergens.";
              inputSchema := schema_barcode_lookup |}
           gw_state0).
  - simpl. left. reflexivity.
  - reflexivity.
Defined.

(** C2. A [tools/call] whose name is not one of the five registered names
    never reaches an executor and leaves the whole state as it was (the
    log of [dispatchTool] invocations is unchanged and no request reaches
    the data source). When the name is missing or falsy, or converts to a
    text (as every string does), the answer is the JSON-RPC error -32602
    (invalid params); a name that does not convert to a text makes the
    handler throw the [TypeError] of the conversion instead. The
    catalogue is a constant of the program. *)
Theorem tools_call_unknown_name_rejected
    (P : Platform) (id params : value) (w : gw_state) :
  (forall n, In n registered_names -> prop params "name" <> VStr n) ->
  let invalid_params msg :=
    {| jsonrpc := "2.0"; rpc_id := id; payload := RpcError (-32602) msg VUndefined |} in
  List.map name MCP_TOOLS = registered_names /\
  snd (handleToolCall P id params w) = w /\
  (truthy params && truthy (prop params "name") = false ->
   fst (handleToolCall P id params w) =
     Ok (invalid_params "Missing required parameter: name")) /\
  (truthy params && truthy (prop params "name") = true ->
   (forall text,
      ToString P (prop params "name") = Ok text ->
      fst (handleToolCall P id params w) = Ok (invalid_params ("Unknown tool: " ++ text))) /\
   (convertible (prop params "name") = false ->
    fst (handleToolCall P id params w) =
      Throw (TypeError "Cannot convert object to primitive value"))) /\
  (forall s, prop params "name" = VStr s -> convertible (prop params "name") = true).
Proof.
  intros Hunknown invalid_params. split; [ reflexivity | ].
  assert (Hnone : truthy params && truthy (prop params "name") = true ->
                  find_tool (prop params "name") = None).
  { intros _. destruct (find_tool (prop params "name")) as [t | ] eqn:Hfind;
      [ | reflexivity ].
    apply find_tool_some in Hfind as [Hin Heq].
    exfalso. apply (Hunknown (name t)); [ | exact Heq ].
    rewrite <- MCP_TOOLS_names. now apply List.in_map. }
  unfold handleToolCall.
  destruct (truthy params) eqn:Hp; cbn [negb orb andb] in *.
  2: { repeat split; try discriminate; try reflexivity.
       intros s ->. reflexivity. }
  destruct (truthy (prop params "name")) eqn:Hn; cbn [negb orb andb] in *.
  2: { repeat split; try discriminate; try reflexivity.
       intros s ->. reflexivity. }
  rewrite (Hnone eq_refl). unfold bind, of_result, ret.
  repeat split; try discriminate.
  - destruct (ToString P (prop params "name")); reflexivity.
  - intros text ->. reflexivity.
  - intros Hc. pose proof (ToString_convertible P (prop params "name")) as Hconv.
    rewrite Hc in Hconv.
    destruct (ToString P (prop params "name")) as [text | e] eqn:Ht; [ discriminate | ].
    rewrite (ToString_TypeError _ _ _ Ht). reflexivity.
  - intros s ->. reflexivity.
Qed.

Lemma tools_call_unknown_name_rejected_witness :
  fst (handleToolCall (platform_with off_nutella glm_down) (VNum num_1)
         (VObj [ ("name", VStr "delete_everything") ]) gw_state0)
  = Ok {| jsonrpc := "2.0"; rpc_id := VNum num_1;
          payload := RpcError (-32602) "Unknown tool: delete_everything" VUndefined |}.
Proof.
  apply (tools_call_unknown_name_rejected (platform_with off_nutella glm_down)
           (VNum num_1) (VObj [ ("name", VStr "delete_everything") ]) gw_state0).
  - intros n Hn. simpl in Hn.
    repeat (destruct Hn as [<- | Hn]; [ discriminate | ]).
    destruct Hn.
  - reflexivity.
  - reflexivity.
Defined.

(** C2, as the claim states it: every name that is not registered is
    answered with the error -32602. A name that is an object with a member
    [toString] is not: the handler throws. *)
Lemma unknown_name_can_throw :
  ~ unknown_name_always_rejected (platform_with off_nutella glm_down).
Proof.
  intros H.
  destruct (H (VNum num_1)
              (VObj [ ("name", VObj [ ("toString", VNum num_1) ]) ]) gw_state0)
    as (msg & Hmsg).
  - intros n Hn. simpl in Hn.
    repeat (destruct Hn as [<- | Hn]; [ discriminate | ]).
    destruct Hn.
  - discriminate Hmsg.
Qed.

(* ===================================================================== *)
(** * Properties of the tool executors                                    *)
(* ===================================================================== *)

Lemma fulfilled_values_ok {A} (v : A) rs :
  fulfilled_values (Ok v :: rs) = v :: fulfilled_values rs.
Proof. reflexivity. Qed.

Lemma fulfilled_values_throw {A} e (rs : list (result A)) :
  fulfilled_values (Throw e :: rs) = fulfilled_values rs.
Proof. reflexivity. Qed.

Lemma allSettled_lookups P bs s :
  exists rs,
    allSettled (List.map (getProductByBarcode P) bs) s =
      (Ok rs, snd (successful_summaries P bs s)) /\
    fulfilled_values rs = fst (successful_summaries P bs s).
Proof.
  revert s. induction bs as [ | b rest IH]; intros s.
  - exists []. split; reflexivity.
  - cbn [List.map allSettled successful_summaries].
    destruct (getProductByBarcode P b s) as [r s1].
    destruct (IH s1) as (rs & Hrun & Hvals). rewrite Hrun.
    exists (r :: rs).
    destruct r as [summary | e];
      destruct (successful_summaries P rest s1) as [l s2]; cbn [fst snd] in *;
      split; try reflexivity.
    + rewrite fulfilled_values_ok. now rewrite Hvals.
    + rewrite fulfilled_values_throw. exact Hvals.
Qed.

Lemma compareProducts_eq P bs s :
  compareProducts P (VArr bs) s =
    (Ok (VArr (fst (successful_summaries P bs s))),
     snd (successful_summaries P bs s)).
Proof.
  unfold compareProducts, bind, ret.
  destruct (allSettled_lookups P bs s) as (rs & Hrun & Hvals).
  now rewrite Hrun, Hvals.
Qed.

(** C6. The comparison tool never fails because of a sub-lookup: for every
    list of barcodes it returns the summaries of exactly the lookups that
    succeeded, in input order. In particular, when the lookup of [a]
    succeeds and the lookup of [b] fails, the result holds the summary of
    [a] alone. *)
Theorem compareProducts_drops_failed_lookups (P : Platform) :
  (forall barcodes s,
     compareProducts P (VArr barcodes) s =
       (Ok (VArr (fst (successful_summaries P barcodes s))),
        snd (successful_summaries P barcodes s))) /\
  (forall a b s summary s1 err s2,
     getProductByBarcode P a s = (Ok summary, s1) ->
     getProductByBarcode P b s1 = (Throw err, s2) ->
     compareProducts P (VArr [a; b]) s = (Ok (VArr [summary]), s2)).
Proof.
  split.
  - apply compareProducts_eq.
  - intros a b s summary s1 err s2 Ha Hb.
    rewrite compareProducts_eq. cbn [successful_summaries].
    rewrite Ha, Hb. reflexivity.
Qed.

(** C10. When the data source answers without a product record, the
    allergen tool does not fail: it returns the placeholder record
    (name "Unknown", empty texts, empty tag lists), whereas the barcode
    lookup throws its not-found error on the same kind of answer. *)
Theorem allergen_info_defaults_when_product_missing
    (P : Platform) (barcode : value) (enc : string) (s : tool_state) :
  encodeURIComponent P barcode = Ok enc ->
  no_product_record (off_http P (off_calls s) (allergen_url enc)) ->
  no_product_record (off_http P (off_calls s) (product_url enc)) ->
  fst (getAllergenInfo P barcode s) =
    Ok (VObj [ ("product_name", VStr "Unknown");
               ("allergens", VStr "");
               ("allergens_tags", VArr []);
               ("traces", VStr "");
               ("traces_tags", VArr []) ]) /\
  exists text,
    ToString P barcode = Ok text /\
    fst (getProductByBarcode P barcode s) =
      Throw (Error ("Product not found for barcode " ++ text)).
Proof.
  intros Henc (r1 & d1 & Ho1 & Hok1 & Hj1 & Hd1 & Hp1)
         (r2 & d2 & Ho2 & Hok2 & Hj2 & Hd2 & Hp2).
  split.
  - unfold getAllergenInfo, bind, of_result, offFetch, ret.
    rewrite Henc, Ho1, Hok1, Hj1.
    destruct d1; try discriminate; simpl in *;
      try reflexivity.
    destruct (assoc "product" fields); try discriminate; reflexivity.
  - assert (Htext : exists text, ToString P barcode = Ok text).
    { unfold encodeURIComponent in Henc.
      destruct (ToString P barcode) as [text | e]; [ eauto | discriminate ]. }
    destruct Htext as (text & Htext). exists text. split; [ exact Htext | ].
    unfold getProductByBarcode, bind, of_result, offFetch, throw.
    rewrite Henc, Ho2, Hok2, Hj2, Htext.
    destruct d2; try discriminate; simpl in *;
      try reflexivity.
    destruct (assoc "product" fields); try discriminate; reflexivity.
Qed.

Lemma compareProducts_drops_failed_lookups_witness :
  compareProducts
    (platform_with
       (fun n url => if Nat.eqb n 0 then off_nutella n url else not_found_response)
       glm_down)
    (VArr [ VStr "3017620422003"; VStr "0000000000000" ]) tool_state0
  = (Ok (VArr
      [ VObj
        [ ("code", VStr "3017620422003"); ("product_name", VStr "Nutella");
          ("brands", VStr ""); ("categories", VStr "");
          ("nutriscore_grade", VStr "unknown"); ("nova_group", VStr "unknown");
          ("ecoscore_grade", VStr "unknown"); ("image_url", VStr "");
          ("nutriments", VObj
             [ ("energy_kcal_100g", VUndefined); ("fat_100g", VUndefined);
               ("saturated_fat_100g", VUndefined);
               ("carbohydrates_100g", VUndefined); ("sugars_100g", VUndefined);
               ("fiber_100g", VUndefined); ("proteins_100g", VUndefined);
               ("salt_100g", VUndefined); ("sodium_100g", VUndefined) ]);
          ("ingredients_text", VStr ""); ("allergens", VStr "");
          ("quantity", VStr "") ] ]),
     {| off_calls := 2; dispatch_log := [] |}).
Proof.
  eapply (proj2 (compareProducts_drops_failed_lookups _)); reflexivity.
Defined.

Lemma allergen_info_defaults_when_product_missing_witness :
  fst (getAllergenInfo (platform_with off_no_product glm_down)
         (VStr "0000000000000") tool_state0) =
    Ok (VObj [ ("product_name", VStr "Unknown");
               ("allergens", VStr "");
               ("allergens_tags", VArr []);
               ("traces", VStr "");
               ("traces_tags", VArr []) ]) /\
  fst (getProductByBarcode (platform_with off_no_product glm_down)
         (VStr "0000000000000") tool_state0) =
    Throw (Error "Product not found for barcode 0000000000000").
Proof.
  destruct (allergen_info_defaults_when_product_missing
              (platform_with off_no_product glm_down) (VStr "0000000000000")
              "0000000000000" tool_state0) as (Hallergen & text & Htext & Hlookup).
  - reflexivity.
  - eexists _, _. repeat split; reflexivity.
  - eexists _, _. repeat split; reflexivity.
  - split; [ exact Hallergen | ]. injection Htext as <-. exact Hlookup.
Defined.

(* ===================================================================== *)
(** * Properties of the JSON-RPC dispatcher                               *)
(* ===================================================================== *)

Lemma same_sessions_refl w : same_sessions w w.
Proof. repeat split. Qed.

Lemma same_sessions_trans w1 w2 w3 :
  same_sessions w1 w2 -> same_sessions w2 w3 -> same_sessions w1 w3.
Proof. unfold same_sessions. intros (-> & -> & ->) (-> & -> & ->). repeat split. Qed.

Lemma same_sessions_set_tools t w : same_sessions w (set_tools t w).
Proof. repeat split. Qed.

Create HintDb gateway.
#[local] Hint Resolve same_sessions_refl same_sessions_set_tools : gateway.

(** [handleToolCall] touches the tool layer only; it answers, with the
    identifier it was given, unless the name is neither registered nor
    convertible to text, and then it throws and changes nothing. *)
Lemma handleToolCall_run P id params w :
  exists r w',
    handleToolCall P id params w = (r, w') /\ same_sessions w w' /\
    if answerable_call params
    then exists a, r = Ok a /\ rpc_id a = id
    else r = Throw (TypeError "Cannot convert object to primitive value") /\ w' = w.
Proof.
  unfold handleToolCall, answerable_call.
  destruct (truthy params && truthy (prop params "name")) eqn:Hname.
  2: { replace (negb (truthy params) || negb (truthy (prop params "name"))) with true
         by (destruct (truthy params), (truthy (prop params "name")); try discriminate;
             reflexivity).
       eexists _, _. split; [ reflexivity | ]. split; [ auto with gateway | ].
       cbn [negb orb]. eexists. split; reflexivity. }
  replace (negb (truthy params) || negb (truthy (prop params "name"))) with false
    by (destruct (truthy params), (truthy (prop params "name")); try discriminate;
        reflexivity).
  cbn [negb orb].
  destruct (find_tool (prop params "name")) as [t | ].
  - cbn [orb]. unfold try_catch, bind, lift, ret.
    destruct (dispatchTool P _ _ (tools w)) as [[result | err] t'];
      eexists _, _; (split; [ reflexivity | ]); (split; [ auto with gateway | ]);
      eexists; split; reflexivity.
  - cbn [orb]. unfold bind, of_result, ret.
    pose proof (ToString_convertible P (prop params "name")) as Hconv.
    destruct (ToString P (prop params "name")) as [text | e] eqn:Htext.
    + eexists _, _. split; [ reflexivity | ]. split; [ auto with gateway | ].
      destruct (convertible (prop params "name")); [ | discriminate ].
      eexists. split; reflexivity.
    + eexists _, _. split; [ reflexivity | ]. split; [ auto with gateway | ].
      destruct (convertible (prop params "name")); [ discriminate | ].
      rewrite (ToString_TypeError _ _ _ Htext). split; reflexivity.
Qed.

Lemma get_not_nullish v k : nullish v = false -> get v k = Ok (prop v k).
Proof. destruct v; simpl; intros H; try discriminate; reflexivity. Qed.

(** What the dispatcher does with one entry of a batch: it touches the
    tool layer only; on an envelope it can dispatch it gives no answer
    exactly for a notification, and an answer carries the envelope's
    identifier; on any other entry it throws a [TypeError]. *)
Lemma handleRpcMethod_run P req w :
  exists r w',
    handleRpcMethod P req w = (r, w') /\ same_sessions w w' /\
    if dispatchable req
    then exists o, r = Ok o /\
                   if is_notification req then o = None
                   else exists a, o = Some a /\ rpc_id a = envelope_id req
    else exists msg, r = Throw (TypeError msg).
Proof.
  unfold handleRpcMethod, bind, of_result, dispatchable, is_notification.
  destruct (nullish req) eqn:Hreq.
  { destruct req; try discriminate; eexists _, _;
      (split; [ reflexivity | ]); (split; [ auto with gateway | ]);
      eexists; reflexivity. }
  rewrite (get_not_nullish _ _ Hreq). fold (envelope_id req).
  cbn [negb andb existsb].
  destruct (method_is (prop req "method") "notifications/initialized").
  { eexists _, _. split; [ reflexivity | ]. split; [ auto with gateway | ].
    eexists. split; reflexivity. }
  destruct (method_is (prop req "method") "notifications/cancelled").
  { eexists _, _. split; [ reflexivity | ]. split; [ auto with gateway | ].
    eexists. split; reflexivity. }
  cbn [orb].
  destruct (method_is (prop req "method") "initialize").
  { eexists _, _. split; [ reflexivity | ]. split; [ auto with gateway | ].
    eexists. split; [ reflexivity | ]. eexists. split; reflexivity. }
  destruct (method_is (prop req "method") "ping").
  { eexists _, _. split; [ reflexivity | ]. split; [ auto with gateway | ].
    eexists. split; [ reflexivity | ]. eexists. split; reflexivity. }
  destruct (method_is (prop req "method") "tools/list").
  { eexists _, _. split; [ reflexivity | ]. split; [ auto with gateway | ].
    eexists. split; [ reflexivity | ]. eexists. split; reflexivity. }
  cbn [orb].
  destruct (method_is (prop req "method") "tools/call").
  - destruct (handleToolCall_run P (envelope_id req) (prop req "params") w)
      as (r & w' & -> & Hframe & Hout).
    destruct (answerable_call (prop req "params")).
    + destruct Hout as (a & -> & Hid).
      eexists _, _. split; [ reflexivity | ]. split; [ exact Hframe | ].
      eexists. split; [ reflexivity | ]. eexists. split; [ reflexivity | exact Hid ].
    + destruct Hout as (-> & ->).
      eexists _, _. split; [ reflexivity | ]. split; [ auto with gateway | ].
      eexists. reflexivity.
  - pose proof (ToString_convertible P (prop req "method")) as Hconv.
    destruct (ToString P (prop req "method")) as [text | e] eqn:Htext.
    + destruct (convertible (prop req "method")); [ | discriminate ].
      eexists _, _. split; [ reflexivity | ]. split; [ auto with gateway | ].
      eexists. split; [ reflexivity | ]. eexists. split; reflexivity.
    + destruct (convertible (prop req "method")); [ discriminate | ].
      eexists _, _. split; [ reflexivity | ]. split; [ auto with gateway | ].
      eexists. rewrite (ToString_TypeError _ _ _ Htext). reflexivity.
Qed.

Lemma handleRpcMethod_frame P req w :
  same_sessions w (snd (handleRpcMethod P req w)).
Proof.
  destruct (handleRpcMethod_run P req w) as (r & w' & -> & Hframe & _).
  exact Hframe.
Qed.



(** The outcomes of the entries of a batch, whatever they are. *)
Lemma batch_outcomes P reqs :
  forall w,
  exists rs w1,
    allSettled (List.map (handleRpcMethod P) reqs) w = (Ok rs, w1) /\
    same_sessions w w1 /\
    Forall2 (fun req r => if dispatchable req
                          then exists o, r = Ok o
                          else exists msg, r = Throw (TypeError msg)) reqs rs.
Proof.
  induction reqs as [ | req rest IH]; intros w.
  - exists [], w. repeat split. constructor.
  - cbn [List.map allSettled].
    destruct (handleRpcMethod_run P req w) as (r & w0 & -> & H1 & Hout).
    destruct (IH w0) as (rs & w1 & -> & H2 & Hall).
    exists (r :: rs), w1. split; [ reflexivity | ].
    split; [ eapply same_sessions_trans; eassumption | ].
    constructor; [ | assumption ].
    destruct (dispatchable req); [ | exact Hout ].
    destruct Hout as (o & -> & _). now exists o.
Qed.

Lemma first_throw_undispatchable reqs rs :
  Forall2 (fun (req : value) (r : result (option JsonRpcResponse)) =>
             if dispatchable req
             then exists o, r = Ok o
             else exists msg, r = Throw (TypeError msg)) reqs rs ->
  Exists (fun req => dispatchable req = false) reqs ->
  exists msg, first_throw rs = Throw (TypeError msg).
Proof.
  induction 1 as [ | req r reqs rs Hr _ IH]; intros Hex; [ inversion Hex | ].
  destruct (dispatchable req) eqn:Hreq.
  - destruct Hr as (o & ->). cbn [first_throw].
    inversion Hex as [? ? Hhead | ? ? Htail]; subst; [ congruence | ].
    destruct (IH Htail) as (msg & ->). now exists msg.
  - destruct Hr as (msg & ->). now exists msg.
Qed.

Lemma allSettled_frame P reqs w :
  same_sessions w (snd (allSettled (List.map (handleRpcMethod P) reqs) w)).
Proof.
  revert w. induction reqs as [ | req rest IH]; intros w.
  - apply same_sessions_refl.
  - cbn [List.map allSettled].
    pose proof (handleRpcMethod_frame P req w) as H1.
    destruct (handleRpcMethod P req w) as [r w1]. cbn [snd] in H1.
    pose proof (IH w1) as H2.
    destruct (allSettled (List.map (handleRpcMethod P) rest) w1) as [[rs | e] w2];
      cbn [snd] in *; eapply same_sessions_trans; eassumption.
Qed.

Lemma getOrCreateSession_eq P sessionId w :
  getOrCreateSession P sessionId w =
    (Ok (fst (session_after P sessionId w)),
     {| tools := tools w;
        sessions := snd (session_after P sessionId w);
        uuid_draws := if recognised sessionId w then uuid_draws w
                      else S (uuid_draws w);
        clock_reads := if recognised sessionId w then clock_reads w
                       else S (clock_reads w) |}).
Proof.
  unfold getOrCreateSession, session_after, recognised.
  destruct sessionId as [sid | ]; [ | reflexivity ].
  destruct (negb (String.eqb sid "") && bool_decide (is_Some (sessions w !! sid)));
    [ destruct w | ]; reflexivity.
Qed.

Lemma json_post_dispatch P request env b w :
  checkMcpAuth request env = None ->
  json_post request b ->
  handleMcpRequest P request env w =
    match b with
    | VArr reqs =>
        (let* results := Promise_all (List.map (handleRpcMethod P) reqs) in
         let responses := omap (fun r => r) results in
         let* sessionId := getOrCreateSession P (mcp_session_id request) in
         match responses with
         | [] => ret {| status := 202; headers := session_header sessionId;
                        rbody := NoBody |}
         | _ => ret (Response_json (JsonRpcBatch responses) 200
                       [ ("Content-Type", "application/json");
                         ("Mcp-Session-Id", sessionId) ])
         end) w
    | rpcReq =>
        (let* sessionId := getOrCreateSession P (mcp_session_id request) in
         let* result := handleRpcMethod P rpcReq in
         match result with
         | None => ret {| status := 202; headers := session_header sessionId;
                          rbody := NoBody |}
         | Some r => ret (Response_json (JsonRpcBody r) 200
                            [ ("Content-Type", "application/json");
                              ("Mcp-Session-Id", sessionId) ])
         end) w
    end.
Proof.
  intros Hauth (Hm & Hct & Hbody).
  unfold handleMcpRequest. rewrite Hauth, Hm, Hct, Hbody. cbn.
  destruct b; reflexivity.
Qed.




(** The dispatcher tells a notification by its method, not by the absence
    of an identifier: a [ping] without [id] is answered, with the
    identifier [null]. *)
Example ping_without_id_is_answered :
  fst (handleRpcMethod demo_platform
         (VObj [ ("jsonrpc", VStr "2.0"); ("method", VStr "ping") ]) gw_state0)
  = Ok (Some (rpcOk VNull (VObj []))).
Proof. reflexivity. Qed.

(** A [null] entry makes the whole batch fail: [req.id] throws and
    [Promise.all] rejects. *)
Example null_entry_rejects_batch :
  fst (handleMcpRequest demo_platform
         (post_request (VArr [ envelope (VNum num_1) "ping"; VNull ])) env0 gw_state0)
  = Throw (TypeError "Cannot read properties of null (reading 'id')").
Proof. reflexivity. Qed.

(* ===================================================================== *)
(** * Properties of the session store                                     *)
(* ===================================================================== *)

Lemma recognised_same sessionId w w' :
  sessions w' = sessions w -> recognised sessionId w' = recognised sessionId w.
Proof. intros H. unfold recognised. now rewrite H. Qed.

(** What [getOrCreateSession] does, in terms of the token and the store. *)
Lemma getOrCreateSession_token P sessionId w :
  exists token w',
    getOrCreateSession P sessionId w = (Ok token, w') /\ tools w' = tools w /\
    if recognised sessionId w
    then sessionId = Some token /\ sessions w' = sessions w
    else token = randomUUID P (uuid_draws w) /\
         sessions w' = <[ token := Date_now P (clock_reads w) ]> (sessions w).
Proof.
  rewrite getOrCreateSession_eq. eexists _, _. split; [ reflexivity | ].
  split; [ reflexivity | ].
  unfold session_after.
  destruct (recognised sessionId w) eqn:Hrec; cbn [fst snd sessions].
  - split; [ | reflexivity ].
    destruct sessionId; [ reflexivity | discriminate ].
  - split; reflexivity.
Qed.

Lemma closed_sessions_idemp sessionId w :
  closed_sessions sessionId (set_sessions (closed_sessions sessionId w) w) =
  closed_sessions sessionId w.
Proof.
  unfold closed_sessions. destruct sessionId as [sid | ]; [ | reflexivity ].
  destruct (String.eqb sid ""); [ reflexivity | ].
  cbn [sessions set_sessions].
  apply map_eq. intros k. destruct (decide (sid = k)) as [-> | Hne].
  - now rewrite !lookup_delete_eq.
  - now rewrite !lookup_delete_ne.
Qed.

Lemma delete_request_closes P request env w :
  checkMcpAuth request env = None ->
  method request = "DELETE" ->
  handleMcpRequest P request env w =
    (Ok {| status := 204; headers := []; rbody := NoBody |},
     set_sessions (closed_sessions (mcp_session_id request) w) w).
Proof.
  intros Hauth Hm. unfold handleMcpRequest. rewrite Hauth, Hm. cbn.
  unfold closed_sessions, bind, modify, ret, set_sessions.
  destruct (mcp_session_id request) as [sid | ]; [ | destruct w; reflexivity ].
  destruct (String.eqb sid ""); [ destruct w | ]; reflexivity.
Qed.

(** C7 (as the code has it). A response to a GET, or to a POST that
    reaches the JSON-RPC dispatcher, carries a session token in the
    [Mcp-Session-Id] header: a recognised identifier is echoed and the
    store is left as it was; when the request carries none, or one the
    store does not know, the token is the next identifier drawn from the
    generator and it is registered in the store. The close operation
    (DELETE) answers 204 without a token, removes the session from the
    store, and is idempotent: closing again gives the same response and
    the same store. *)
Theorem session_token_on_dispatched_requests
    (P : Platform) (request : Request) (env : Env) (w : gw_state) :
  checkMcpAuth request env = None ->
  (forall resp w',
     method request = "GET" \/ (exists b, json_post request b) ->
     handleMcpRequest P request env w = (Ok resp, w') ->
     exists token,
       header_get "Mcp-Session-Id" (headers resp) = Some token /\
       if recognised (mcp_session_id request) w
       then mcp_session_id request = Some token /\ sessions w' = sessions w
       else token = randomUUID P (uuid_draws w) /\
            sessions w' = <[ token := Date_now P (clock_reads w) ]> (sessions w)) /\
  (method request = "DELETE" ->
     let closed := set_sessions (closed_sessions (mcp_session_id request) w) w in
     let no_content := {| status := 204; headers := []; rbody := NoBody |} in
     handleMcpRequest P request env w = (Ok no_content, closed) /\
     handleMcpRequest P request env closed = (Ok no_content, closed) /\
     forall sid, mcp_session_id request = Some sid -> sid <> "" ->
                 sessions closed !! sid = None).
Proof.
  intros Hauth. split.
  - intros resp w' [Hget | (b & Hpost)] Hrun.
    + unfold handleMcpRequest in Hrun. rewrite Hauth, Hget in Hrun. cbn in Hrun.
      unfold bind, ret in Hrun.
      destruct (getOrCreateSession_token P (mcp_session_id request) w)
        as (token & w1 & Hs & _ & Htok).
      rewrite Hs in Hrun. injection Hrun as <- <-.
      exists token. split; [ reflexivity | exact Htok ].
    + rewrite (json_post_dispatch P request env b w Hauth Hpost) in Hrun.
      assert (Hsingle :
        (let* sessionId := getOrCreateSession P (mcp_session_id request) in
         let* result := handleRpcMethod P b in
         match result with
         | None => ret {| status := 202; headers := session_header sessionId;
                          rbody := NoBody |}
         | Some r => ret (Response_json (JsonRpcBody r) 200
                            [ ("Content-Type", "application/json");
                              ("Mcp-Session-Id", sessionId) ])
         end) w = (Ok resp, w') ->
        exists token,
          header_get "Mcp-Session-Id" (headers resp) = Some token /\
          if recognised (mcp_session_id request) w
          then mcp_session_id request = Some token /\ sessions w' = sessions w
          else token = randomUUID P (uuid_draws w) /\
               sessions w' = <[ token := Date_now P (clock_reads w) ]> (sessions w)).
      { clear Hrun. intros Hrun. unfold bind, ret in Hrun.
        destruct (getOrCreateSession_token P (mcp_session_id request) w)
          as (token & w1 & Hs & _ & Htok).
        rewrite Hs in Hrun.
        pose proof (handleRpcMethod_frame P b w1) as (Hsess & _ & _).
        destruct (handleRpcMethod P b w1) as [[[r | ] | e] w2];
          cbn [snd] in Hsess; try discriminate;
          injection Hrun as <- <-; exists token;
          (split; [ reflexivity | ]); rewrite Hsess; exact Htok. }
      destruct b as [ | | | | | reqs | ]; try exact (Hsingle Hrun).
      clear Hsingle. unfold Promise_all, bind, of_result, ret in Hrun.
      pose proof (allSettled_frame P reqs w) as (Hsess & Hu & Hc).
      destruct (allSettled (List.map (handleRpcMethod P) reqs) w) as [[rs | e] w1];
        cbn [snd] in *; [ | discriminate ].
      destruct (first_throw rs) as [results | e]; [ | discriminate ].
      destruct (getOrCreateSession_token P (mcp_session_id request) w1)
        as (token & w2 & Hs & _ & Htok).
      rewrite Hs in Hrun.
      rewrite (recognised_same _ _ _ Hsess), Hsess, Hu, Hc in Htok.
      destruct (omap (fun r => r) results);
        injection Hrun as <- <-; exists token; (split; [ reflexivity | exact Htok ]).
  - intros Hdel closed no_content. split; [ | split ].
    + now apply delete_request_closes.
    + rewrite (delete_request_closes P request env closed Hauth Hdel).
      unfold closed at 1 2. rewrite closed_sessions_idemp.
      reflexivity.
    + intros sid Hsid Hne. unfold closed, closed_sessions. rewrite Hsid.
      destruct (String.eqb sid "") eqn:E.
      * apply String.eqb_eq in E. contradiction.
      * cbn. apply lookup_delete_eq.
Qed.

(** The contract read literally fails on the close operation: its 204
    response has no session header. *)
Lemma close_response_has_no_session_token :
  ~ every_response_has_session_token demo_platform.
Proof.
  intros Hall.
  destruct (Hall delete_request env0 gw_state1 _ _
              (delete_request_closes demo_platform delete_request env0 gw_state1
                 eq_refl eq_refl)) as [token Htoken].
  discriminate Htoken.
Qed.

Lemma session_token_on_dispatched_requests_witness :
  (exists token,
     header_get "Mcp-Session-Id"
       [ ("Content-Type", "text/event-stream"); ("Cache-Control", "no-cache");
         ("Connection", "keep-alive"); ("Mcp-Session-Id", "uuid-0") ] = Some token /\
     token = "uuid-0" /\
     sessions gw_state1 = <[ token := 1700000000000%Z ]> (sessions gw_state0)) /\
  handleMcpRequest demo_platform delete_request env0 gw_state1 =
    (Ok {| status := 204; headers := []; rbody := NoBody |},
     set_sessions (closed_sessions (Some "uuid-0") gw_state1) gw_state1).
Proof.
  split.
  - exact (proj1 (session_token_on_dispatched_requests demo_platform get_request
                    env0 gw_state0 eq_refl)
             {| status := 200;
                headers := [ ("Content-Type", "text/event-stream");
                             ("Cache-Control", "no-cache");
                             ("Connection", "keep-alive");
                             ("Mcp-Session-Id", "uuid-0") ];
                rbody := SseStream (": MCP SSE keepalive" ++ LF ++ LF) |}
             gw_state1 (or_introl eq_refl) eq_refl).
  - exact (proj1 (proj2 (session_token_on_dispatched_requests demo_platform
                           delete_request env0 gw_state1 eq_refl) eq_refl)).
Defined.


(* ===================================================================== *)
(** * Properties of the agent's tool loop                                 *)
(* ===================================================================== *)

Lemma quiet_refl w : quiet w w.
Proof. repeat split. Qed.

Lemma getLLMTools_run P w :
  exists t w', getLLMTools P w = (Ok t, w') /\ quiet w w'.
Proof.
  unfold getLLMTools. destruct (llmTools w).
  - eexists _, _. split; [ reflexivity | apply quiet_refl ].
  - eexists _, _. split; [ reflexivity | repeat split ].
Qed.

(** One call to the backend: the outcome is read off the backend's answer
    to call number [glm_calls w]. *)
Lemma callLLM_run P env h w :
  exists req w',
    callLLM P env h w = (read_completion (glm_http P (glm_calls w) req), w') /\
    glm_calls w' = S (glm_calls w) /\ messages w' = messages w /\ sent w' = sent w.
Proof.
  unfold callLLM, bind.
  destruct (getLLMTools_run P w) as (t & w1 & -> & Hg & Hm & Hs).
  rewrite <- Hg. eexists _, _. split; [ reflexivity | ].
  cbn. rewrite Hg, Hm, Hs. repeat split.
Qed.

Lemma executeTool_quiet P name args w :
  quiet w (snd (executeTool P name args w)).
Proof.
  unfold executeTool, try_catch, bind, lift, ret.
  destruct (mcp_callTool P (mcp_calls w) name args) as [text | unreachable];
    [ repeat split | ].
  destruct (dispatchTool P name args _) as [[result | e] t']; repeat split.
Qed.

(** The [try]/[catch] around one tool invocation always yields a text. *)
Lemma tool_call_result_run P tc w :
  exists result w', tool_call_result P tc w = (Ok result, w') /\ quiet w w'.
Proof.
  unfold tool_call_result, try_catch, bind, of_result, ret.
  destruct (JSON_parse P (tc_arguments tc)) as [args | e0].
  - pose proof (executeTool_quiet P (tc_name tc) args w) as Hq.
    destruct (executeTool P (tc_name tc) args w) as [[result | e] w'];
      eexists _, _; (split; [ reflexivity | exact Hq ]).
  - eexists _, _. split; [ reflexivity | apply quiet_refl ].
Qed.

Lemma rounds_started_app a b :
  rounds_started (a ++ b) = rounds_started a + rounds_started b.
Proof.
  unfold rounds_started. rewrite List.filter_app. apply List.length_app.
Qed.

Lemma run_tool_calls_run P i tcs : forall h w,
  exists turns evs w',
    run_tool_calls P i tcs h w = (Ok (h ++ turns)%list, w') /\
    Forall2 is_result_of tcs turns /\
    glm_calls w' = glm_calls w /\ messages w' = messages w /\
    sent w' = (sent w ++ evs)%list /\ rounds_started evs = 0.
Proof.
  induction tcs as [ | tc tcs IH]; intros h w.
  - exists [], [], w. cbn. rewrite !app_nil_r. repeat split. constructor.
  - cbn [run_tool_calls]. unfold bind at 1.
    destruct i; cbn [when]; unfold sendPipeline, send, modify, bind, ret;
      match goal with
      | |- context [ tool_call_result P tc ?w1 ] =>
          destruct (tool_call_result_run P tc w1) as (result & w2 & -> & Hg & Hm & Hs)
      end;
      match goal with
      | |- context [ run_tool_calls P _ tcs ?h1 ?w3 ] =>
          destruct (IH h1 w3) as (turns & evs & w' & -> & Hturns & Hg' & Hm' & Hs' & Hr)
      end;
      cbn in Hg, Hm, Hs, Hg', Hm', Hs'; rewrite Hs in Hs';
      eexists (_ :: turns), _, w';
      (split; [ now rewrite <- app_assoc | ]);
      (split; [ constructor; [ eexists; reflexivity | exact Hturns ] | ]);
      (split; [ congruence | ]); (split; [ congruence | ]).
    + split; [ rewrite Hs', <- !app_assoc; reflexivity | exact Hr ].
    + split; [ exact Hs' | exact Hr ].
Qed.

Lemma tool_loop_run P env i : forall fuel am h w,
  exists r evs w' n,
    tool_loop P env i fuel am h w = (r, w') /\
    messages w' = messages w /\
    sent w' = (sent w ++ evs)%list /\
    n <= fuel /\ glm_calls w' = glm_calls w + n /\
    rounds_started evs = (if i then n else 0) /\
    (backend_answers P -> is_throw r = false) /\
    match r with
    | Throw _ => True
    | Ok (last, h') =>
        exists rounds,
          h' = (h ++ flat_map round_turns rounds)%list /\
          length rounds = n /\ Forall well_formed_round rounds /\
          (requested last = [] \/ n = fuel)
    end.
Proof.
  induction fuel as [ | fuel IH]; intros am h w.
  - exists (Ok (am, h)), [], w, 0.
    split; [ cbn [tool_loop]; destruct (requested am); reflexivity | ].
    rewrite !app_nil_r. repeat split; try lia.
    + now destruct i.
    + exists []. cbn. rewrite app_nil_r. repeat split; auto.
  - cbn [tool_loop]. destruct (requested am) as [ | tc tcs] eqn:Hreq.
    { exists (Ok (am, h)), [], w, 0. rewrite !app_nil_r.
      repeat split; try lia.
      - now destruct i.
      - exists []. cbn. rewrite app_nil_r. repeat split; auto. }
    assert (Hround : forall turns, Forall2 is_result_of (tc :: tcs) turns ->
                       well_formed_round (am, turns)).
    { intros turns Hturns. split; cbn [fst snd]; rewrite Hreq;
        [ discriminate | exact Hturns ]. }
    destruct i; cbn [when]; unfold sendPipeline, send, modify, bind, ret;
      match goal with
      | |- context [ run_tool_calls P ?b (tc :: tcs) ?h1 ?w1 ] =>
          destruct (run_tool_calls_run P b (tc :: tcs) h1 w1)
            as (turns & evs1 & w2 & -> & Hturns & Hg2 & Hm2 & Hs2 & Hr2)
      end;
      match goal with
      | |- context [ callLLM P env ?h2 ?w3 ] =>
          destruct (callLLM_run P env h2 w3) as (req & w4 & -> & Hg4 & Hm4 & Hs4)
      end;
      cbn in Hg2, Hm2, Hs2, Hg4, Hm4, Hs4;
      (destruct (read_completion _) as [next | e] eqn:Hread;
       [ match goal with
         | |- context [ tool_loop P env _ fuel ?nx ?h2 ?w5 ] =>
             destruct (IH nx h2 w5)
               as (r & evs' & w' & n & -> & Hm' & Hs' & Hn & Hg' & Hr' & Hok & Hres)
         end
       | ]).
    + exists r, ([EvPipeline "mcp" "active" "Routing tool calls via MCP Server"]
                 ++ evs1 ++ [EvPipeline "llm" "active" "Analyzing tool results";
                             EvStatus "thinking"] ++ evs')%list, w', (S n).
      split; [ reflexivity | ]. split; [ congruence | ].
      split; [ rewrite Hs', Hs4, Hs2, <- !app_assoc; reflexivity | ].
      split; [ lia | ]. split; [ lia | ].
      split; [ rewrite !rounds_started_app, Hr2, Hr'; reflexivity | ].
      split; [ exact Hok | ].
      destruct r as [[last h'] | e]; [ | exact I ].
      destruct Hres as (rounds & -> & Hlen & Hwf & Hstop).
      exists ((am, turns) :: rounds).
      split; [ cbn; now rewrite <- !app_assoc | ].
      split; [ cbn; lia | ]. split; [ constructor; auto | ].
      destruct Hstop; [ left | right ]; auto.
    + exists (Throw e),
        ([EvPipeline "mcp" "active" "Routing tool calls via MCP Server"]
           ++ evs1 ++ [EvPipeline "llm" "active" "Analyzing tool results";
                       EvStatus "thinking"])%list, w4, 1.
      split; [ reflexivity | ]. split; [ congruence | ].
      split; [ rewrite Hs4, Hs2, <- !app_assoc; reflexivity | ].
      split; [ lia | ]. split; [ lia | ].
      split; [ rewrite !rounds_started_app, Hr2; reflexivity | ].
      split; [ | exact I ].
      intros Hback. exfalso.
      match type of Hread with
      | read_completion (glm_http P ?k ?q) = _ =>
          destruct (Hback k q) as (m & rest & Hm)
      end.
      rewrite Hm in Hread. discriminate.
    + exists r, (evs1 ++ evs')%list, w', (S n).
      split; [ reflexivity | ]. split; [ congruence | ].
      split; [ rewrite Hs', Hs4, Hs2, <- !app_assoc; reflexivity | ].
      split; [ lia | ]. split; [ lia | ].
      split; [ rewrite !rounds_started_app, Hr2, Hr'; reflexivity | ].
      split; [ exact Hok | ].
      destruct r as [[last h'] | e]; [ | exact I ].
      destruct Hres as (rounds & -> & Hlen & Hwf & Hstop).
      exists ((am, turns) :: rounds).
      split; [ cbn; now rewrite <- !app_assoc | ].
      split; [ cbn; lia | ]. split; [ constructor; auto | ].
      destruct Hstop; [ left | right ]; auto.
    + exists (Throw e), evs1, w4, 1.
      split; [ reflexivity | ]. split; [ congruence | ].
      split; [ rewrite Hs4, Hs2; reflexivity | ].
      split; [ lia | ]. split; [ lia | ].
      split; [ exact Hr2 | ].
      split; [ | exact I ].
      intros Hback. exfalso.
      match type of Hread with
      | read_completion (glm_http P ?k ?q) = _ =>
          destruct (Hback k q) as (m & rest & Hm)
      end.
      rewrite Hm in Hread. discriminate.
Qed.

Lemma handleChat_eq P env u w :
  handleChat P env u w =
    let h := (messages w ++ [ plain user u ])%list in
    match callLLM P env h (chat_started w) with
    | (Throw e, w1) => (Ok tt, chat_failed e w1)
    | (Ok first, w1) =>
        match tool_loop P env true 8 first h w1 with
        | (Throw e, w2) => (Ok tt, chat_failed e w2)
        | (Ok r, w2) => (Ok tt, chat_answered (fst r) (snd r) w2)
        end
    end.
Proof.
  unfold handleChat, try_catch, bind, gets, sendPipeline, send, modify, ret.
  cbv zeta. fold (chat_started w).
  destruct (callLLM P env _ (chat_started w)) as [[first | e] w1]; [ | reflexivity ].
  destruct (tool_loop P env true 8 first _ w1) as [[r | e] w2]; reflexivity.
Qed.

Lemma onRequest_eq P env request w :
  onRequest P env request w =
    if is_chat request then
      match chat_message request with
      | Throw e => (Throw e, w)
      | Ok msg =>
          let h := (messages w ++ [ plain user msg ])%list in
          match callLLM P env h w with
          | (Throw e, w1) => (Throw e, w1)
          | (Ok first, w1) =>
              match tool_loop P env false 8 first h w1 with
              | (Throw e, w2) => (Throw e, w2)
              | (Ok r, w2) =>
                  (Ok (Response_json (ChatBody (content (fst r))) 200 []),
                   set_messages (snd r ++ [ plain assistant (final_answer (fst r)) ]) w2)
              end
          end
      end
    else (Ok (Response_text "NutriAgent is running" 200), w).
Proof.
  unfold onRequest, is_chat, bind, gets, of_result, modify, ret.
  destruct (_ && _); [ | reflexivity ].
  destruct (chat_message request) as [msg | e]; [ | reflexivity ].
  cbv zeta.
  destruct (callLLM P env _ w) as [[first | e] w1]; [ | reflexivity ].
  destruct (tool_loop P env false 8 first _ w1) as [[r | e] w2]; reflexivity.
Qed.

(** Every run of [handleChat]: the rounds made, and how it ends. *)
Lemma handleChat_run P env u w :
  let w' := snd (handleChat P env u w) in
  exists n evs,
    n <= 8 /\ fst (handleChat P env u w) = Ok tt /\
    glm_calls w' = glm_calls w + 1 + n /\
    sent w' = (sent w ++ evs)%list /\ rounds_started evs = n /\
    ((exists text, last (sent w') = Some (EvError text) /\ ~ backend_answers P) \/
     (exists rounds final,
        length rounds = n /\ Forall well_formed_round rounds /\
        (requested final = [] \/ n = 8) /\
        last (sent w') = Some (EvResponse (final_answer final)) /\
        messages w' =
          (messages w ++ [ plain user u ] ++ flat_map round_turns rounds
             ++ [ plain assistant (final_answer final) ])%list)).
Proof.
  rewrite handleChat_eq. cbv zeta.
  destruct (callLLM_run P env (messages w ++ [ plain user u ]) (chat_started w))
    as (req & w1 & Hcall & Hg1 & Hm1 & Hs1).
  rewrite Hcall. cbn in Hg1, Hm1, Hs1.
  destruct (read_completion _) as [first | e] eqn:Hread.
  - destruct (tool_loop_run P env true 8 first (messages w ++ [ plain user u ]) w1)
      as (r & evs & w2 & n & -> & Hm2 & Hs2 & Hn & Hg2 & Hr & Hok & Hres).
    exists n. destruct r as [[final h'] | e]; cbn [fst snd].
    + destruct Hres as (rounds & -> & Hlen & Hwf & Hstop).
      exists ([ EvPipeline "agent" "active" "Processing your query";
                EvStatus "thinking";
                EvPipeline "llm" "active" "Reasoning with GLM-4.7-Flash" ]
              ++ evs ++ [ EvPipeline "done" "complete" "Response ready";
                          EvResponse (final_answer final) ])%list.
      split; [ exact Hn | ]. split; [ reflexivity | ].
      split; [ cbn; lia | ].
      split; [ cbn; rewrite Hs2, Hs1, <- !app_assoc; reflexivity | ].
      split; [ rewrite !rounds_started_app, Hr; cbn; lia | ].
      right. exists rounds, final.
      split; [ exact Hlen | ]. split; [ exact Hwf | ]. split; [ exact Hstop | ].
      split; [ cbn; apply last_snoc | ].
      cbn. now rewrite <- !app_assoc.
    + exists ([ EvPipeline "agent" "active" "Processing your query";
                EvStatus "thinking";
                EvPipeline "llm" "active" "Reasoning with GLM-4.7-Flash" ]
              ++ evs ++ [ EvPipeline "done" "complete" "Error encountered";
                          EvError ("Sorry, something went wrong: " ++ message e) ])%list.
      split; [ exact Hn | ]. split; [ reflexivity | ].
      split; [ cbn; lia | ].
      split; [ cbn; rewrite Hs2, Hs1, <- !app_assoc; reflexivity | ].
      split; [ rewrite !rounds_started_app, Hr; cbn; lia | ].
      left. eexists. split; [ cbn; apply last_snoc | ].
      intros Hback. specialize (Hok Hback). discriminate.
  - exists 0,
      [ EvPipeline "agent" "active" "Processing your query";
        EvStatus "thinking";
        EvPipeline "llm" "active" "Reasoning with GLM-4.7-Flash";
        EvPipeline "done" "complete" "Error encountered";
        EvError ("Sorry, something went wrong: " ++ message e) ].
    cbn [fst snd].
    split; [ lia | ]. split; [ reflexivity | ].
    split; [ cbn; lia | ].
    split; [ cbn; rewrite Hs1, <- !app_assoc; reflexivity | ].
    split; [ reflexivity | ].
    left. eexists. split; [ cbn; apply last_snoc | ].
    intros Hback. destruct (Hback (glm_calls w) req) as (m & rest & Hm).
    cbn in Hread. rewrite Hm in Hread. discriminate.
Qed.

Lemma onRequest_run P env request w :
  glm_calls (snd (onRequest P env request w)) <= glm_calls w + 9 /\
  (backend_answers P ->
   forall msg, is_chat request = true -> chat_message request = Ok msg ->
   exists answer,
     fst (onRequest P env request w) =
       Ok (Response_json (ChatBody answer) 200 []) /\
     last (messages (snd (onRequest P env request w))) =
       Some (plain assistant (default "" answer))).
Proof.
  rewrite onRequest_eq.
  destruct (is_chat request); [ | split; [ cbn; lia | discriminate ] ].
  destruct (chat_message request) as [msg | e];
    [ | split; [ cbn; lia | intros _ ? _ [=] ] ].
  cbv zeta.
  destruct (callLLM_run P env (messages w ++ [ plain user msg ]) w)
    as (req & w1 & Hcall & Hg1 & Hm1 & Hs1).
  rewrite Hcall.
  destruct (read_completion _) as [first | e] eqn:Hread.
  - destruct (tool_loop_run P env false 8 first (messages w ++ [ plain user msg ]) w1)
      as (r & evs & w2 & n & -> & Hm2 & Hs2 & Hn & Hg2 & Hr & Hok & Hres).
    destruct r as [[final h'] | e]; cbn [fst snd].
    + split; [ cbn; lia | ].
      intros _ msg' _ _. exists (content final).
      split; [ reflexivity | ]. cbn. apply last_snoc.
    + split; [ lia | ].
      intros Hback. specialize (Hok Hback). discriminate.
  - cbn [fst snd]. split; [ lia | ].
    intros Hback. destruct (Hback (glm_calls w) req) as (m & rest & Hm).
    rewrite Hm in Hread. discriminate.
Qed.

(** C3. Whatever the utterance and whatever the backend does, the loop
    terminates without throwing, calls the backend at most nine times
    (the first call and one per round) and opens at most eight rounds of
    tool calls. When the backend answers every request, the run ends with
    a final answer: the response sent last, recorded as the last turn of
    the conversation. The same bound and outcome hold for the HTTP entry
    [onRequest]. *)
Theorem tool_loop_bounded_by_iteration_ceiling
    (P : Platform) (env : Env) (utterance : string) (w : agent_state) :
  let w' := snd (handleChat P env utterance w) in
  fst (handleChat P env utterance w) = Ok tt /\
  glm_calls w' <= glm_calls w + 9 /\
  (exists evs, sent w' = (sent w ++ evs)%list /\ rounds_started evs <= 8) /\
  (backend_answers P ->
   exists answer,
     last (sent w') = Some (EvResponse answer) /\
     last (messages w') = Some (plain assistant answer)) /\
  (forall request,
     glm_calls (snd (onRequest P env request w)) <= glm_calls w + 9 /\
     (backend_answers P ->
      forall msg, is_chat request = true -> chat_message request = Ok msg ->
      exists answer,
        fst (onRequest P env request w) =
          Ok (Response_json (ChatBody answer) 200 []) /\
        last (messages (snd (onRequest P env request w))) =
          Some (plain assistant (default "" answer)))).
Proof.
  intros w'.
  destruct (handleChat_run P env utterance w)
    as (n & evs & Hn & Hok & Hg & Hs & Hr & Hend).
  fold w' in Hg, Hs, Hend.
  split; [ exact Hok | ]. split; [ lia | ].
  split; [ exists evs; split; [ exact Hs | lia ] | ].
  split.
  - intros Hback.
    destruct Hend as [(text & _ & Hfail) | (rounds & final & _ & _ & _ & Hl & Hm)];
      [ contradiction | ].
    exists (final_answer final). split; [ exact Hl | ].
    rewrite Hm, !app_assoc. apply last_snoc.
  - intros request. apply onRequest_run.
Qed.

Lemma requested_normalise m : requested (normalise m) = requested m.
Proof. unfold normalise. destruct (_ && _); reflexivity. Qed.

Lemma tool_loop_exhausts P env i (replies : nat -> ChatMessage) :
  forall fuel k am h w,
    (forall j req, j < fuel ->
       exists rest, glm_http P (glm_calls w + j) req = LlmOk (replies (k + j) :: rest)) ->
    (forall j, j < fuel -> requested (replies (k + j)) <> []) ->
    requested am <> [] ->
    exists h' w',
      tool_loop P env i fuel am h w =
        (Ok (match fuel with
             | 0 => am
             | S f => normalise (replies (k + f))
             end, h'), w') /\
      glm_calls w' = glm_calls w + fuel.
Proof.
  induction fuel as [ | fuel IH]; intros k am h w Hreplies Htools Ham.
  - exists h, w. cbn [tool_loop]. destruct (requested am); split; auto.
  - cbn [tool_loop]. destruct (requested am) as [ | tc tcs] eqn:Hreq; [ congruence | ].
    unfold bind at 1.
    destruct i; cbn [when]; unfold sendPipeline, send, modify, bind, ret;
      match goal with
      | |- context [ run_tool_calls P ?b (tc :: tcs) ?h1 ?w1 ] =>
          destruct (run_tool_calls_run P b (tc :: tcs) h1 w1)
            as (turns & evs1 & w2 & -> & Hturns & Hg2 & Hm2 & Hs2 & Hr2)
      end;
      match goal with
      | |- context [ callLLM P env ?h2 ?w3 ] =>
          destruct (callLLM_run P env h2 w3) as (req & w4 & -> & Hg4 & Hm4 & Hs4)
      end;
      cbn in Hg2, Hg4; rewrite Hg2 in Hg4;
      (destruct (Hreplies 0 req ltac:(lia)) as (rest & Hreply);
       rewrite !Nat.add_0_r in Hreply; cbn [glm_calls push_sent]; rewrite Hg2;
       rewrite Hreply; cbn [read_completion];
       match goal with
       | |- context [ tool_loop P env _ fuel ?nx ?h2 ?w5 ] =>
           destruct (IH (S k) nx h2 w5) as (h' & w' & -> & Hg')
       end;
       [ intros j req' Hj;
         destruct (Hreplies (S j) req' ltac:(lia)) as (rest' & Hr');
         exists rest';
         replace (glm_calls w4 + j) with (glm_calls w + S j) by lia;
         replace (S k + j) with (k + S j) by lia; exact Hr'
       | intros j Hj; replace (S k + j) with (k + S j) by lia; apply Htools; lia
       | rewrite requested_normalise; specialize (Htools 0 ltac:(lia));
         now rewrite Nat.add_0_r in Htools
       | exists h', w'; split;
         [ destruct fuel; [ rewrite Nat.add_0_r; reflexivity
                          | replace (S k + fuel) with (k + S fuel) by lia; reflexivity ]
         | lia ] ]).
Qed.

(** What [callLLM] makes of a backend message: the content is replaced,
    everything else is kept, the reasoning field included. *)
Lemma normalise_eq m :
  normalise m =
    {| role := role m; content := effective_content m;
       tool_call_id := tool_call_id m; tool_calls := tool_calls m;
       reasoning_content := reasoning_content m |}.
Proof.
  unfold normalise, effective_content, absent.
  destruct m as [r [c | ] id tcs [rc | ]]; cbn;
    repeat match goal with
           | |- context [ String.eqb ?x "" ] => destruct (String.eqb_spec x "")
           end; subst; cbn; reflexivity.
Qed.

Lemma final_answer_normalise m :
  final_answer (normalise m) = default "" (effective_content m).
Proof. rewrite normalise_eq. reflexivity. Qed.

(** The loop when the backend stops asking for tools after [j] more
    answers: it makes [j] rounds, returns the last answer, and every
    message that asked for tools is in the history as [callLLM] returned
    it. *)
Lemma tool_loop_converges P env i (replies : nat -> ChatMessage) :
  forall j fuel k h w,
    j <= fuel ->
    (forall n req, n < j ->
       exists rest, glm_http P (glm_calls w + n) req = LlmOk (replies (S k + n) :: rest)) ->
    (forall n, n < j -> requested (replies (k + n)) <> []) ->
    requested (replies (k + j)) = [] ->
    exists h' w',
      tool_loop P env i fuel (normalise (replies k)) h w =
        (Ok (normalise (replies (k + j)), h'), w') /\
      glm_calls w' = glm_calls w + j /\
      (forall m, In m h -> In m h') /\
      (forall n, n < j -> In (normalise (replies (k + n))) h').
Proof.
  induction j as [ | j IH]; intros fuel k h w Hfuel Hreplies Htools Hlast.
  - rewrite Nat.add_0_r in *. exists h, w.
    split; [ | split; [ lia | split; [ auto | intros n Hn; lia ] ] ].
    destruct fuel; cbn [tool_loop]; rewrite requested_normalise, Hlast; reflexivity.
  - destruct fuel as [ | fuel]; [ lia | ].
    cbn [tool_loop].
    pose proof (Htools 0 ltac:(lia)) as Hfirst. rewrite Nat.add_0_r in Hfirst.
    rewrite requested_normalise.
    destruct (requested (replies k)) as [ | tc tcs] eqn:Hreq; [ congruence | ].
    unfold bind at 1.
    destruct i; cbn [when]; unfold sendPipeline, send, modify, bind, ret;
      match goal with
      | |- context [ run_tool_calls P ?b (tc :: tcs) ?h1 ?w1 ] =>
          destruct (run_tool_calls_run P b (tc :: tcs) h1 w1)
            as (turns & evs1 & w2 & -> & Hturns & Hg2 & Hm2 & Hs2 & Hr2)
      end;
      match goal with
      | |- context [ callLLM P env ?h2 ?w3 ] =>
          destruct (callLLM_run P env h2 w3) as (req & w4 & -> & Hg4 & Hm4 & Hs4)
      end;
      cbn in Hg2, Hg4; rewrite Hg2 in Hg4;
      (destruct (Hreplies 0 req ltac:(lia)) as (rest & Hreply);
       rewrite !Nat.add_0_r in Hreply; cbn [glm_calls push_sent]; rewrite Hg2;
       rewrite Hreply; cbn [read_completion];
       match goal with
       | |- context [ tool_loop P env _ fuel _ ?h2 ?w5 ] =>
           destruct (IH fuel (S k) h2 w5) as (h' & w' & -> & Hg' & Hkeep & Hin)
       end;
       [ lia
       | intros n req' Hn;
         destruct (Hreplies (S n) req' ltac:(lia)) as (rest' & Hr');
         exists rest';
         replace (glm_calls w4 + n) with (glm_calls w + S n) by lia;
         replace (S (S k) + n) with (S k + S n) by lia; exact Hr'
       | intros n Hn; replace (S k + n) with (k + S n) by lia; apply Htools; lia
       | replace (S k + j) with (k + S j) by lia; exact Hlast
       | exists h', w';
         split; [ replace (k + S j) with (S k + j) by lia; reflexivity | ];
         split; [ lia | ];
         split;
         [ intros m Hm; apply Hkeep; rewrite !in_app_iff; auto
         | intros [ | n] Hn;
           [ rewrite Nat.add_0_r; apply Hkeep; rewrite !in_app_iff; cbn; auto
           | replace (k + S n) with (S k + n) by lia; apply Hin; lia ] ] ]).
Qed.

(** C9. When the backend asks for tools in each of its nine answers, the
    loop stops after the eighth round and the content of the ninth answer
    (its reasoning text when the content is empty, the empty text when it
    has neither) is delivered as an ordinary response, sent last on the
    connection and recorded as the final turn; [onRequest] returns it in
    an ordinary 200 response. No error is raised or reported. *)
Theorem ceiling_reached_delivers_last_content
    (P : Platform) (env : Env) (utterance : string) (w : agent_state)
    (replies : nat -> ChatMessage) :
  (forall j req, j <= 8 ->
     exists rest, glm_http P (glm_calls w + j) req = LlmOk (replies j :: rest)) ->
  (forall j, j <= 8 -> requested (replies j) <> []) ->
  let w' := snd (handleChat P env utterance w) in
  fst (handleChat P env utterance w) = Ok tt /\
  last (sent w') = Some (EvResponse (default "" (effective_content (replies 8)))) /\
  last (messages w') =
    Some {| role := assistant;
            content := Some (default "" (effective_content (replies 8)));
            tool_call_id := None; tool_calls := None; reasoning_content := None |} /\
  glm_calls w' = glm_calls w + 9 /\
  forall request msg,
    is_chat request = true -> chat_message request = Ok msg ->
    fst (onRequest P env request w) =
      Ok (Response_json (ChatBody (effective_content (replies 8))) 200 []).
Proof.
  intros Hreplies Htools w'.
  set (final := normalise (replies 8)).
  assert (Hloop : forall i h w0,
            glm_calls w0 = glm_calls w ->
            exists w1 h' w2,
              callLLM P env h w0 = (Ok (normalise (replies 0)), w1) /\
              tool_loop P env i 8 (normalise (replies 0)) h w1 = (Ok (final, h'), w2) /\
              glm_calls w2 = glm_calls w + 9).
  { intros i h w0 Hw0.
    destruct (callLLM_run P env h w0) as (req & w1 & Hcall & Hg1 & _).
    rewrite Hw0 in Hcall, Hg1.
    destruct (Hreplies 0 req ltac:(lia)) as (rest & Hr0).
    rewrite Nat.add_0_r in Hr0. rewrite Hr0 in Hcall. cbn [read_completion] in Hcall.
    destruct (tool_loop_exhausts P env i replies 8 1 (normalise (replies 0)) h w1)
      as (h' & w2 & Hrun & Hg2).
    - intros j req' Hj. rewrite Hg1.
      destruct (Hreplies (S j) req' ltac:(lia)) as (rest' & Hr').
      exists rest'. replace (S (glm_calls w) + j) with (glm_calls w + S j) by lia.
      exact Hr'.
    - intros j Hj. apply Htools. lia.
    - rewrite requested_normalise. apply Htools. lia.
    - exists w1, h', w2. split; [ exact Hcall | ]. split; [ exact Hrun | lia ]. }
  assert (Hchat : exists h' w2,
            handleChat P env utterance w = (Ok tt, chat_answered final h' w2) /\
            glm_calls w2 = glm_calls w + 9).
  { rewrite handleChat_eq. cbv zeta.
    destruct (Hloop true (messages w ++ [ plain user utterance ])%list
                (chat_started w) eq_refl)
      as (w1 & h' & w2 & -> & -> & Hg).
    exists h', w2. split; [ reflexivity | exact Hg ]. }
  destruct Hchat as (h' & w2 & Hchat & Hg). unfold w'. rewrite Hchat.
  split; [ reflexivity | ].
  split; [ cbn; rewrite last_snoc; unfold final;
           now rewrite final_answer_normalise | ].
  split; [ cbn; rewrite last_snoc; unfold final, plain;
           now rewrite final_answer_normalise | ].
  split; [ exact Hg | ].
  intros request msg Hreq Hmsg. rewrite onRequest_eq, Hreq, Hmsg. cbv zeta.
  destruct (Hloop false (messages w ++ [ plain user msg ])%list w eq_refl)
    as (w1 & h'' & w3 & -> & -> & _).
  cbn [fst snd]. unfold final. rewrite normalise_eq. reflexivity.
Qed.

(** C8. When an answer of the backend requests no tool, be it the first
    answer or one that follows rounds of tool calls, its content is the
    final answer: it is sent as the response and recorded as the last turn
    (a fresh turn, without the alternate field), and [onRequest] returns
    it. The content is fixed in [callLLM]: when the primary content is
    empty or missing and the backend supplied a reasoning text, the
    content handed to the loop is that text. The message that [callLLM]
    returns keeps the alternate field, however, and an answer that
    requests tools is kept in the conversation with it. *)
Theorem final_answer_is_normalised_content
    (P : Platform) (env : Env) (utterance : string) (w : agent_state)
    (replies : nat -> ChatMessage) (j : nat) :
  j <= 8 ->
  (forall n req, n <= j ->
     exists rest, glm_http P (glm_calls w + n) req = LlmOk (replies n :: rest)) ->
  (forall n, n < j -> requested (replies n) <> []) ->
  requested (replies j) = [] ->
  let returned m :=
    {| role := role m; content := effective_content m;
       tool_call_id := tool_call_id m; tool_calls := tool_calls m;
       reasoning_content := reasoning_content m |} in
  let answer := default "" (effective_content (replies j)) in
  let w' := snd (handleChat P env utterance w) in
  (forall n h w0,
     n <= j -> glm_calls w0 = glm_calls w + n ->
     fst (callLLM P env h w0) = Ok (returned (replies n))) /\
  last (sent w') = Some (EvResponse answer) /\
  last (messages w') =
    Some {| role := assistant; content := Some answer;
            tool_call_id := None; tool_calls := None; reasoning_content := None |} /\
  glm_calls w' = glm_calls w + S j /\
  (forall n, n < j -> In (returned (replies n)) (messages w')) /\
  (forall request msg,
     is_chat request = true -> chat_message request = Ok msg ->
     fst (onRequest P env request w) =
       Ok (Response_json (ChatBody (effective_content (replies j))) 200 [])).
Proof.
  intros Hj Hreplies Htools Hlast returned answer w'.
  assert (Hret : forall m, returned m = normalise m).
  { intros m. now rewrite normalise_eq. }
  assert (Hcall : forall n h w0, n <= j -> glm_calls w0 = glm_calls w + n ->
            exists w1, callLLM P env h w0 = (Ok (normalise (replies n)), w1) /\
                       glm_calls w1 = S (glm_calls w0)).
  { intros n h w0 Hn Hw0. destruct (callLLM_run P env h w0) as (req & w1 & -> & Hg & _).
    rewrite Hw0. destruct (Hreplies n req Hn) as (rest & ->).
    exists w1. split; [ reflexivity | lia ]. }
  assert (Hloop : forall i h w0,
            glm_calls w0 = glm_calls w ->
            exists w1 h' w2,
              callLLM P env h w0 = (Ok (normalise (replies 0)), w1) /\
              tool_loop P env i 8 (normalise (replies 0)) h w1 =
                (Ok (normalise (replies j), h'), w2) /\
              glm_calls w2 = glm_calls w + S j /\
              (forall m, In m h -> In m h') /\
              (forall n, n < j -> In (normalise (replies n)) h')).
  { intros i h w0 Hw0.
    destruct (Hcall 0 h w0 ltac:(lia) ltac:(lia)) as (w1 & Hfirst & Hg1).
    destruct (tool_loop_converges P env i replies j 8 0 h w1 Hj)
      as (h' & w2 & Hrun & Hg2 & Hkeep & Hin).
    - intros n req Hn. rewrite Hg1, Hw0.
      destruct (Hreplies (S n) req ltac:(lia)) as (rest & Hr).
      exists rest. replace (S (glm_calls w) + n) with (glm_calls w + S n) by lia.
      exact Hr.
    - intros n Hn. apply Htools. exact Hn.
    - exact Hlast.
    - exists w1, h', w2. cbn [Nat.add] in Hrun, Hin.
      split; [ exact Hfirst | ]. split; [ exact Hrun | ].
      split; [ lia | ]. split; [ exact Hkeep | exact Hin ]. }
  split.
  { intros n h w0 Hn Hw0. destruct (Hcall n h w0 Hn Hw0) as (w1 & -> & _).
    cbn [fst]. now rewrite Hret. }
  assert (Hchat : exists h' w2,
            handleChat P env utterance w =
              (Ok tt, chat_answered (normalise (replies j)) h' w2) /\
            glm_calls w2 = glm_calls w + S j /\
            (forall n, n < j -> In (normalise (replies n)) h')).
  { rewrite handleChat_eq. cbv zeta.
    destruct (Hloop true (messages w ++ [ plain user utterance ])%list
                (chat_started w) eq_refl)
      as (w1 & h' & w2 & -> & -> & Hg & _ & Hin).
    exists h', w2. split; [ reflexivity | ]. split; [ exact Hg | exact Hin ]. }
  destruct Hchat as (h' & w2 & Hchat & Hg & Hin). unfold w'. rewrite Hchat.
  split; [ cbn; rewrite last_snoc; now rewrite final_answer_normalise | ].
  split; [ cbn; rewrite last_snoc; unfold plain;
           now rewrite final_answer_normalise | ].
  split; [ exact Hg | ].
  split.
  { intros n Hn. cbn. rewrite in_app_iff. left. rewrite Hret. now apply Hin. }
  intros request msg Hreq Hmsg. rewrite onRequest_eq, Hreq, Hmsg. cbv zeta.
  destruct (Hloop false (messages w ++ [ plain user msg ])%list w eq_refl)
    as (w1 & h'' & w3 & -> & -> & _).
  cbn [fst snd]. rewrite normalise_eq. reflexivity.
Qed.

(** C8, as the claim states it: the message handed to the loop is not rid
    of the alternate field. *)
Lemma reasoning_field_reaches_the_loop :
  ~ reasoning_stays_behind_adapter (platform_with off_nutella glm_reasoning) env0.
Proof.
  intros H.
  specialize (H [] agent_state0 _ _ eq_refl). discriminate H.
Qed.

Lemma well_formed_rounds_count rounds :
  Forall well_formed_round rounds ->
  length (flat_map snd rounds) =
    list_sum (List.map (fun rd => length (requested (fst rd))) rounds) /\
  length rounds <= length (flat_map snd rounds).
Proof.
  induction 1 as [ | rd rounds [Hne Hturns] _ [IH1 IH2]]; [ split; reflexivity | ].
  cbn [flat_map List.map]. rewrite List.length_app.
  change (list_sum (?a :: ?l)) with (a + list_sum l). rewrite <- IH1.
  apply Forall2_length in Hturns. rewrite <- Hturns.
  destruct (requested (fst rd)); [ congruence | ]. cbn [length]. split; lia.
Qed.

(** C4 (as the code has it). In a run that ends with a response, the turns
    appended to the conversation are the user turn, then for each round,
    in order, the backend message that requested tools followed by one
    tool-result turn per requested invocation (carrying its identifier),
    then the final answer. The tool-result turns are as many as the tool
    invocations of the executed rounds, hence at least as many as the
    rounds. *)
Theorem tool_result_turn_per_invocation
    (P : Platform) (env : Env) (utterance : string) (w : agent_state)
    (answer : string) :
  let w' := snd (handleChat P env utterance w) in
  last (sent w') = Some (EvResponse answer) ->
  exists rounds evs,
    messages w' =
      (messages w ++ [ plain user utterance ] ++ flat_map round_turns rounds
         ++ [ plain assistant answer ])%list /\
    Forall well_formed_round rounds /\
    sent w' = (sent w ++ evs)%list /\ rounds_started evs = length rounds /\
    length (flat_map snd rounds) =
      list_sum (List.map (fun rd => length (requested (fst rd))) rounds) /\
    length rounds <= length (flat_map snd rounds).
Proof.
  intros w' Hlast.
  destruct (handleChat_run P env utterance w)
    as (n & evs & Hn & Hok & Hg & Hs & Hr & Hend).
  fold w' in Hg, Hs, Hend.
  destruct Hend as [(text & Herr & _) | (rounds & final & Hlen & Hwf & _ & Hl & Hm)].
  - rewrite Hlast in Herr. discriminate.
  - rewrite Hlast in Hl. injection Hl as ->.
    exists rounds, evs. split; [ exact Hm | ]. split; [ exact Hwf | ].
    split; [ exact Hs | ]. split; [ congruence | ].
    now apply well_formed_rounds_count.
Qed.

(** One round with two invocations appends two tool-result turns. *)
Lemma two_invocations_in_one_round :
  ~ tool_turns_equal_rounds (platform_with off_nutella glm_two_lookups) env0
      "compare A and B" agent_state0.
Proof.
  unfold tool_turns_equal_rounds. vm_compute. intros H. discriminate H.
Qed.

Lemma tool_result_turn_per_invocation_witness :
  let w' := snd (handleChat (platform_with off_nutella glm_two_lookups) env0
                   "compare A and B" agent_state0) in
  exists rounds evs,
    messages w' =
      (messages agent_state0 ++ [ plain user "compare A and B" ]
         ++ flat_map round_turns rounds
         ++ [ plain assistant "Only A was found." ])%list /\
    Forall well_formed_round rounds /\
    sent w' = (sent agent_state0 ++ evs)%list /\
    rounds_started evs = length rounds /\
    length (flat_map snd rounds) =
      list_sum (List.map (fun rd => length (requested (fst rd))) rounds) /\
    length rounds <= length (flat_map snd rounds).
Proof.
  apply (tool_result_turn_per_invocation
           (platform_with off_nutella glm_two_lookups) env0 "compare A and B"
           agent_state0 "Only A was found.").
  vm_compute. reflexivity.
Defined.

Lemma tool_loop_bounded_by_iteration_ceiling_witness :
  exists answer,
    last (sent (snd (handleChat (platform_with off_nutella glm_always_tools) env0
                       "how many calories?" agent_state0)))
      = Some (EvResponse answer) /\
    last (messages (snd (handleChat (platform_with off_nutella glm_always_tools) env0
                           "how many calories?" agent_state0)))
      = Some (plain assistant answer).
Proof.
  apply (proj1 (proj2 (proj2 (proj2
           (tool_loop_bounded_by_iteration_ceiling
              (platform_with off_nutella glm_always_tools) env0
              "how many calories?" agent_state0))))).
  intros n req. eexists _, _. reflexivity.
Defined.

Lemma ceiling_reached_delivers_last_content_witness :
  let P := platform_with off_nutella glm_always_tools in
  let w' := snd (handleChat P env0 "how many calories?" agent_state0) in
  fst (handleChat P env0 "how many calories?" agent_state0) = Ok tt /\
  last (sent w') = Some (EvResponse "Still looking.") /\
  last (messages w') =
    Some {| role := assistant; content := Some "Still looking.";
            tool_call_id := None; tool_calls := None; reasoning_content := None |} /\
  glm_calls w' = glm_calls agent_state0 + 9 /\
  forall request msg,
    is_chat request = true -> chat_message request = Ok msg ->
    fst (onRequest P env0 request agent_state0) =
      Ok (Response_json (ChatBody (Some "Still looking.")) 200 []).
Proof.
  apply (ceiling_reached_delivers_last_content
           (platform_with off_nutella glm_always_tools) env0 "how many calories?"
           agent_state0
           (fun _ => tool_request (Some "Still looking.") [ lookup_call "call-A" ])).
  - intros j req _. exists []. reflexivity.
  - intros j _. discriminate.
Defined.

Lemma final_answer_is_normalised_content_witness :
  let P := platform_with off_nutella glm_lookup_then_reasoning in
  let w' := snd (handleChat P env0 "how many calories?" agent_state0) in
  last (sent w') = Some (EvResponse "About 539 kcal.") /\
  last (messages w') =
    Some {| role := assistant; content := Some "About 539 kcal.";
            tool_call_id := None; tool_calls := None; reasoning_content := None |} /\
  glm_calls w' = 2 /\
  In {| role := assistant; content := Some "I need the product first.";
        tool_call_id := None; tool_calls := Some [ lookup_call "call-A" ];
        reasoning_content := Some "I need the product first." |}
     (messages w').
Proof.
  pose proof (final_answer_is_normalised_content
                (platform_with off_nutella glm_lookup_then_reasoning) env0
                "how many calories?" agent_state0
                (fun n => if Nat.eqb n 0
                          then {| role := assistant; content := None;
                                  tool_call_id := None;
                                  tool_calls := Some [ lookup_call "call-A" ];
                                  reasoning_content := Some "I need the product first." |}
                          else {| role := assistant; content := Some "";
                                  tool_call_id := None; tool_calls := None;
                                  reasoning_content := Some "About 539 kcal." |})
                1 ltac:(lia)) as Hthm.
  destruct Hthm as (_ & Hsent & Hlast & Hcalls & Hin & _).
  - intros n req Hn. exists []. destruct n as [ | [ | n]]; [ reflexivity | reflexivity | lia ].
  - intros n Hn. destruct n; [ discriminate | lia ].
  - reflexivity.
  - split; [ exact Hsent | ]. split; [ exact Hlast | ]. split; [ exact Hcalls | ].
    apply (Hin 0). lia.
Defined.

(* ===================================================================== *)
(** * Further properties of the tool executors                            *)
(* ===================================================================== *)

(** Case analysis on the conversions of a goal, each with what it says of
    the value converted. *)
Ltac conversions P :=
  repeat match goal with
         | |- context [ ToString P ?v ] =>
             let Hconv := fresh "Hconv" in
             let Htext := fresh "Htext" in
             pose proof (ToString_convertible P v) as Hconv;
             destruct (ToString P v) eqn:Htext;
             cbn [bindR is_throw negb] in *
         end.

Lemma summarise_run P p :
  if summarisable p
  then exists fs,
         summarise P p = Ok (VObj fs) /\
         List.map fst fs = summary_fields /\
         (forall k, In k summary_text_fields -> exists text, assoc k fs = VStr text) /\
         nullish (assoc "nova_group" fs) = false
  else exists msg, summarise P p = Throw (TypeError msg).
Proof.
  unfold summarisable, summarised_texts.
  destruct (nullish p) eqn:Hp; cbn [negb andb].
  { destruct p; try discriminate; eexists; reflexivity. }
  assert (Hget : get p "nutriments" = Ok (prop p "nutriments"))
    by (destruct p; try discriminate; reflexivity).
  unfold summarise. rewrite Hget. cbn [bindR forallb].
  conversions P;
    repeat match goal with
           | H : true = negb ?c |- _ =>
               let E := fresh in
               assert (E : c = false) by (destruct c; [ discriminate | reflexivity ]);
               rewrite E; clear H
           | H : false = negb ?c |- _ =>
               let E := fresh in
               assert (E : c = true) by (destruct c; [ reflexivity | discriminate ]);
               rewrite E; clear H
           end;
    cbn [andb];
    try match goal with
        | H : ToString P _ = Throw ?e |- exists msg, Throw ?e = _ =>
            rewrite (ToString_TypeError _ _ _ H); eexists; reflexivity
        end.
  eexists. split; [ reflexivity | ]. split; [ reflexivity | ]. split.
  - intros k Hk. cbn in Hk.
    repeat (destruct Hk as [<- | Hk]; [ eexists; reflexivity | ]).
    destruct Hk.
  - cbn. unfold coalesce. destruct (nullish (prop p "nova_group")) eqn:E;
      [ reflexivity | exact E ].
Qed.

Lemma coalesce_convertible a b :
  convertible a = true -> convertible b = true -> convertible (a ?? b) = true.
Proof. unfold coalesce. now destruct (nullish a). Qed.

(** X1. [summarise] accepts exactly the raw products that are not [null] or
    [undefined] and whose texts convert (as they do when no member of the
    product is an object with a [toString] of its own): it then yields an
    object with the twelve summary keys, in order, whose text members are
    strings and whose [nova_group] is never [null] or [undefined]. On
    every other value it throws a [TypeError]. *)
Theorem summarise_normalises (P : Platform) (p : value) :
  (summarisable p = true ->
   exists fs,
     summarise P p = Ok (VObj fs) /\
     List.map fst fs = summary_fields /\
     (forall k, In k summary_text_fields -> exists text, assoc k fs = VStr text) /\
     nullish (assoc "nova_group" fs) = false) /\
  (summarisable p = false -> exists msg, summarise P p = Throw (TypeError msg)) /\
  (nullish p = true -> summarisable p = false) /\
  (nullish p = false -> (forall k, convertible (prop p k) = true) ->
   summarisable p = true).
Proof.
  pose proof (summarise_run P p) as Hrun.
  split; [ intros Hs; now rewrite Hs in Hrun | ].
  split; [ intros Hs; now rewrite Hs in Hrun | ].
  split.
  - intros Hp. unfold summarisable. now rewrite Hp.
  - intros Hp Hall. unfold summarisable, summarised_texts. rewrite Hp.
    cbn [negb andb forallb].
    rewrite !coalesce_convertible by (try apply Hall; reflexivity || apply coalesce_convertible;
                                      try apply Hall; reflexivity).
    reflexivity.
Qed.

Lemma summarise_normalises_witness :
  exists fs,
    summarise demo_platform
      (VObj [ ("code", VStr "3017620422003"); ("product_name", VStr "Nutella");
              ("nova_group", VNum num_1) ]) = Ok (VObj fs) /\
    List.map fst fs = summary_fields /\
    (forall k, In k summary_text_fields -> exists text, assoc k fs = VStr text) /\
    nullish (assoc "nova_group" fs) = false.
Proof.
  apply (proj1 (summarise_normalises demo_platform
                  (VObj [ ("code", VStr "3017620422003"); ("product_name", VStr "Nutella");
                          ("nova_group", VNum num_1) ]))).
  reflexivity.
Defined.

Lemma spends_refl n s : spends n s s.
Proof. unfold spends. repeat split; lia. Qed.

Lemma spends_weaken n m s s' : n <= m -> spends n s s' -> spends m s s'.
Proof. unfold spends. intros Hle (Hl & H1 & H2). repeat split; try assumption; lia. Qed.

Lemma spends_trans n m s1 s2 s3 :
  spends n s1 s2 -> spends m s2 s3 -> spends (n + m) s1 s3.
Proof.
  unfold spends. intros (Hl1 & H1 & H2) (Hl2 & H3 & H4).
  repeat split; [ congruence | lia | lia ].
Qed.

Lemma offFetch_spends P url s : spends 1 s (snd (offFetch P url s)).
Proof.
  unfold offFetch.
  destruct (off_http P (off_calls s) url) as [e | r]; [ | destruct (res_ok r) ];
    cbn; unfold spends; cbn; repeat split; lia.
Qed.

(** Steps that only compute on the outcome of the request. *)
Lemma of_result_spends {A} (r : result A) s :
  spends 0 s (snd (of_result r s)).
Proof. apply spends_refl. Qed.

Lemma getProductByBarcode_spends P b s :
  spends 1 s (snd (getProductByBarcode P b s)).
Proof.
  unfold getProductByBarcode, bind, of_result, throw.
  destruct (encodeURIComponent P b) as [enc | e]; [ | apply spends_refl ].
  pose proof (offFetch_spends P (product_url enc) s) as H.
  destruct (offFetch P (product_url enc) s) as [[data | e] s1]; cbn [snd] in *;
    [ | exact H ].
  destruct (get data "product") as [product | e]; [ | exact H ].
  destruct (negb (truthy product)); [ destruct (ToString P b) | ]; exact H.
Qed.

Lemma getAllergenInfo_spends P b s :
  spends 1 s (snd (getAllergenInfo P b s)).
Proof.
  unfold getAllergenInfo, bind, of_result, ret.
  destruct (encodeURIComponent P b) as [enc | e]; [ | apply spends_refl ].
  pose proof (offFetch_spends P (allergen_url enc) s) as H.
  destruct (offFetch P (allergen_url enc) s) as [[data | e] s1]; cbn [snd] in *;
    [ | exact H ].
  destruct (get data "product") as [product | e]; [ | exact H ].
  repeat match goal with
         | |- context [ ToString P ?v ] => destruct (ToString P v)
         end; exact H.
Qed.

Lemma searchProducts_spends P q pg sz s :
  spends 1 s (snd (searchProducts P q pg sz s)).
Proof.
  unfold searchProducts, bind, of_result. cbv zeta.
  repeat match goal with
         | |- context [ ToString P ?v ] =>
             destruct (ToString P v); [ | apply spends_refl ]
         end.
  match goal with
  | |- context [ offFetch P ?u s ] =>
      pose proof (offFetch_spends P u s) as H;
      destruct (offFetch P u s) as [[data | e] s1]
  end; exact H.
Qed.

Lemma getProductsByCategory_spends P c pg sz s :
  spends 1 s (snd (getProductsByCategory P c pg sz s)).
Proof.
  unfold getProductsByCategory, bind, of_result, throw. cbv zeta.
  destruct c; try apply spends_refl.
  destruct (encodeURIComponent P _) as [enc | e]; [ | apply spends_refl ].
  repeat match goal with
         | |- context [ ToString P ?v ] =>
             destruct (ToString P v); [ | apply spends_refl ]
         end.
  match goal with
  | |- context [ offFetch P ?u s ] =>
      pose proof (offFetch_spends P u s) as H;
      destruct (offFetch P u s) as [[data | e] s1]
  end; exact H.
Qed.

Lemma lookups_spend P bs :
  forall s, spends (length bs)
              s (snd (allSettled (List.map (getProductByBarcode P) bs) s)).
Proof.
  induction bs as [ | b bs IH]; intros s; [ apply spends_refl | ].
  cbn [List.map allSettled length].
  pose proof (getProductByBarcode_spends P b s) as H1.
  destruct (getProductByBarcode P b s) as [r s1]. cbn [snd] in H1.
  pose proof (IH s1) as H2.
  destruct (allSettled (List.map (getProductByBarcode P) bs) s1) as [[rs | e] s2];
    cbn [snd] in *; exact (spends_trans 1 (length bs) _ _ _ H1 H2).
Qed.

Lemma compareProducts_spends P bs s :
  spends (length bs) s (snd (compareProducts P (VArr bs) s)).
Proof.
  unfold compareProducts, bind, ret.
  pose proof (lookups_spend P bs s) as H.
  destruct (allSettled (List.map (getProductByBarcode P) bs) s) as [[rs | e] s1];
    exact H.
Qed.

(** X2. Every tool invocation records itself once in the dispatch log and
    issues no more requests to the data source than its budget: one per
    barcode for the comparison, one for the other four tools, none for an
    unknown tool name. The request counter never decreases. *)
Theorem dispatchTool_request_budget
    (P : Platform) (name : string) (args : value) (s : tool_state) :
  let s' := snd (dispatchTool P name args s) in
  dispatch_log s' = (dispatch_log s ++ [ (name, args) ])%list /\
  off_calls s <= off_calls s' /\
  off_calls s' <= off_calls s + request_budget name args.
Proof.
  intros s'.
  set (s0 := {| off_calls := off_calls s;
                dispatch_log := (dispatch_log s ++ [ (name, args) ])%list |}).
  assert (Hgoal : spends (request_budget name args) s0 s').
  { unfold s', dispatchTool, log_dispatch, bind, modify, of_result, throw.
    fold s0. unfold request_budget.
    destruct (String.eqb name "get_product_by_barcode") eqn:E1.
    { apply String.eqb_eq in E1. subst name. cbn.
      destruct (get args "barcode"); [ apply getProductByBarcode_spends | apply spends_refl ]. }
    destruct (String.eqb name "search_products") eqn:E2.
    { apply String.eqb_eq in E2. subst name. cbn.
      destruct (get args "query"); [ apply searchProducts_spends | apply spends_refl ]. }
    destruct (String.eqb name "get_products_by_category") eqn:E3.
    { apply String.eqb_eq in E3. subst name. cbn.
      destruct (get args "category");
        [ apply getProductsByCategory_spends | apply spends_refl ]. }
    destruct (String.eqb name "compare_products") eqn:E4.
    { destruct args; cbn; try apply spends_refl.
      destruct (assoc "barcodes" fields) eqn:Eb; cbn; try apply spends_refl.
      apply compareProducts_spends. }
    destruct (String.eqb name "get_allergen_info") eqn:E5.
    { apply String.eqb_eq in E5. subst name. cbn.
      destruct (get args "barcode"); [ apply getAllergenInfo_spends | apply spends_refl ]. }
    apply spends_refl. }
  destruct Hgoal as (Hl & H1 & H2). repeat split; assumption.
Qed.

Lemma successful_summaries_app P bs1 bs2 s :
  successful_summaries P (bs1 ++ bs2) s =
    let (l1, s1) := successful_summaries P bs1 s in
    let (l2, s2) := successful_summaries P bs2 s1 in
    ((l1 ++ l2)%list, s2).
Proof.
  revert s. induction bs1 as [ | b bs1 IH]; intros s.
  - cbn. now destruct (successful_summaries P bs2 s).
  - cbn [app successful_summaries].
    destruct (getProductByBarcode P b s) as [[summary | e] s0]; rewrite IH;
      destruct (successful_summaries P bs1 s0) as [l1 s1];
      destruct (successful_summaries P bs2 s1) as [l2 s2]; reflexivity.
Qed.

Lemma successful_summaries_length P bs :
  forall s, length (fst (successful_summaries P bs s)) <= length bs.
Proof.
  induction bs as [ | b bs IH]; intros s; [ cbn; lia | ].
  cbn [successful_summaries length].
  destruct (getProductByBarcode P b s) as [[summary | e] s0];
    specialize (IH s0); destruct (successful_summaries P bs s0) as [l s1];
    cbn [fst length] in *; lia.
Qed.

(** X3. Comparing a list of barcodes in one call gives the same summaries, in
    the same order, as comparing a first part and then the rest; the
    result never has more entries than there are barcodes. *)
Theorem compareProducts_splits (P : Platform) (bs1 bs2 : list value) (s : tool_state) :
  exists l1 s1 l2 s2,
    compareProducts P (VArr bs1) s = (Ok (VArr l1), s1) /\
    compareProducts P (VArr bs2) s1 = (Ok (VArr l2), s2) /\
    compareProducts P (VArr (bs1 ++ bs2)) s = (Ok (VArr (l1 ++ l2)), s2) /\
    length (l1 ++ l2) <= length (bs1 ++ bs2).
Proof.
  pose proof (successful_summaries_length P (bs1 ++ bs2) s) as Hlen.
  pose proof (successful_summaries_app P bs1 bs2 s) as Happ.
  exists (fst (successful_summaries P bs1 s)), (snd (successful_summaries P bs1 s)).
  destruct (successful_summaries P bs1 s) as [l1 s1] eqn:E1. cbn [fst snd].
  exists (fst (successful_summaries P bs2 s1)), (snd (successful_summaries P bs2 s1)).
  destruct (successful_summaries P bs2 s1) as [l2 s2] eqn:E2. cbn [fst snd].
  rewrite !compareProducts_eq, E1, E2, Happ. rewrite Happ in Hlen.
  repeat split. exact Hlen.
Qed.

(** X4. A call that cannot be served is refused before any request is sent:
    an unknown tool name, [null] arguments, a category that is not a
    string, or barcodes that are not an array make [dispatchTool] throw
    with the request counter unchanged. *)
Theorem malformed_invocation_sends_no_request
    (P : Platform) (name : string) (args : value) (s : tool_state) :
  ~ In name registered_names \/
  nullish args = true /\ In name registered_names \/
  (name = "get_products_by_category" /\ forall c, prop args "category" <> VStr c) \/
  (name = "compare_products" /\ forall bs, prop args "barcodes" <> VArr bs) ->
  exists err,
    dispatchTool P name args s =
      (Throw err,
       {| off_calls := off_calls s;
          dispatch_log := (dispatch_log s ++ [ (name, args) ])%list |}) /\
    (~ In name registered_names -> err = Error ("Unknown tool: " ++ name)).
Proof.
  intros Hcase.
  unfold dispatchTool, log_dispatch, bind, modify, of_result, throw.
  destruct Hcase as [Hunknown | [[Hnull Hin] | [[-> Hcat] | [-> Hbar]]]].
  - assert (Hne : forall n, In n registered_names -> String.eqb name n = false).
    { intros n Hn. apply String.eqb_neq. intros ->. contradiction. }
    rewrite !Hne by (cbn; tauto).
    eexists. split; [ reflexivity | reflexivity ].
  - cbn in Hin.
    destruct args; try discriminate;
      repeat (destruct Hin as [<- | Hin];
              [ eexists; split; [ reflexivity | intros Hn; exfalso; apply Hn; cbn; tauto ] | ]);
      destruct Hin.
  - cbn. destruct args; cbn;
      try (eexists; split;
           [ reflexivity | intros Hn; exfalso; apply Hn; cbn; tauto ]).
    unfold getProductsByCategory, throw. cbn in Hcat.
    destruct (assoc "category" fields) eqn:E;
      try (eexists; split;
           [ reflexivity | intros Hn; exfalso; apply Hn; cbn; tauto ]).
    exfalso. eapply Hcat. reflexivity.
  - cbn. destruct args; cbn;
      try (eexists; split;
           [ reflexivity | intros Hn; exfalso; apply Hn; cbn; tauto ]).
    unfold compareProducts, throw. cbn in Hbar.
    destruct (assoc "barcodes" fields) eqn:E;
      try (eexists; split;
           [ reflexivity | intros Hn; exfalso; apply Hn; cbn; tauto ]).
    exfalso. eapply Hbar. reflexivity.
Qed.

Lemma malformed_invocation_sends_no_request_witness :
  exists err,
    dispatchTool demo_platform "compare_products" (VObj []) tool_state0 =
      (Throw err,
       {| off_calls := 0; dispatch_log := [ ("compare_products", VObj []) ] |}) /\
    (~ In "compare_products" registered_names ->
     err = Error ("Unknown tool: " ++ "compare_products")).
Proof.
  apply (malformed_invocation_sends_no_request demo_platform "compare_products"
           (VObj []) tool_state0).
  right. right. right. split; [ reflexivity | ]. intros bs. discriminate.
Defined.






(* ===================================================================== *)
(** * Further properties of the MCP server                                *)
(* ===================================================================== *)

Lemma append_cons a p s : String a p ++ s = String a (p ++ s).
Proof. reflexivity. Qed.

Lemma prefix_split p s :
  String.prefix p s = true -> exists rest, s = p ++ rest.
Proof.
  revert s. induction p as [ | a p IH]; intros s H.
  - now exists s.
  - destruct s as [ | b s]; [ discriminate | ]. cbn in H.
    destruct (Ascii.ascii_dec a b) as [-> | ]; [ | discriminate ].
    destruct (IH s H) as (rest & ->). now exists rest.
Qed.

Lemma prefix_append p s : String.prefix p (p ++ s) = true.
Proof.
  induction p as [ | a p IH]; [ destruct s; reflexivity | ].
  rewrite append_cons. cbn. destruct (Ascii.ascii_dec a a); [ exact IH | congruence ].
Qed.

Lemma substring_all s : String.substring 0 (String.length s) s = s.
Proof. induction s as [ | a s IH]; cbn; [ | rewrite IH ]; reflexivity. Qed.

Lemma length_append p s :
  String.length (p ++ s) = String.length p + String.length s.
Proof.
  induction p as [ | a p IH]; [ reflexivity | ].
  rewrite append_cons. cbn. now rewrite IH.
Qed.

Lemma substring_skip p s m :
  String.substring (String.length p) m (p ++ s) = String.substring 0 m s.
Proof.
  induction p as [ | a p IH]; [ reflexivity | ].
  rewrite append_cons. cbn. exact IH.
Qed.

(** [("Bearer " + key).slice(7)] is [key]. *)
Lemma bearer_token_of key :
  String.prefix "Bearer " ("Bearer " ++ key) = true /\
  String.substring 7 (String.length ("Bearer " ++ key) - 7) ("Bearer " ++ key) = key.
Proof.
  split; [ apply prefix_append | ].
  rewrite length_append.
  change (String.length "Bearer ") with 7.
  replace (7 + String.length key - 7) with (String.length key) by lia.
  change 7 with (String.length "Bearer ") at 1.
  rewrite substring_skip. apply substring_all.
Qed.

Lemma checkMcpAuth_refusal request env :
  forall resp,
    checkMcpAuth request env = Some resp ->
    status resp = 401%Z /\ header_get "Mcp-Session-Id" (headers resp) = None.
Proof.
  unfold checkMcpAuth.
  destruct (MCP_API_KEY env) as [key | ]; [ | discriminate ].
  destruct (String.eqb key ""); [ discriminate | ].
  destruct (authorization request) as [auth | ];
    [ | intros resp [= <-]; split; reflexivity ].
  destruct (absent (Some auth) || negb (String.prefix "Bearer " auth));
    [ intros resp [= <-]; split; reflexivity | ].
  destruct (negb _); [ intros resp [= <-]; split; reflexivity | discriminate ].
Qed.

(** X6. The bearer check lets a request through exactly when no key is
    configured (absent or empty), or the [Authorization] header is
    ["Bearer "] followed by the configured key; every refusal is a 401
    carrying the JSON-RPC error -32001. *)
Theorem checkMcpAuth_accepts_exactly_the_key (request : Request) (env : Env) :
  (checkMcpAuth request env = None <->
   absent (MCP_API_KEY env) = true \/
   exists key, MCP_API_KEY env = Some key /\
               authorization request = Some ("Bearer " ++ key)) /\
  (forall resp,
     checkMcpAuth request env = Some resp ->
     status resp = 401%Z /\
     exists msg, rbody resp = JsonRpcBody (rpcError VNull (-32001) msg)).
Proof.
  unfold checkMcpAuth, absent.
  destruct (MCP_API_KEY env) as [key | ]; [ | split; [ tauto | discriminate ] ].
  destruct (String.eqb key "") eqn:Ekey; [ split; [ tauto | discriminate ] | ].
  destruct (authorization request) as [auth | ].
  2: { split.
       - split; [ discriminate | ]. intros [ | (k & _ & ?)]; discriminate.
       - intros resp [= <-]. split; [ reflexivity | eexists; reflexivity ]. }
  destruct (String.eqb auth "") eqn:Eauth.
  { apply String.eqb_eq in Eauth. subst auth. cbn. split.
    - split; [ discriminate | ]. intros [ | (k & _ & ?)]; discriminate.
    - intros resp [= <-]. split; [ reflexivity | eexists; reflexivity ]. }
  cbn [orb].
  destruct (String.prefix "Bearer " auth) eqn:Epre; cbn [negb].
  2: { split.
       - split; [ discriminate | ]. intros [ | (k & [= <-] & [= ->])]; [ discriminate | ].
         rewrite (proj1 (bearer_token_of key)) in Epre. discriminate.
       - intros resp [= <-]. split; [ reflexivity | eexists; reflexivity ]. }
  destruct (prefix_split _ _ Epre) as (token & ->).
  rewrite (proj2 (bearer_token_of token)).
  destruct (String.eqb token key) eqn:Etok; cbn [negb].
  - apply String.eqb_eq in Etok. subst token. split; [ | discriminate ].
    split; [ | reflexivity ]. intros _. right. exists key. split; reflexivity.
  - split.
    + split; [ discriminate | ]. intros [ | (k & [= <-] & [= Heq])]; [ discriminate | ].
      exfalso. apply String.eqb_neq in Etok. apply Etok. exact Heq.
    + intros resp [= <-]. split; [ reflexivity | eexists; reflexivity ].
Qed.

(** X7. A request that is not served (it fails the bearer check, uses another
    method than GET, DELETE and POST, or is a POST without a JSON content
    type or with a body that does not parse) is answered with 401, 405,
    415 or 400, carries no session token, and leaves the sessions and the
    tool layer exactly as they were. *)
Theorem unserved_request_changes_nothing
    (P : Platform) (request : Request) (env : Env) (w : gw_state) :
  served request env = false ->
  exists resp,
    handleMcpRequest P request env w = (Ok resp, w) /\
    In (status resp) [ 401; 405; 415; 400 ]%Z /\
    header_get "Mcp-Session-Id" (headers resp) = None.
Proof.
  unfold served, handleMcpRequest. intros Hserved.
  pose proof (checkMcpAuth_refusal request env) as Hrefusal.
  destruct (checkMcpAuth request env) as [authErr | ].
  { destruct (Hrefusal authErr eq_refl) as (Hst & Hhd).
    exists authErr. split; [ reflexivity | ]. split; [ rewrite Hst; cbn; tauto | exact Hhd ]. }
  destruct (String.eqb (method request) "GET"); [ discriminate | ].
  destruct (String.eqb (method request) "DELETE"); [ discriminate | ].
  cbn [orb] in Hserved.
  destruct (String.eqb (method request) "POST"); cbn [negb andb] in *.
  2: { eexists. split; [ reflexivity | ]. cbn. tauto. }
  destruct (includes "application/json" (default "" (content_type request)));
    cbn [negb andb] in *.
  2: { eexists. split; [ reflexivity | ]. cbn. tauto. }
  destruct (body_json request) as [b | e]; [ discriminate | ].
  eexists. split; [ reflexivity | ]. cbn. tauto.
Qed.

Lemma unserved_request_changes_nothing_witness :
  exists resp,
    handleMcpRequest demo_platform put_request env0 gw_state1 = (Ok resp, gw_state1) /\
    In (status resp) [ 401; 405; 415; 400 ]%Z /\
    header_get "Mcp-Session-Id" (headers resp) = None.
Proof.
  apply (unserved_request_changes_nothing demo_platform put_request env0 gw_state1).
  reflexivity.
Defined.

Lemma getOrCreateSession_recognised P token w :
  recognised (Some token) w = true ->
  getOrCreateSession P (Some token) w = (Ok token, w).
Proof.
  unfold getOrCreateSession, recognised. intros ->. reflexivity.
Qed.

(** X8. The token [getOrCreateSession] hands out, when it is not the empty
    text, is recognised from then on: presenting it again returns the
    same token, draws no new identifier and leaves the store as it is,
    however often it is presented. (An empty identifier is never
    recognised.) *)
Theorem session_token_round_trip
    (P : Platform) (sessionId : option string) (w : gw_state) :
  let token := fst (session_after P sessionId w) in
  token <> "" ->
  exists w1,
    getOrCreateSession P sessionId w = (Ok token, w1) /\
    is_Some (sessions w1 !! token) /\
    getOrCreateSession P (Some token) w1 = (Ok token, w1).
Proof.
  intros token Htoken.
  rewrite getOrCreateSession_eq. fold token. eexists. split; [ reflexivity | ].
  assert (Hin : is_Some (snd (session_after P sessionId w) !! token)).
  { unfold token, session_after.
    destruct (recognised sessionId w) eqn:Hrec; cbn [fst snd].
    - unfold recognised in Hrec. destruct sessionId as [sid | ]; [ | discriminate ].
      apply andb_true_iff in Hrec as [_ Hrec].
      apply bool_decide_eq_true in Hrec. exact Hrec.
    - rewrite lookup_insert_eq. eauto. }
  split; [ exact Hin | ].
  assert (Hrec : recognised (Some token)
            {| tools := tools w; sessions := snd (session_after P sessionId w);
               uuid_draws := if recognised sessionId w then uuid_draws w
                             else S (uuid_draws w);
               clock_reads := if recognised sessionId w then clock_reads w
                              else S (clock_reads w) |} = true).
  { unfold recognised. cbn [sessions]. apply andb_true_iff. split.
    - apply negb_true_iff, String.eqb_neq. exact Htoken.
    - apply bool_decide_eq_true. exact Hin. }
  exact (getOrCreateSession_recognised P token _ Hrec).
Qed.

Lemma session_token_round_trip_witness :
  exists w1,
    getOrCreateSession demo_platform None gw_state0 = (Ok "uuid-0", w1) /\
    is_Some (sessions w1 !! "uuid-0") /\
    getOrCreateSession demo_platform (Some "uuid-0") w1 = (Ok "uuid-0", w1).
Proof.
  apply (session_token_round_trip demo_platform None gw_state0). discriminate.
Defined.

(** X9. Once a session is closed its token is forgotten: the next request that
    presents it is given the next identifier of the generator, which is
    registered in its place. *)
Theorem closed_session_is_forgotten
    (P : Platform) (request : Request) (env : Env) (token : string) (w : gw_state) :
  checkMcpAuth request env = None ->
  method request = "DELETE" ->
  mcp_session_id request = Some token ->
  token <> "" ->
  exists w1,
    handleMcpRequest P request env w =
      (Ok {| status := 204; headers := []; rbody := NoBody |}, w1) /\
    sessions w1 !! token = None /\
    (forall other, other <> token -> sessions w1 !! other = sessions w !! other) /\
    exists w2,
      getOrCreateSession P (Some token) w1 = (Ok (randomUUID P (uuid_draws w)), w2) /\
      is_Some (sessions w2 !! randomUUID P (uuid_draws w)).
Proof.
  intros Hauth Hdel Hsid Htoken.
  rewrite (delete_request_closes P request env w Hauth Hdel).
  eexists. split; [ reflexivity | ].
  unfold closed_sessions. rewrite Hsid.
  destruct (String.eqb token "") eqn:E; [ apply String.eqb_eq in E; contradiction | ].
  cbn [sessions set_sessions].
  split; [ apply lookup_delete_eq | ].
  split; [ intros other Hne; now apply lookup_delete_ne | ].
  assert (Hrec : recognised (Some token)
                   (set_sessions (delete token (sessions w)) w) = false).
  { unfold recognised. cbn [sessions set_sessions].
    rewrite lookup_delete_eq.
    rewrite bool_decide_eq_false_2 by (intros [x Hx]; discriminate).
    apply andb_false_r. }
  rewrite getOrCreateSession_eq. unfold session_after. rewrite Hrec.
  cbn [fst snd uuid_draws set_sessions sessions].
  eexists. split; [ reflexivity | ].
  cbn [sessions]. rewrite lookup_insert_eq. eauto.
Qed.

Lemma closed_session_is_forgotten_witness :
  exists w1,
    handleMcpRequest demo_platform delete_request env0 gw_state1 =
      (Ok {| status := 204; headers := []; rbody := NoBody |}, w1) /\
    sessions w1 !! "uuid-0" = None /\
    (forall other, other <> "uuid-0" ->
                   sessions w1 !! other = sessions gw_state1 !! other) /\
    exists w2,
      getOrCreateSession demo_platform (Some "uuid-0") w1 = (Ok "uuid-1", w2) /\
      is_Some (sessions w2 !! "uuid-1").
Proof.
  apply (closed_session_is_forgotten demo_platform delete_request env0 "uuid-0" gw_state1);
    solve [ reflexivity | discriminate ].
Defined.

(** X10. Only [tools/call] has effects: every other envelope, whatever it is,
    leaves the gateway state (sessions and tool layer) unchanged. An
    envelope whose method is none of the six known ones is answered with
    the error -32601, which names the method and carries the envelope's
    identifier, when the method converts to text (as every string does,
    and a missing method, which gives "undefined"); when it does not, the
    dispatcher throws the [TypeError] of the conversion. *)
Theorem only_tools_call_changes_state
    (P : Platform) (req : value) (w : gw_state) :
  (method_is (prop req "method") "tools/call" = false ->
   snd (handleRpcMethod P req w) = w) /\
  (nullish req = false ->
   (forall m, In m known_methods -> prop req "method" <> VStr m) ->
   (forall text,
      ToString P (prop req "method") = Ok text ->
      fst (handleRpcMethod P req w) =
        Ok (Some {| jsonrpc := "2.0"; rpc_id := envelope_id req;
                    payload := RpcError (-32601) ("Method not found: " ++ text)
                                 VUndefined |})) /\
   (convertible (prop req "method") = false ->
    fst (handleRpcMethod P req w) =
      Throw (TypeError "Cannot convert object to primitive value"))).
Proof.
  split.
  - intros Hcall. unfold handleRpcMethod, bind, of_result, ret.
    destruct (get req "id"); [ | reflexivity ]. rewrite Hcall.
    repeat match goal with
           | |- context [ if ?b then _ else _ ] => destruct b
           end; try reflexivity.
    destruct (ToString P (prop req "method")); reflexivity.
  - intros Hreq Hunknown.
    assert (Hno : forall m, In m known_methods ->
                            method_is (prop req "method") m = false).
    { intros m Hm. unfold method_is.
      destruct (prop req "method") eqn:E; try reflexivity.
      apply String.eqb_neq. intros ->. now apply (Hunknown m). }
    unfold handleRpcMethod, bind, of_result, ret.
    rewrite (get_not_nullish _ _ Hreq). fold (envelope_id req).
    rewrite !Hno by (cbn; tauto).
    split.
    + intros text ->. reflexivity.
    + intros Hconv. pose proof (ToString_convertible P (prop req "method")) as Hthrow.
      rewrite Hconv in Hthrow.
      destruct (ToString P (prop req "method")) as [text | e] eqn:Htext;
        [ discriminate | ].
      rewrite (ToString_TypeError _ _ _ Htext). reflexivity.
Qed.

Lemma only_tools_call_changes_state_witness :
  snd (handleRpcMethod demo_platform (envelope (VNum num_1) "ping") gw_state1) = gw_state1 /\
  fst (handleRpcMethod demo_platform (envelope (VStr "b") "resources/list") gw_state1) =
    Ok (Some {| jsonrpc := "2.0"; rpc_id := VStr "b";
                payload := RpcError (-32601) "Method not found: resources/list"
                             VUndefined |}) /\
  fst (handleRpcMethod demo_platform
         (VObj [ ("id", VStr "b"); ("method", VObj [ ("toString", VNull) ]) ]) gw_state1) =
    Throw (TypeError "Cannot convert object to primitive value").
Proof.
  split; [ | split ].
  - apply (proj1 (only_tools_call_changes_state demo_platform
                    (envelope (VNum num_1) "ping") gw_state1)).
    reflexivity.
  - apply (proj1 (proj2 (only_tools_call_changes_state demo_platform
                           (envelope (VStr "b") "resources/list") gw_state1)
                    eq_refl
                    ltac:(intros m Hm; cbn in Hm;
                          repeat (destruct Hm as [<- | Hm]; [ discriminate | ]);
                          destruct Hm))).
    reflexivity.
  - apply (proj2 (proj2 (only_tools_call_changes_state demo_platform
                           (VObj [ ("id", VStr "b");
                                   ("method", VObj [ ("toString", VNull) ]) ])
                           gw_state1)
                    eq_refl
                    ltac:(intros m Hm; cbn in Hm;
                          repeat (destruct Hm as [<- | Hm]; [ discriminate | ]);
                          destruct Hm))).
    reflexivity.
Defined.

Lemma nullish_undispatchable reqs :
  Exists (fun req => nullish req = true) reqs ->
  Exists (fun req => dispatchable req = false) reqs.
Proof.
  induction 1 as [req reqs Hreq | req reqs _ IH].
  - apply Exists_cons_hd. unfold dispatchable. now rewrite Hreq.
  - apply Exists_cons_tl. exact IH.
Qed.

(** X11. A batch with a [null] entry gets no response at all: the handler
    throws a type error, whatever the other entries are, and no session
    is opened for the request. *)
Theorem null_entry_rejects_whole_batch
    (P : Platform) (request : Request) (env : Env) (reqs : list value)
    (w : gw_state) :
  checkMcpAuth request env = None ->
  json_post request (VArr reqs) ->
  Exists (fun req => nullish req = true) reqs ->
  exists msg w1,
    handleMcpRequest P request env w = (Throw (TypeError msg), w1) /\
    sessions w1 = sessions w /\ uuid_draws w1 = uuid_draws w.
Proof.
  intros Hauth Hpost Hnull.
  rewrite (json_post_dispatch P request env _ w Hauth Hpost).
  unfold Promise_all, bind, of_result.
  destruct (batch_outcomes P reqs w) as (rs & w1 & -> & (Hs & Hu & _) & Hall).
  destruct (first_throw_undispatchable reqs rs Hall (nullish_undispatchable reqs Hnull))
    as (msg & ->).
  exists msg, w1. repeat split; assumption.
Qed.

Lemma null_entry_rejects_whole_batch_witness :
  exists msg w1,
    handleMcpRequest demo_platform
      (post_request (VArr [ envelope (VNum num_1) "ping"; VNull ])) env0 gw_state0 =
      (Throw (TypeError msg), w1) /\
    sessions w1 = sessions gw_state0 /\ uuid_draws w1 = uuid_draws gw_state0.
Proof.
  apply (null_entry_rejects_whole_batch demo_platform
           (post_request (VArr [ envelope (VNum num_1) "ping"; VNull ])) env0
           [ envelope (VNum num_1) "ping"; VNull ] gw_state0).
  - reflexivity.
  - repeat split.
  - apply Exists_cons_tl, Exists_cons_hd. reflexivity.
Defined.


(* ===================================================================== *)
(** * Further properties of the agent                                     *)
(* ===================================================================== *)

(** X12. The tool catalogue is obtained once: the first call of [getLLMTools]
    asks the gateway at most once and caches what it got, later calls
    return the cached catalogue without any exchange. When the gateway
    cannot be reached, the built-in catalogue is used; it offers the
    registered tool names with the same parameter schemas as the
    gateway's. *)
Theorem tool_catalogue_is_fetched_once (P : Platform) (w : agent_state) :
  exists catalogue w1,
    getLLMTools P w = (Ok catalogue, w1) /\
    mcp_calls w1 <= S (mcp_calls w) /\
    getLLMTools P w1 = (Ok catalogue, w1) /\
    (llmTools w = None -> is_throw (mcp_listTools P (mcp_calls w)) = true ->
     List.map name catalogue = registered_names /\
     List.map inputSchema catalogue = List.map inputSchema MCP_TOOLS).
Proof.
  unfold getLLMTools. destruct (llmTools w) as [t | ] eqn:Hcache.
  - exists t, w. rewrite Hcache.
    split; [ reflexivity | ]. split; [ lia | ]. split; [ reflexivity | discriminate ].
  - eexists _, _. split; [ reflexivity | ]. cbn.
    split; [ lia | ]. split; [ reflexivity | ].
    intros _ Hfail. destruct (mcp_listTools P (mcp_calls w)); [ discriminate | ].
    split; reflexivity.
Qed.

Lemma handleToolCall_registered P id name args gw :
  In name registered_names ->
  handleToolCall P id (VObj [ ("name", VStr name); ("arguments", args) ]) gw =
    (Ok (rpcOk id
           match fst (dispatchTool P name (args ?? VObj []) (tools gw)) with
           | Ok result => tool_result (JSON_stringify_indent P result) false
           | Throw err => tool_result ("Error: " ++ message err) true
           end),
     set_tools (snd (dispatchTool P name (args ?? VObj []) (tools gw))) gw).
Proof.
  intros Hin. unfold handleToolCall.
  change (prop (VObj [ ("name", VStr name); ("arguments", args) ]) "arguments")
    with args.
  cbn in Hin.
  repeat (destruct Hin as [<- | Hin];
          [ cbn -[dispatchTool coalesce]; unfold try_catch, bind, lift, ret;
            destruct (dispatchTool P _ (args ?? VObj []) (tools gw))
              as [[result | err] t'];
            reflexivity | ]).
  destruct Hin.
Qed.

Lemma dispatchTool_nullish P name args s :
  In name registered_names -> nullish args = true ->
  exists msg, fst (dispatchTool P name args s) = Throw (TypeError msg).
Proof.
  intros Hin Hargs. cbn in Hin.
  destruct args; try discriminate;
    repeat (destruct Hin as [<- | Hin]; [ eexists; reflexivity | ]);
    destruct Hin.
Qed.

(** X13. The direct fallback is transparent for arguments that are not
    [null] or [undefined]: when the gateway cannot be reached,
    [executeTool] returns exactly the text the gateway's [tools/call]
    would have put in its result for the same tool, arguments and
    data-source state; and when the executor throws, the gateway would
    have answered with that error's text, flagged. For arguments that are
    [null] or [undefined] the two differ: the fallback throws a
    [TypeError], where the gateway runs the tool on the empty object and
    reports its outcome. *)
Theorem fallback_returns_what_the_gateway_would
    (P : Platform) (name : string) (args id : value)
    (w : agent_state) (gw : gw_state) :
  In name registered_names ->
  tools gw = ag_tools w ->
  is_throw (mcp_callTool P (mcp_calls w) name args) = true ->
  let call := VObj [ ("name", VStr name); ("arguments", args) ] in
  let answer text isError :=
    {| jsonrpc := "2.0"; rpc_id := id;
       payload :=
         RpcResult
           (VObj [ ("content",
                    VArr [ VObj [ ("type", VStr "text"); ("text", VStr text) ] ]);
                   ("isError", VBool isError) ]) |} in
  (nullish args = false ->
   match fst (executeTool P name args w) with
   | Ok text => fst (handleToolCall P id call gw) = Ok (answer text false)
   | Throw err =>
       fst (handleToolCall P id call gw) = Ok (answer ("Error: " ++ message err) true)
   end /\
   tools (snd (handleToolCall P id call gw)) =
     ag_tools (snd (executeTool P name args w))) /\
  (nullish args = true ->
   (exists msg, fst (executeTool P name args w) = Throw (TypeError msg)) /\
   fst (handleToolCall P id call gw) =
     Ok match fst (dispatchTool P name (VObj []) (tools gw)) with
        | Ok result => answer (JSON_stringify_indent P result) false
        | Throw err => answer ("Error: " ++ message err) true
        end).
Proof.
  intros Hin Htools Hdown call answer. unfold call.
  rewrite (handleToolCall_registered P id name args gw Hin), Htools.
  split; intros Hargs; unfold coalesce; rewrite Hargs.
  - unfold executeTool, try_catch, bind, lift, ret.
    destruct (mcp_callTool P (mcp_calls w) name args) as [text | e]; [ discriminate | ].
    cbn [ag_tools tick_mcp].
    destruct (dispatchTool P name args (ag_tools w)) as [[result | err] t'];
      split; reflexivity.
  - split.
    + destruct (dispatchTool_nullish P name args (ag_tools w) Hin Hargs) as (msg & Hmsg).
      exists msg.
      unfold executeTool, try_catch, bind, lift, ret.
      destruct (mcp_callTool P (mcp_calls w) name args) as [text | e]; [ discriminate | ].
      cbn [ag_tools tick_mcp].
      destruct (dispatchTool P name args (ag_tools w)) as [[result | err] t'];
        cbn [fst] in *; [ discriminate | congruence ].
    + cbn [fst].
      destruct (dispatchTool P name (VObj []) (ag_tools w)) as [[result | err] t'];
        reflexivity.
Qed.

Lemma fallback_returns_what_the_gateway_would_witness :
  (fst (handleToolCall demo_platform (VNum num_1)
          (VObj [ ("name", VStr "get_product_by_barcode");
                  ("arguments", VObj [ ("barcode", VStr "3017620422003") ]) ])
          gw_state0) =
     Ok {| jsonrpc := "2.0"; rpc_id := VNum num_1;
           payload :=
             RpcResult
               (VObj [ ("content",
                        VArr [ VObj [ ("type", VStr "text"); ("text", VStr "{}") ] ]);
                       ("isError", VBool false) ]) |} /\
   tools (snd (handleToolCall demo_platform (VNum num_1)
                 (VObj [ ("name", VStr "get_product_by_barcode");
                         ("arguments", VObj [ ("barcode", VStr "3017620422003") ]) ])
                 gw_state0)) =
     ag_tools (snd (executeTool demo_platform "get_product_by_barcode"
                      (VObj [ ("barcode", VStr "3017620422003") ]) agent_state0))) /\
  (exists msg,
     fst (executeTool demo_platform "get_product_by_barcode" VNull agent_state0) =
       Throw (TypeError msg)) /\
  fst (handleToolCall demo_platform (VNum num_1)
         (VObj [ ("name", VStr "get_product_by_barcode"); ("arguments", VNull) ])
         gw_state0) =
    Ok {| jsonrpc := "2.0"; rpc_id := VNum num_1;
          payload :=
            RpcResult
              (VObj [ ("content",
                       VArr [ VObj [ ("type", VStr "text"); ("text", VStr "{}") ] ]);
                      ("isError", VBool false) ]) |}.
Proof.
  split.
  - apply (proj1 (fallback_returns_what_the_gateway_would demo_platform
                    "get_product_by_barcode"
                    (VObj [ ("barcode", VStr "3017620422003") ]) (VNum num_1)
                    agent_state0 gw_state0
                    ltac:(cbn; tauto) eq_refl eq_refl)).
    reflexivity.
  - apply (proj2 (fallback_returns_what_the_gateway_would demo_platform
                    "get_product_by_barcode" VNull (VNum num_1)
                    agent_state0 gw_state0
                    ltac:(cbn; tauto) eq_refl eq_refl)).
    reflexivity.
Defined.

(** X14. A tool call never aborts the loop: arguments that do not parse, or a
    tool that fails both through the gateway and in process, give the
    text of a JSON object [{error: ...}] holding the error, which becomes
    the tool-result turn. Arguments that do not parse reach no tool. *)
Theorem tool_failure_becomes_result_text
    (P : Platform) (tc : ToolCall) (w : agent_state) :
  let error_text err :=
    JSON_stringify P (VObj [ ("error", VStr (String_of_exn err)) ]) in
  (forall err,
     JSON_parse P (tc_arguments tc) = Throw err ->
     tool_call_result P tc w = (Ok (error_text err), w)) /\
  (forall args err,
     JSON_parse P (tc_arguments tc) = Ok args ->
     fst (executeTool P (tc_name tc) args w) = Throw err ->
     fst (tool_call_result P tc w) = Ok (error_text err)) /\
  (forall args text,
     JSON_parse P (tc_arguments tc) = Ok args ->
     fst (executeTool P (tc_name tc) args w) = Ok text ->
     fst (tool_call_result P tc w) = Ok text).
Proof.
  intros error_text. unfold tool_call_result, try_catch, bind, of_result, ret.
  split; [ | split ].
  - intros err ->. reflexivity.
  - intros args err -> Hex.
    destruct (executeTool P (tc_name tc) args w) as [[text | e] w']; cbn in Hex;
      [ discriminate | ]. injection Hex as ->. reflexivity.
  - intros args text -> Hex.
    destruct (executeTool P (tc_name tc) args w) as [[text' | e] w']; cbn in Hex;
      [ | discriminate ]. injection Hex as ->. reflexivity.
Qed.

Lemma tool_failure_becomes_result_text_witness :
  tool_call_result no_json (lookup_call "call-A") agent_state0 =
    (Ok (JSON_stringify no_json
           (VObj [ ("error", VStr (String_of_exn (SyntaxError "Unexpected token"))) ])),
     agent_state0) /\
  fst (tool_call_result demo_platform (lookup_call "call-A") agent_state0) = Ok "{}".
Proof.
  split.
  - apply (proj1 (tool_failure_becomes_result_text no_json (lookup_call "call-A")
                    agent_state0)).
    reflexivity.
  - apply (proj2 (proj2 (tool_failure_becomes_result_text demo_platform
                           (lookup_call "call-A") agent_state0)) (VObj []));
      reflexivity.
Defined.

(** X15. A chat that fails persists nothing: when [handleChat] ends by
    reporting an error, the stored conversation is exactly what it was
    before the utterance (not even the user turn is kept), and the error
    text is the message of the exception, prefixed. *)
Theorem failed_chat_persists_nothing
    (P : Platform) (env : Env) (utterance : string) (w : agent_state)
    (text : string) :
  let w' := snd (handleChat P env utterance w) in
  last (sent w') = Some (EvError text) ->
  messages w' = messages w /\
  exists err, text = "Sorry, something went wrong: " ++ message err.
Proof.
  intros w'. unfold w'. rewrite handleChat_eq. cbv zeta.
  destruct (callLLM_run P env (messages w ++ [ plain user utterance ]) (chat_started w))
    as (req & w1 & Hcall & _ & Hm1 & _).
  rewrite Hcall.
  destruct (read_completion _) as [first | e].
  - destruct (tool_loop_run P env true 8 first (messages w ++ [ plain user utterance ]) w1)
      as (r & evs & w2 & n & Hrun & Hm2 & _).
    rewrite Hrun. destruct r as [[final h'] | e]; cbn [snd].
    + cbn. rewrite last_snoc. discriminate.
    + cbn. rewrite last_snoc. intros [= <-].
      cbn in Hm1. split; [ congruence | ]. now exists e.
  - cbn. rewrite last_snoc. intros [= <-].
    split; [ exact Hm1 | ]. now exists e.
Qed.

Lemma failed_chat_persists_nothing_witness :
  messages (snd (handleChat demo_platform env0 "hi" agent_state0)) =
    messages agent_state0 /\
  exists err,
    "Sorry, something went wrong: fetch failed" =
      "Sorry, something went wrong: " ++ message err.
Proof.
  apply (failed_chat_persists_nothing demo_platform env0 "hi" agent_state0
           "Sorry, something went wrong: fetch failed").
  reflexivity.
Defined.

(** X16. [onRequest] stores the conversation only when it answers: when it
    throws (a body that cannot be read, or a backend failure, which it
    does not catch) the stored conversation is unchanged; a request that
    is not a POST to [/api/chat] gets the liveness text and changes
    nothing at all. *)
Theorem onRequest_persists_only_answers
    (P : Platform) (env : Env) (request : ChatRequest) (w : agent_state) :
  (forall err, fst (onRequest P env request w) = Throw err ->
               messages (snd (onRequest P env request w)) = messages w) /\
  (is_chat request = false ->
   onRequest P env request w =
     (Ok {| status := 200;
            headers := [ ("Content-Type", "text/plain;charset=UTF-8") ];
            rbody := TextBody "NutriAgent is running" |},
      w)).
Proof.
  rewrite onRequest_eq. split.
  - destruct (is_chat request); [ | discriminate ].
    destruct (chat_message request) as [msg | e]; [ | reflexivity ].
    cbv zeta.
    destruct (callLLM_run P env (messages w ++ [ plain user msg ]) w)
      as (req & w1 & -> & _ & Hm1 & _).
    destruct (read_completion _) as [first | e]; [ | intros; exact Hm1 ].
    destruct (tool_loop_run P env false 8 first (messages w ++ [ plain user msg ]) w1)
      as (r & evs & w2 & n & -> & Hm2 & _).
    destruct r as [[final h'] | e]; [ discriminate | ].
    intros err _. cbn [snd]. congruence.
  - intros ->. reflexivity.
Qed.

Lemma onRequest_persists_only_answers_witness :
  onRequest demo_platform env0 status_request agent_state0 =
    (Ok {| status := 200;
           headers := [ ("Content-Type", "text/plain;charset=UTF-8") ];
           rbody := TextBody "NutriAgent is running" |},
     agent_state0).
Proof.
  apply (proj2 (onRequest_persists_only_answers demo_platform env0 status_request
                  agent_state0)).
  reflexivity.
Defined.

(** X17. What the interactive channel treats as a chat: a text that is not
    JSON is itself the utterance unless it is empty; binary data is
    ignored; a JSON [null] makes the handler throw a type error; and
    [handleChat] is never called with an empty or missing content. *)
Theorem onMessage_dispatch_cases (P : Platform) :
  onMessage_dispatch P WsBinary = Ok None /\
  (forall text,
     is_throw (JSON_parse P text) = true ->
     onMessage_dispatch P (WsText text) =
       Ok (if String.eqb text "" then None else Some (VStr text))) /\
  (forall text,
     JSON_parse P text = Ok VNull ->
     exists msg, onMessage_dispatch P (WsText text) = Throw (TypeError msg)) /\
  (forall message c,
     onMessage_dispatch P message = Ok (Some c) -> truthy c = true).
Proof.
  split; [ reflexivity | ]. split; [ | split ].
  - intros text Hparse. unfold onMessage_dispatch.
    destruct (JSON_parse P text); [ discriminate | ]. cbn.
    destruct (String.eqb text ""); reflexivity.
  - intros text Hparse. unfold onMessage_dispatch. rewrite Hparse.
    eexists. reflexivity.
  - intros [text | ] c; [ | discriminate ]. unfold onMessage_dispatch. cbv zeta.
    destruct (get _ "type") as [type | e]; [ | discriminate ].
    destruct (method_is type "chat"); [ | discriminate ]. cbn [andb].
    destruct (truthy _) eqn:Htruthy; [ | discriminate ].
    intros [= <-]. exact Htruthy.
Qed.

Lemma onMessage_dispatch_cases_witness :
  onMessage_dispatch no_json (WsText "how much sugar is in nutella?") =
    Ok (Some (VStr "how much sugar is in nutella?")).
Proof.
  apply (proj1 (proj2 (onMessage_dispatch_cases no_json))
           "how much sugar is in nutella?").
  reflexivity.
Defined.


(* ===================================================================== *)
(** * Properties of the Basic authentication                              *)
(* ===================================================================== *)

Import Auth.

Lemma split_colon_nonempty s : split_colon s <> [].
Proof.
  destruct s as [ | c s]; cbn; [ discriminate | ].
  destruct (Ascii.eqb c colon); [ discriminate | ].
  destruct (split_colon s); discriminate.
Qed.

(** Joining the pieces of a split gives the text back. *)
Lemma join_split_colon s : String.concat ":" (split_colon s) = s.
Proof.
  induction s as [ | c s IH]; [ reflexivity | ].
  cbn [split_colon].
  pose proof (split_colon_nonempty s) as Hne.
  destruct (Ascii.eqb c colon) eqn:Ec.
  - apply Ascii.eqb_eq in Ec. subst c.
    destruct (split_colon s) as [ | p rest]; [ contradiction | ].
    change (String.concat ":" ("" :: p :: rest))
      with ("" ++ ":" ++ String.concat ":" (p :: rest)).
    rewrite IH. reflexivity.
  - destruct (split_colon s) as [ | p rest]; [ contradiction | ].
    destruct rest as [ | q rest].
    + cbn in IH. subst s. reflexivity.
    + change (String.concat ":" (String c p :: q :: rest))
        with (String c p ++ ":" ++ String.concat ":" (q :: rest)).
      change (String.concat ":" (p :: q :: rest))
        with (p ++ ":" ++ String.concat ":" (q :: rest)) in IH.
      rewrite append_cons. now rewrite IH.
Qed.

Lemma split_colon_cons_colon s : split_colon (":" ++ s) = "" :: split_colon s.
Proof. reflexivity. Qed.

Lemma hd_split_colon_free s : colon_free (hd "" (split_colon s)).
Proof.
  induction s as [ | c s IH]; intros a b.
  - cbn. destruct a; discriminate.
  - cbn [split_colon]. destruct (Ascii.eqb c colon) eqn:Ec.
    + cbn. destruct a; discriminate.
    + pose proof (split_colon_nonempty s) as Hne.
      destruct (split_colon s) as [ | p rest]; [ contradiction | ].
      cbn [hd] in *. destruct a as [ | x a].
      * intros [= Hc _]. subst c. discriminate.
      * rewrite append_cons. intros [= _ Hp]. exact (IH a b Hp).
Qed.

(** The split of [login:rest] when [login] has no colon. *)
Lemma split_colon_app login rest :
  colon_free login ->
  split_colon (login ++ ":" ++ rest) = login :: split_colon rest.
Proof.
  induction login as [ | c login IH]; intros Hfree; [ reflexivity | ].
  rewrite append_cons. cbn [split_colon].
  destruct (Ascii.eqb c colon) eqn:Ec.
  - apply Ascii.eqb_eq in Ec. subst c. exfalso. apply (Hfree "" login). reflexivity.
  - rewrite IH; [ reflexivity | ].
    intros a b ->. apply (Hfree (String c a) b). reflexivity.
Qed.

(** A split text is its first piece, or its first piece, a colon and the
    joined rest. *)
Lemma split_colon_decompose s :
  match split_colon s with
  | [] => False
  | [ login ] => s = login
  | login :: rest => s = login ++ ":" ++ String.concat ":" rest
  end.
Proof.
  pose proof (join_split_colon s) as Hjoin.
  pose proof (split_colon_nonempty s) as Hne.
  destruct (split_colon s) as [ | login rest]; [ contradiction | ].
  destruct rest as [ | q rest]; [ now cbn in Hjoin | ].
  now rewrite <- Hjoin at 1.
Qed.

Lemma slice_after_prefix p s :
  String.prefix p (p ++ s) = true /\
  String.substring (String.length p) (String.length (p ++ s) - String.length p) (p ++ s) = s.
Proof.
  split; [ apply prefix_append | ].
  rewrite length_append, substring_skip.
  replace (String.length p + String.length s - String.length p)
    with (String.length s) by lia.
  apply substring_all.
Qed.

Lemma absent_false s : absent (Some s) = false <-> s <> "".
Proof.
  unfold absent. split.
  - intros H ->. discriminate.
  - intros H. now apply String.eqb_neq.
Qed.

(** X18. Basic authentication lets a request through exactly when it is
    switched off (user or password not configured), or the header is
    ["Basic "] followed by base64 text that decodes to [user:password];
    the password may contain colons. A configured user name that
    contains a colon can never be matched, so every request is refused or
    fails. A request without the header is answered with the 401 login
    page. *)
Theorem checkAuth_accepts_exactly_the_credentials
    (atob : string -> result string) (LOGIN_HTML : string)
    (request : Request) (env : AuthEnv) :
  (isAuthEnabled env = false -> checkAuth atob LOGIN_HTML request env = Ok None) /\
  (forall login pass,
     isAuthEnabled env = true ->
     AUTH_USER env = Some login -> AUTH_PASS env = Some pass ->
     (colon_free login ->
      (checkAuth atob LOGIN_HTML request env = Ok None <->
       exists b64, authorization request = Some ("Basic " ++ b64) /\
                   atob b64 = Ok (login ++ ":" ++ pass))) /\
     (~ colon_free login -> checkAuth atob LOGIN_HTML request env <> Ok None) /\
     (authorization request = None ->
      checkAuth atob LOGIN_HTML request env = Ok (Some (unauthorizedResponse LOGIN_HTML)))).
Proof.
  split.
  { intros Hoff. unfold checkAuth. now rewrite Hoff. }
  intros login pass Hon Huser Hpass.
  assert (Hpass_ne : pass <> "").
  { unfold isAuthEnabled in Hon. rewrite Hpass in Hon.
    apply andb_true_iff in Hon as [_ Hon]. apply negb_true_iff in Hon.
    now apply absent_false. }
  assert (Haccept : checkAuth atob LOGIN_HTML request env = Ok None ->
            exists b64 decoded,
              authorization request = Some ("Basic " ++ b64) /\
              atob b64 = Ok decoded /\
              hd "" (split_colon decoded) = login /\
              String.concat ":" (tl (split_colon decoded)) = pass).
  { unfold checkAuth. rewrite Hon, Huser, Hpass. cbn [negb].
    destruct (authorization request) as [auth | ]; [ | discriminate ].
    destruct (absent (Some auth)); [ discriminate | ]. cbn [orb].
    destruct (String.prefix "Basic " auth) eqn:Epre; [ | discriminate ]. cbn [negb].
    destruct (prefix_split _ _ Epre) as (b64 & ->).
    change 6 with (String.length "Basic ").
    rewrite (proj2 (slice_after_prefix "Basic " b64)).
    destruct (atob b64) as [decoded | e] eqn:Hdec; [ | discriminate ]. cbv zeta.
    destruct (bool_decide (Some (hd "" (split_colon decoded)) = Some login)) eqn:E1;
      [ | discriminate ].
    destruct (bool_decide (Some (String.concat ":" (tl (split_colon decoded))) = Some pass))
      eqn:E2; [ | discriminate ].
    intros _. apply bool_decide_eq_true in E1, E2.
    injection E1 as E1. injection E2 as E2.
    exists b64, decoded. split; [ reflexivity | ]. split; [ exact Hdec | ].
    split; assumption. }
  split; [ | split ].
  - intros Hfree. split.
    + intros Hok. destruct (Haccept Hok) as (b64 & decoded & Hauth & Hdec & Hu & Hp).
      exists b64. split; [ exact Hauth | ]. rewrite Hdec. f_equal.
      pose proof (split_colon_decompose decoded) as Hd.
      destruct (split_colon decoded) as [ | u rest]; [ contradiction | ].
      cbn [hd tl] in Hu, Hp. subst u.
      destruct rest as [ | q rest]; [ cbn in Hp; congruence | ].
      rewrite Hd, Hp. reflexivity.
    + intros (b64 & Hauth & Hdec). unfold checkAuth.
      rewrite Hon, Huser, Hpass, Hauth. cbn [negb].
      assert (Hne : absent (Some ("Basic " ++ b64)) = false) by reflexivity.
      rewrite Hne, (proj1 (slice_after_prefix "Basic " b64)). cbn [negb orb].
      change 6 with (String.length "Basic ").
      rewrite (proj2 (slice_after_prefix "Basic " b64)), Hdec. cbv zeta.
      rewrite (split_colon_app login pass Hfree). cbn [hd tl].
      rewrite join_split_colon.
      rewrite !bool_decide_eq_true_2 by reflexivity. reflexivity.
  - intros Hnot Hok. apply Hnot.
    destruct (Haccept Hok) as (b64 & decoded & _ & _ & <- & _).
    apply hd_split_colon_free.
  - intros Hnone. unfold checkAuth. now rewrite Hon, Hnone.
Qed.

Lemma checkAuth_accepts_exactly_the_credentials_witness :
  Auth.checkAuth atob_example "<html>" basic_request auth_env = Ok None.
Proof.
  apply (proj1 (proj2 (checkAuth_accepts_exactly_the_credentials atob_example "<html>"
                         basic_request auth_env) "ada" "pw" eq_refl eq_refl eq_refl)).
  - intros a b Hab. destruct a as [ | x a]; [ discriminate | ].
    destruct a as [ | y a]; [ discriminate | ].
    destruct a as [ | z a]; [ discriminate | ].
    destruct a; discriminate.
  - exists "YWRhOnB3". split; reflexivity.
Defined.


(* ===================================================================== *)
(** * Properties of the MCP client, alone and against the server          *)
(* ===================================================================== *)

(** ** Header values *)

Lemma strip_leading_safe s : header_safe s = true -> strip_leading s = s.
Proof.
  destruct s as [ | a s]; [ reflexivity | ].
  unfold header_safe. cbn [list_ascii_of_string forallb strip_leading].
  intros H. apply andb_prop in H. destruct H as (Ha & _).
  apply andb_prop in Ha. destruct Ha as (_ & Ha).
  apply negb_true_iff in Ha. now rewrite Ha.
Qed.

Lemma strip_trailing_safe s : header_safe s = true -> strip_trailing s = s.
Proof.
  unfold header_safe. induction s as [ | a s IH]; [ reflexivity | ].
  cbn [list_ascii_of_string forallb strip_trailing].
  intros H. apply andb_prop in H. destruct H as (Ha & Hs).
  apply andb_prop in Ha. destruct Ha as (_ & Ha).
  apply negb_true_iff in Ha. rewrite (IH Hs).
  destruct s; [ now rewrite Ha | reflexivity ].
Qed.

Lemma header_safe_bytes s :
  header_safe s = true -> forallb header_byte (list_ascii_of_string s) = true.
Proof.
  unfold header_safe. induction s as [ | a s IH]; [ reflexivity | ].
  cbn [list_ascii_of_string forallb].
  intros H. apply andb_prop in H. destruct H as (Ha & Hs).
  apply andb_prop in Ha. destruct Ha as (Ha & _).
  now rewrite Ha, (IH Hs).
Qed.

(** A text without whitespace and without forbidden bytes is carried
    unchanged. *)
Lemma header_value_safe s : header_safe s = true -> travels s.
Proof.
  intros H. unfold travels, header_value.
  rewrite (strip_leading_safe s H), (strip_trailing_safe s H).
  now rewrite (header_safe_bytes s H).
Qed.

Lemma header_safe_app s t :
  header_safe s = true -> header_safe t = true -> header_safe (s ++ t) = true.
Proof.
  unfold header_safe. induction s as [ | a s IH]; [ now intros _ | ].
  rewrite append_cons. cbn [list_ascii_of_string forallb].
  intros H Ht. apply andb_prop in H. destruct H as (Ha & Hs).
  now rewrite Ha, (IH Hs Ht).
Qed.

Lemma pretty_N_char_safe x :
  header_byte (pretty_N_char x) && negb (http_whitespace (pretty_N_char x)) = true.
Proof.
  unfold pretty_N_char.
  repeat match goal with
         | |- context [ match ?p with _ => _ end ] => destruct p
         end; reflexivity.
Qed.

Lemma pretty_N_go_safe x :
  forall s, header_safe s = true -> header_safe (pretty_N_go x s) = true.
Proof.
  induction x as [x IH] using (well_founded_induction N.lt_wf_0).
  intros s Hs. destruct (decide (0 < x)%N) as [Hpos | Hzero].
  - rewrite pretty_N_go_step by exact Hpos.
    apply IH; [ now apply N.div_lt | ].
    unfold header_safe in *. cbn [list_ascii_of_string forallb].
    now rewrite pretty_N_char_safe, Hs.
  - replace x with 0%N by lia. now rewrite pretty_N_go_0.
Qed.

Lemma pretty_nat_safe (n : nat) : header_safe (pretty n) = true.
Proof.
  unfold pretty, pretty_nat, pretty, pretty_N.
  destruct (decide (N.of_nat n = 0%N)); [ reflexivity | ].
  now apply pretty_N_go_safe.
Qed.

(** The identifiers of the example platforms are carried unchanged. *)
Lemma demo_uuids_travel off glm : uuids_travel (platform_with off glm).
Proof.
  intros n. cbn [randomUUID platform_with]. split.
  - rewrite append_cons. discriminate.
  - apply header_value_safe, header_safe_app; [ reflexivity | apply pretty_nat_safe ].
Qed.

(** ** The exchange *)

Lemma wire_object fs : wire (VObj fs) = VObj (wire_fields fs).
Proof. reflexivity. Qed.

Lemma checkMcpAuth_bearer request env key :
  MCP_API_KEY env = Some key ->
  authorization request = Some ("Bearer " ++ key) ->
  checkMcpAuth request env = None.
Proof.
  intros Hkey Hauth. unfold checkMcpAuth. rewrite Hkey, Hauth.
  destruct (String.eqb key ""); [ reflexivity | ].
  assert (Hne : absent (Some ("Bearer " ++ key)) = false) by reflexivity.
  rewrite Hne, (proj1 (bearer_token_of key)), (proj2 (bearer_token_of key)).
  cbn. rewrite String.eqb_refl. reflexivity.
Qed.

Lemma present_some o s : Client.present o = Some s -> o = Some s /\ s <> "".
Proof.
  unfold Client.present, absent. destruct o as [x | ]; [ | discriminate ].
  destruct (String.eqb x "") eqn:E; [ discriminate | ].
  intros [= ->]. split; [ reflexivity | now apply String.eqb_neq ].
Qed.

Lemma recognised_present sid w :
  recognised sid w = true ->
  exists s, sid = Some s /\ s <> "" /\ Client.present sid = Some s.
Proof.
  unfold recognised, Client.present, absent. destruct sid as [s | ]; [ | discriminate ].
  intros H. exists s. destruct (String.eqb_spec s "") as [-> | Hne]; [ discriminate | ].
  auto.
Qed.

Lemma recognised_of_present sid w :
  recognised (Client.present sid) w = recognised sid w.
Proof.
  unfold recognised, Client.present, absent. destruct sid as [s | ]; [ | reflexivity ].
  destruct (String.eqb s "") eqn:E; cbn; rewrite ?E; reflexivity.
Qed.

(** The request of [rpc] as the server receives it. *)
Lemma received_rpc_request c body auth :
  sent_authorization c = Ok auth -> session_travels c ->
  Client.received (Client.rpc_request c body) =
    Ok {| method := "POST"; authorization := auth;
          mcp_session_id := Client.present (Client.sessionId c);
          content_type := Some "application/json";
          body_json := Ok (wire body) |}.
Proof.
  intros Hauth Hsid. unfold sent_authorization in Hauth. unfold Client.received.
  cbn [Client.rpc_request authorization mcp_session_id content_type body_json method]
    in *.
  rewrite Hauth. cbn [bindR].
  assert (Hs : header_option (Client.present (Client.sessionId c)) =
               Ok (Client.present (Client.sessionId c))).
  { destruct (Client.present (Client.sessionId c)) as [s | ] eqn:Hp; [ | reflexivity ].
    pose proof (Hsid s Hp) as Ht. unfold travels in Ht.
    cbn [header_option]. now rewrite Ht. }
  rewrite Hs. reflexivity.
Qed.

Lemma received_authorization request request' :
  Client.received request = Ok request' ->
  header_option (authorization request) = Ok (authorization request').
Proof.
  unfold Client.received.
  destruct (header_option (authorization request)) as [auth | e]; [ | discriminate ].
  destruct (header_option (mcp_session_id request)) as [sid | e]; [ | discriminate ].
  destruct (header_option (content_type request)) as [ctype | e]; [ | discriminate ].
  cbn [bindR]. now intros [= <-].
Qed.

(** The requests of a client with matching credentials pass the check. *)
Lemma credentials_pass env c :
  credentials_match env c ->
  exists auth,
    sent_authorization c = Ok auth /\
    forall request, authorization request = auth -> checkMcpAuth request env = None.
Proof.
  intros (auth & Hsent & [Habsent | (key & Hkey & ->)]); exists auth || exists (Some ("Bearer " ++ key));
    (split; [ exact Hsent | ]); intros request Hauth.
  - unfold checkMcpAuth. unfold absent in Habsent.
    destruct (MCP_API_KEY env) as [key | ]; [ | reflexivity ]. now rewrite Habsent.
  - now apply (checkMcpAuth_bearer request env key).
Qed.

(** The token of a response is carried unchanged. *)
Lemma token_travels P c w :
  session_travels c -> uuids_travel P ->
  travels (fst (session_after P (Client.present (Client.sessionId c)) w)).
Proof.
  intros Hsid Huuid. unfold session_after.
  destruct (recognised (Client.present (Client.sessionId c)) w) eqn:Hrec; cbn [fst].
  - destruct (recognised_present _ _ Hrec) as (s & Hs & _ & _).
    rewrite Hs. cbn [default option_map from_option]. now apply Hsid.
  - apply Huuid.
Qed.

Lemma response_headers_session token :
  travels token ->
  Client.response_headers
    [ ("Content-Type", "application/json"); ("Mcp-Session-Id", token) ] =
    Ok [ ("Content-Type", "application/json"); ("Mcp-Session-Id", token) ] /\
  Client.response_headers (session_header token) = Ok (session_header token).
Proof.
  intros Ht. unfold travels in Ht. unfold Client.response_headers, session_header.
  cbn [mapR fst snd].
  change (header_value "application/json") with (Ok "application/json").
  rewrite Ht. split; reflexivity.
Qed.

(** One exchange with the server, for a request whose document is an
    object: a session is opened or recognised, the envelope is
    dispatched, and the client reads the answer. *)
Lemma exchange P env c w fs :
  exchanges_served P env c ->
  let sid := Client.present (Client.sessionId c) in
  let token := fst (session_after P sid w) in
  Client.serve P env (Client.rpc_request c (VObj fs)) w =
    match handleRpcMethod P (VObj (wire_fields fs)) (session_opened P sid w) with
    | (Ok None, w1) =>
        (Ok {| Client.reply_status := 202;
               Client.reply_session := Some token;
               Client.reply_text := Ok "";
               Client.reply_json := Throw (SyntaxError "Unexpected end of JSON input") |},
         w1)
    | (Ok (Some r), w1) =>
        (Ok {| Client.reply_status := 200;
               Client.reply_session := Some token;
               Client.reply_text := Ok (JSON_stringify P (Client.rpc_json r));
               Client.reply_json := Ok (wire (Client.rpc_json r)) |},
         w1)
    | (Throw e, w1) => (Throw e, w1)
    end.
Proof.
  intros (Hcred & Hsid & Huuid) sid token. unfold Client.serve.
  destruct (credentials_pass env c Hcred) as (auth & Hsent & Hpass).
  rewrite (received_rpc_request c (VObj fs) auth Hsent Hsid).
  set (request := {| method := _ |}).
  assert (Hauth : checkMcpAuth request env = None) by (now apply Hpass).
  assert (Hpost : json_post request (VObj (wire_fields fs))) by (repeat split).
  rewrite (json_post_dispatch P request env _ w Hauth Hpost).
  unfold bind, ret. rewrite getOrCreateSession_eq.
  change (mcp_session_id request) with sid. fold token.
  fold (session_opened P sid w).
  destruct (response_headers_session token (token_travels P c w Hsid Huuid))
    as (H200 & H202).
  destruct (handleRpcMethod P (VObj (wire_fields fs)) (session_opened P sid w))
    as [[[r | ] | e] w1]; [ | | reflexivity ].
  - change (headers (Response_json (JsonRpcBody r) 200
                       [ ("Content-Type", "application/json");
                         ("Mcp-Session-Id", token) ]))
      with [ ("Content-Type", "application/json"); ("Mcp-Session-Id", token) ].
    rewrite H200. reflexivity.
  - cbn [headers]. rewrite H202. reflexivity.
Qed.

Lemma assoc_wire_fields_skip k k' x rest :
  String.eqb k' k = false ->
  assoc k (wire_fields ((k', x) :: rest)) = assoc k (wire_fields rest).
Proof.
  intros Hne. unfold wire_fields. cbn [List.flat_map].
  destruct x; cbn [app assoc]; rewrite ?Hne; reflexivity.
Qed.

Lemma assoc_wire_fields_hit k x rest :
  x <> VUndefined ->
  assoc k (wire_fields ((k, x) :: rest)) = wire x.
Proof.
  intros Hx. unfold wire_fields. cbn [List.flat_map].
  destruct x; try contradiction; cbn [app assoc]; rewrite String.eqb_refl; reflexivity.
Qed.

(** What the client reads from the document of a result. *)
Lemma read_document_result P id v :
  v <> VUndefined ->
  Client.read_document P (wire (Client.rpc_json (rpcOk id v))) = Ok (wire v).
Proof.
  intros Hv. unfold Client.read_document, Client.rpc_json. cbn [jsonrpc rpc_id payload rpcOk app].
  rewrite wire_object. cbn [get prop bindR].
  rewrite !assoc_wire_fields_skip by reflexivity.
  change (assoc "error" (wire_fields [])) with VUndefined. cbn [truthy].
  rewrite assoc_wire_fields_hit by exact Hv. reflexivity.
Qed.

(** What the client makes of the document of an error. *)
Lemma read_document_error P id code msg :
  Client.read_document P (wire (Client.rpc_json (rpcError id code msg))) =
    match ToString P (wire (VNum (number_of_Z code))) with
    | Ok text => Throw (Error ("MCP error " ++ text ++ ": " ++ msg))
    | Throw e => Throw e
    end.
Proof.
  unfold Client.read_document, Client.rpc_json.
  cbn [jsonrpc rpc_id payload rpcError app].
  rewrite wire_object. cbn [get bindR].
  rewrite !assoc_wire_fields_skip by reflexivity.
  rewrite assoc_wire_fields_hit by discriminate.
  rewrite wire_object. cbn [truthy prop].
  rewrite assoc_wire_fields_hit by discriminate.
  rewrite (assoc_wire_fields_skip "message" "code") by reflexivity.
  rewrite assoc_wire_fields_hit by discriminate.
  destruct (ToString P (wire (VNum (number_of_Z code)))); reflexivity.
Qed.

(** A call of [rpc] against the server. *)
Lemma rpc_exchange P env c w method params id :
  exchanges_served P env c ->
  let sid := Client.present (Client.sessionId c) in
  let token := fst (session_after P sid w) in
  let envelope :=
    VObj (wire_fields
            ([ ("jsonrpc", VStr "2.0"); ("method", VStr method) ]
             ++ match id with VUndefined => [] | _ => [ ("id", id) ] end
             ++ (if truthy params then [ ("params", params) ] else []))) in
  Client.rpc P gw_state (Client.serve P env) method params id (c, w) =
    match handleRpcMethod P envelope (session_opened P sid w) with
    | (Ok None, w1) => (Ok VNull, (Client.capture (Some token) c, w1))
    | (Ok (Some r), w1) =>
        (Client.read_document P (wire (Client.rpc_json r)),
         (Client.capture (Some token) c, w1))
    | (Throw e, w1) => (Throw e, (c, w1))
    end.
Proof.
  intros Hserved sid token envelope.
  unfold Client.rpc, Client.rpc_body.
  rewrite (exchange P env c w _ Hserved). fold sid token envelope.
  destruct (handleRpcMethod P envelope (session_opened P sid w))
    as [[[r | ] | e] w1]; reflexivity.
Qed.

Lemma capture_keeps sid c :
  Client.apiKey (Client.capture sid c) = Client.apiKey c /\
  Client.initialized (Client.capture sid c) = Client.initialized c /\
  Client.now_reads (Client.capture sid c) = Client.now_reads c.
Proof. unfold Client.capture. destruct (Client.present sid); repeat split. Qed.

Lemma sent_authorization_apiKey c c' :
  Client.apiKey c' = Client.apiKey c -> sent_authorization c' = sent_authorization c.
Proof.
  intros H. unfold sent_authorization.
  cbn [Client.rpc_request authorization]. now rewrite H.
Qed.

Lemma capture_travels sid c :
  session_travels c -> (forall s, sid = Some s -> travels s) ->
  session_travels (Client.capture sid c).
Proof.
  intros Hc Hsid. unfold Client.capture.
  destruct (Client.present sid) as [s | ] eqn:Hp; [ | exact Hc ].
  destruct (present_some _ _ Hp) as (Hs & _).
  intros s' Hs'. cbn [Client.set_session Client.sessionId] in Hs'.
  destruct (present_some _ _ Hs') as ([= <-] & _). now apply Hsid.
Qed.

Lemma session_step_keeps P env cw :
  exchanges_served P env (fst cw) ->
  exchanges_served P env (fst (session_step P cw)) /\
  tools (snd (session_step P cw)) = tools (snd cw) /\
  Client.initialized (fst (session_step P cw)) = Client.initialized (fst cw).
Proof.
  intros (Hcred & Hsid & Huuid). unfold session_step. cbn [fst snd].
  destruct (capture_keeps (Some (fst (session_after P
              (Client.present (Client.sessionId (fst cw))) (snd cw)))) (fst cw))
    as (Hk & Hi & _).
  split; [ | split; [ reflexivity | exact Hi ] ].
  split; [ | split; [ | exact Huuid ] ].
  - unfold credentials_match in *.
    now rewrite (sent_authorization_apiKey _ _ Hk).
  - apply capture_travels; [ exact Hsid | ].
    intros s [= <-]. now apply token_travels.
Qed.

Lemma after_handshake_keeps P env cw :
  exchanges_served P env (fst cw) ->
  exchanges_served P env (fst (after_handshake P cw)) /\
  tools (snd (after_handshake P cw)) = tools (snd cw) /\
  Client.initialized (fst (after_handshake P cw)) = true.
Proof.
  intros Hserved. unfold after_handshake.
  destruct (Client.initialized (fst cw)) eqn:Hinit; [ auto | ].
  destruct (session_step_keeps P env cw Hserved) as (H1 & T1 & _).
  destruct (session_step_keeps P env (session_step P cw) H1) as (H2 & T2 & _).
  cbn [fst snd]. split; [ exact H2 | ]. split; [ congruence | reflexivity ].
Qed.

(** The handshake against the server always succeeds for a client whose
    exchanges are served: two exchanges when it was not made yet, none
    otherwise. *)
Lemma initialize_against_server P env c w :
  exchanges_served P env c ->
  Client.initialize P gw_state (Client.serve P env) (c, w) =
    (Ok tt, after_handshake P (c, w)).
Proof.
  intros Hserved. unfold Client.initialize, after_handshake. cbn [fst snd].
  destruct (Client.initialized c) eqn:Hinit; [ reflexivity | ].
  destruct (session_step_keeps P env (c, w) Hserved) as (Hserved1 & _ & _).
  unfold bind at 1.
  rewrite (rpc_exchange P env c w _ _ _ Hserved).
  match goal with
  | |- context [ handleRpcMethod P ?e ?w0 ] =>
      replace (handleRpcMethod P e w0)
        with (Ok (Some (rpcOk (VNum num_1)
                          (VObj [ ("protocolVersion", VStr MCP_PROTOCOL_VERSION);
                                  ("serverInfo", SERVER_INFO);
                                  ("capabilities", SERVER_CAPABILITIES) ]))), w0)
        by reflexivity
  end.
  rewrite read_document_result by discriminate.
  cbv iota beta.
  change (Client.capture _ c, session_opened P _ w) with (session_step P (c, w)).
  destruct (session_step P (c, w)) as [c1 w1] eqn:Hstep. cbn [fst snd] in *.
  unfold bind at 1.
  rewrite (rpc_exchange P env c1 w1 _ _ _ Hserved1).
  match goal with
  | |- context [ handleRpcMethod P ?e ?w0 ] =>
      replace (handleRpcMethod P e w0) with (@Ok (option JsonRpcResponse) None, w0)
        by reflexivity
  end.
  reflexivity.
Qed.

Lemma tools_call_exchange P idv name fields w :
  handleRpcMethod P
    (VObj (wire_fields
             ([ ("jsonrpc", VStr "2.0"); ("method", VStr "tools/call") ]
              ++ [ ("id", VNum idv) ]
              ++ [ ("params", VObj [ ("name", VStr name);
                                     ("arguments", VObj fields) ]) ]))) w =
    match handleToolCall P (wire (VNum idv) ?? VNull)
            (VObj [ ("name", VStr name); ("arguments", VObj (wire_fields fields)) ]) w with
    | (Ok r, w') => (Ok (Some r), w')
    | (Throw e, w') => (Throw e, w')
    end.
Proof. reflexivity. Qed.

Lemma handleToolCall_unregistered P id name args w :
  ~ In name registered_names ->
  handleToolCall P id (VObj [ ("name", VStr name); ("arguments", args) ]) w =
    (Ok (rpcError id (-32602)
           (if String.eqb name "" then "Missing required parameter: name"
            else "Unknown tool: " ++ name)), w).
Proof.
  intros Hout. unfold handleToolCall.
  change (prop (VObj [ ("name", VStr name); ("arguments", args) ]) "name")
    with (VStr name).
  cbn [truthy negb orb].
  destruct (String.eqb_spec name "") as [-> | Hne]; [ reflexivity | ].
  assert (Hnone : find_tool (VStr name) = None).
  { destruct (find_tool (VStr name)) as [t | ] eqn:Hf; [ | reflexivity ].
    exfalso. apply Hout. unfold find_tool in Hf.
    apply find_some in Hf. destruct Hf as [Hin Hm].
    cbn in Hm. apply String.eqb_eq in Hm. subst name.
    cbn in Hin. unfold registered_names.
    repeat (destruct Hin as [<- | Hin]; [ cbn; tauto | ]). destruct Hin. }
  cbn [truthy negb orb].
  replace (negb (truthy (VStr name))) with false.
  2:{ cbn. destruct (String.eqb_spec name ""); [ contradiction | reflexivity ]. }
  cbn [orb]. rewrite Hnone. reflexivity.
Qed.

Lemma tick_clock_served P env c :
  exchanges_served P env c -> exchanges_served P env (Client.tick_clock c).
Proof. intros H. exact H. Qed.

(** [callTool] against the server, up to the reading of the response. *)
Lemma callTool_exchange P env c w name fields :
  exchanges_served P env c ->
  let cw0 := after_handshake P (c, w) in
  let c0 := Client.tick_clock (fst cw0) in
  let sid := Client.present (Client.sessionId c0) in
  let w0 := session_opened P sid (snd cw0) in
  let id := wire (VNum (number_of_Z (Date_now P (Client.now_reads (fst cw0))))) ?? VNull in
  Client.callTool P gw_state (Client.serve P env) name (VObj fields) (c, w) =
    match handleToolCall P id
            (VObj [ ("name", VStr name); ("arguments", VObj (wire_fields fields)) ])
            w0 with
    | (Ok r, w1) =>
        let c1 := Client.capture (Some (fst (session_after P sid (snd cw0)))) c0 in
        match Client.read_document P (wire (Client.rpc_json r)) with
        | Ok result =>
            match get result "content" with
            | Ok content =>
                match Client.text_of_content P content with
                | Ok text =>
                    if truthy (prop result "isError")
                    then (Throw (Error text), (c1, w1))
                    else (Ok text, (c1, w1))
                | Throw e => (Throw e, (c1, w1))
                end
            | Throw e => (Throw e, (c1, w1))
            end
        | Throw e => (Throw e, (c1, w1))
        end
    | (Throw e, w1) => (Throw e, (c0, w1))
    end.
Proof.
  intros Hserved. cbv zeta.
  destruct (after_handshake_keeps P env (c, w) Hserved) as (Hserved0 & _ & _).
  unfold Client.callTool. unfold bind at 1.
  rewrite (initialize_against_server P env c w Hserved).
  destruct (after_handshake P (c, w)) as [c0 w0]. cbn [fst snd] in *.
  unfold bind at 1. unfold bind at 1.
  rewrite (rpc_exchange P env (Client.tick_clock c0) w0 _ _ _
             (tick_clock_served P env c0 Hserved0)).
  cbv zeta.
  match goal with
  | |- context [ handleRpcMethod P ?e ?w1 ] =>
      rewrite (tools_call_exchange P
                 (number_of_Z (Date_now P (Client.now_reads c0))) name fields w1
               : handleRpcMethod P e w1 = _)
  end.
  destruct (handleToolCall P _ _ _) as [[r | e] w1]; [ | reflexivity ].
  destruct (Client.read_document P (wire (Client.rpc_json r))) as [result | e];
    [ | reflexivity ].
  unfold bind, of_result, throw, ret.
  destruct (get result "content") as [content | e]; [ | reflexivity ].
  destruct (Client.text_of_content P content) as [text | e]; [ | reflexivity ].
  destruct (truthy (prop result "isError")); reflexivity.
Qed.

(** X19. A call of a registered tool through the client returns what the
    executor returns, pretty-printed, and throws the executor's failure
    as an [Error] whose message is prefixed. The executor sees the
    arguments as they travel, and the tool layer's state is the one it
    leaves. This holds for a client whose exchanges are served: its
    [Authorization] header, as it arrives, is the one the server expects
    (or the server expects none), and the session identifiers (the
    client's own and the ones the server draws) are texts a header
    carries unchanged. *)
Theorem callTool_returns_the_executor_outcome P env c w name fields :
  credentials_match env c ->
  session_travels c ->
  uuids_travel P ->
  In name registered_names ->
  let out := dispatchTool P name (VObj (wire_fields fields)) (tools w) in
  let run := Client.callTool P gw_state (Client.serve P env) name (VObj fields) (c, w) in
  fst run = match fst out with
            | Ok result => Ok (JSON_stringify_indent P result)
            | Throw err => Throw (Error ("Error: " ++ message err))
            end /\
  tools (snd (snd run)) = snd out.
Proof.
  intros Hcred Hsid Huuid Hin. cbv zeta.
  assert (Hserved : exchanges_served P env c) by exact (conj Hcred (conj Hsid Huuid)).
  rewrite (callTool_exchange P env c w name fields Hserved). cbv zeta.
  destruct (after_handshake_keeps P env (c, w) Hserved) as (_ & Htools & _).
  destruct (after_handshake P (c, w)) as [c0 w0]. cbn [fst snd] in *.
  rewrite handleToolCall_registered by exact Hin.
  change (VObj (wire_fields fields) ?? VObj []) with (VObj (wire_fields fields)).
  change (tools (session_opened P (Client.present (Client.sessionId (Client.tick_clock c0))) w0))
    with (tools w0).
  rewrite Htools.
  destruct (dispatchTool P name (VObj (wire_fields fields)) (tools w)) as [[result | err] t'];
    cbn [fst snd].
  - rewrite read_document_result by discriminate. split; reflexivity.
  - rewrite read_document_result by discriminate. split; reflexivity.
Qed.

Lemma callTool_returns_the_executor_outcome_witness :
  fst (Client.callTool demo_platform gw_state (Client.serve demo_platform env_abc)
         "get_product_by_barcode" (VObj [ ("barcode", VStr "3017620422003") ])
         (client_abc_space, gw_state0)) = Ok "{}" /\
  tools (snd (snd (Client.callTool demo_platform gw_state (Client.serve demo_platform env_abc)
                     "get_product_by_barcode"
                     (VObj [ ("barcode", VStr "3017620422003") ])
                     (client_abc_space, gw_state0)))) =
    {| off_calls := 1;
       dispatch_log := [ ("get_product_by_barcode",
                          VObj [ ("barcode", VStr "3017620422003") ]) ] |}.
Proof.
  apply (callTool_returns_the_executor_outcome demo_platform env_abc client_abc_space
           gw_state0 "get_product_by_barcode" [ ("barcode", VStr "3017620422003") ]).
  - exists (Some "Bearer abc"). split; [ reflexivity | ].
    right. exists "abc". split; reflexivity.
  - intros s Hs. discriminate Hs.
  - apply demo_uuids_travel.
  - cbn. tauto.
Defined.

(** X20. A call of a name that is not registered, by a client whose
    exchanges are served (matching credentials as they arrive, session
    identifiers a header carries unchanged), throws the server's
    invalid-parameters error and never enters the tool layer. *)
Theorem callTool_unknown_name_throws P env c w name fields :
  credentials_match env c ->
  session_travels c ->
  uuids_travel P ->
  ~ In name registered_names ->
  let run := Client.callTool P gw_state (Client.serve P env) name (VObj fields) (c, w) in
  fst run =
    Throw (Error ("MCP error " ++ Number_toString P (number_of_Z (-32602)) ++ ": "
                  ++ (if String.eqb name "" then "Missing required parameter: name"
                      else "Unknown tool: " ++ name))) /\
  tools (snd (snd run)) = tools w.
Proof.
  intros Hcred Hsid Huuid Hout. cbv zeta.
  assert (Hserved : exchanges_served P env c) by exact (conj Hcred (conj Hsid Huuid)).
  rewrite (callTool_exchange P env c w name fields Hserved). cbv zeta.
  destruct (after_handshake_keeps P env (c, w) Hserved) as (_ & Htools & _).
  destruct (after_handshake P (c, w)) as [c0 w0]. cbn [fst snd] in *.
  rewrite handleToolCall_unregistered by exact Hout.
  rewrite read_document_error. split; [ reflexivity | exact Htools ].
Qed.

Lemma callTool_unknown_name_throws_witness :
  fst (Client.callTool demo_platform gw_state (Client.serve demo_platform env0)
         "delete_everything" (VObj []) (client0, gw_state0)) =
    Throw (Error ("MCP error "
                  ++ Number_toString demo_platform (number_of_Z (-32602))
                  ++ ": " ++ "Unknown tool: delete_everything")) /\
  tools (snd (snd (Client.callTool demo_platform gw_state (Client.serve demo_platform env0)
                     "delete_everything" (VObj []) (client0, gw_state0)))) =
    tools gw_state0.
Proof.
  apply (callTool_unknown_name_throws demo_platform env0 client0 gw_state0
           "delete_everything" []).
  - exists None. split; [ reflexivity | ]. left. reflexivity.
  - intros s Hs. discriminate Hs.
  - apply demo_uuids_travel.
  - cbn. intros H. repeat (destruct H as [H | H]; [ discriminate H | ]). destruct H.
Defined.

Lemma session_step_holds P cw :
  uuids_travel P ->
  recognised (Client.sessionId (fst (session_step P cw))) (snd (session_step P cw)) = true.
Proof.
  intros Huuid. destruct cw as [c w]. unfold session_step. cbn [fst snd].
  unfold session_opened, session_after. rewrite recognised_of_present.
  destruct (recognised (Client.sessionId c) w) eqn:Hrec; cbn [fst snd].
  - destruct (recognised_present _ _ Hrec) as (s & Hs & Hne & Hp).
    rewrite Hp. change (default "" (Some s)) with s.
    rewrite Hs in Hp, Hrec. unfold Client.capture. rewrite Hp.
    cbn [Client.set_session Client.sessionId]. exact Hrec.
  - pose proof (proj1 (Huuid (uuid_draws w))) as Hne.
    unfold Client.capture, Client.present, absent.
    destruct (String.eqb_spec (randomUUID P (uuid_draws w)) "") as [E | _];
      [ contradiction | ].
    cbn [Client.set_session Client.sessionId recognised sessions].
    destruct (String.eqb_spec (randomUUID P (uuid_draws w)) "") as [E | _];
      [ contradiction | ].
    rewrite lookup_insert_eq. cbn [negb andb]. apply bool_decide_eq_true. eauto.
Qed.

Lemma session_step_fixed P cw :
  recognised (Client.sessionId (fst cw)) (snd cw) = true ->
  Client.sessionId (fst (session_step P cw)) = Client.sessionId (fst cw) /\
  same_sessions (snd cw) (snd (session_step P cw)).
Proof.
  destruct cw as [c w]. cbn [fst snd]. intros Hrec.
  unfold session_step, same_sessions. cbn [fst snd].
  unfold session_opened, session_after. rewrite recognised_of_present, Hrec.
  destruct (recognised_present _ _ Hrec) as (s & Hs & Hne & Hp).
  rewrite Hp. change (default "" (Some s)) with s.
  cbn [fst snd sessions uuid_draws clock_reads].
  split; [ | auto ].
  rewrite Hs in Hp. unfold Client.capture. rewrite Hp.
  cbn [Client.set_session Client.sessionId]. now rewrite Hs.
Qed.

Lemma after_handshake_fixed P cw :
  recognised (Client.sessionId (fst cw)) (snd cw) = true ->
  Client.sessionId (fst (after_handshake P cw)) = Client.sessionId (fst cw) /\
  same_sessions (snd cw) (snd (after_handshake P cw)).
Proof.
  intros Hrec. unfold after_handshake.
  destruct (Client.initialized (fst cw)); [ split; [ reflexivity | apply same_sessions_refl ] | ].
  destruct (session_step_fixed P cw Hrec) as (Hs1 & Hf1).
  assert (Hrec1 : recognised (Client.sessionId (fst (session_step P cw)))
                    (snd (session_step P cw)) = true).
  { rewrite Hs1. rewrite (recognised_same _ _ _ (proj1 Hf1)). exact Hrec. }
  destruct (session_step_fixed P _ Hrec1) as (Hs2 & Hf2).
  cbn [fst snd Client.set_initialized Client.sessionId].
  split; [ congruence | ]. eapply same_sessions_trans; eassumption.
Qed.

(** The state [callTool] leaves: the handshake, one more exchange, and
    the tool layer as the call left it. *)
Lemma callTool_state P env c w name fields :
  exchanges_served P env c ->
  let cw0 := after_handshake P (c, w) in
  let cw1 := session_step P (Client.tick_clock (fst cw0), snd cw0) in
  let run := Client.callTool P gw_state (Client.serve P env) name (VObj fields) (c, w) in
  fst (snd run) = fst cw1 /\ same_sessions (snd cw1) (snd (snd run)).
Proof.
  intros Hserved. cbv zeta.
  rewrite (callTool_exchange P env c w name fields Hserved). cbv zeta.
  destruct (after_handshake P (c, w)) as [c0 w0]. cbn [fst snd].
  match goal with
  | |- context [ handleToolCall P ?id ?params ?w1 ] =>
      destruct (handleToolCall_run P id params w1) as (r0 & w' & -> & Hframe & Hout)
  end.
  replace (answerable_call
             (VObj [ ("name", VStr name); ("arguments", VObj (wire_fields fields)) ]))
    with true in Hout
    by (unfold answerable_call;
        change (prop (VObj [ ("name", VStr name);
                             ("arguments", VObj (wire_fields fields)) ]) "name")
          with (VStr name);
        cbn [convertible]; now rewrite orb_true_r).
  destruct Hout as (r & -> & _).
  destruct (Client.read_document P (wire (Client.rpc_json r))) as [result | e];
    [ | split; [ reflexivity | exact Hframe ] ].
  destruct (get result "content") as [content | e];
    [ | split; [ reflexivity | exact Hframe ] ].
  destruct (Client.text_of_content P content) as [text | e];
    [ | split; [ reflexivity | exact Hframe ] ].
  destruct (truthy (prop result "isError")); split; solve [ reflexivity | exact Hframe ].
Qed.

(** X21. A client whose exchanges are served (matching credentials as
    they arrive, session identifiers that are not empty and that a header
    carries unchanged) holds one session. After a call it holds a token
    the server knows; and when it already held one, the call keeps that
    token and the server mints nothing: the store, the identifiers drawn
    and the clock readings are as before. *)
Theorem client_reuses_its_session P env c w name fields :
  credentials_match env c ->
  session_travels c ->
  uuids_travel P ->
  let run := Client.callTool P gw_state (Client.serve P env) name (VObj fields) (c, w) in
  recognised (Client.sessionId (fst (snd run))) (snd (snd run)) = true /\
  (recognised (Client.sessionId c) w = true ->
   Client.sessionId (fst (snd run)) = Client.sessionId c /\
   same_sessions w (snd (snd run))).
Proof.
  intros Hcred Hsid Huuid. cbv zeta.
  assert (Hserved : exchanges_served P env c) by exact (conj Hcred (conj Hsid Huuid)).
  destruct (callTool_state P env c w name fields Hserved) as (Hc & Hframe).
  cbv zeta in Hc, Hframe. rewrite Hc.
  split.
  - rewrite (recognised_same _ _ _ (proj1 Hframe)). now apply session_step_holds.
  - intros Hrec.
    destruct (after_handshake_fixed P (c, w) Hrec) as (Hs0 & Hf0). cbn [fst snd] in Hs0, Hf0.
    assert (Hrec0 : recognised
                      (Client.sessionId (fst (Client.tick_clock (fst (after_handshake P (c, w))),
                                              snd (after_handshake P (c, w)))))
                      (snd (Client.tick_clock (fst (after_handshake P (c, w))),
                            snd (after_handshake P (c, w)))) = true).
    { cbn [fst snd Client.tick_clock Client.sessionId].
      rewrite Hs0, (recognised_same _ _ _ (proj1 Hf0)). exact Hrec. }
    destruct (session_step_fixed P _ Hrec0) as (Hs1 & Hf1).
    cbn [fst snd Client.tick_clock Client.sessionId] in Hs1, Hf1.
    split; [ congruence | ].
    eapply same_sessions_trans; [ exact Hf0 | ].
    eapply same_sessions_trans; [ exact Hf1 | exact Hframe ].
Qed.

Lemma client1_session_travels : session_travels client1.
Proof.
  intros s Hs. cbn in Hs. injection Hs as <-. reflexivity.
Qed.

Lemma client_reuses_its_session_witness :
  recognised
    (Client.sessionId
       (fst (snd (Client.callTool demo_platform gw_state (Client.serve demo_platform env0)
                    "get_product_by_barcode" (VObj []) (client1, gw_state1)))))
    (snd (snd (Client.callTool demo_platform gw_state (Client.serve demo_platform env0)
                 "get_product_by_barcode" (VObj []) (client1, gw_state1)))) = true /\
  Client.sessionId
    (fst (snd (Client.callTool demo_platform gw_state (Client.serve demo_platform env0)
                 "get_product_by_barcode" (VObj []) (client1, gw_state1)))) =
    Some "uuid-0" /\
  same_sessions gw_state1
    (snd (snd (Client.callTool demo_platform gw_state (Client.serve demo_platform env0)
                 "get_product_by_barcode" (VObj []) (client1, gw_state1)))).
Proof.
  exact (conj
           (proj1 (client_reuses_its_session demo_platform env0 client1 gw_state1
                     "get_product_by_barcode" []
                     (ex_intro _ None (conj eq_refl (or_introl eq_refl)))
                     client1_session_travels
                     (demo_uuids_travel off_nutella glm_down)))
           (proj2 (client_reuses_its_session demo_platform env0 client1 gw_state1
                     "get_product_by_barcode" []
                     (ex_intro _ None (conj eq_refl (or_introl eq_refl)))
                     client1_session_travels
                     (demo_uuids_travel off_nutella glm_down)) eq_refl)).
Defined.

(** X22. [listTools] against the server returns the registry, whatever the
    state of the server, for a client whose exchanges are served
    (matching credentials as they arrive, session identifiers a header
    carries unchanged). *)
Theorem listTools_returns_the_registry P env c w :
  credentials_match env c ->
  session_travels c ->
  uuids_travel P ->
  fst (Client.listTools P gw_state (Client.serve P env) (c, w)) =
    Ok (VArr (List.map tool_value MCP_TOOLS)).
Proof.
  intros Hcred Hsid Huuid.
  assert (Hserved : exchanges_served P env c) by exact (conj Hcred (conj Hsid Huuid)).
  destruct (after_handshake_keeps P env (c, w) Hserved) as (Hserved0 & _ & _).
  unfold Client.listTools. unfold bind at 1.
  rewrite (initialize_against_server P env c w Hserved).
  destruct (after_handshake P (c, w)) as [c0 w0]. cbn [fst snd] in *.
  unfold bind at 1.
  rewrite (rpc_exchange P env c0 w0 _ _ _ Hserved0). cbv zeta.
  match goal with
  | |- context [ handleRpcMethod P ?e ?w1 ] =>
      replace (handleRpcMethod P e w1)
        with (Ok (Some (rpcOk (VNum (number_of_Z 2))
                          (VObj [ ("tools", VArr (List.map tool_value MCP_TOOLS)) ]))), w1)
        by reflexivity
  end.
  rewrite read_document_result by discriminate. reflexivity.
Qed.

Lemma listTools_returns_the_registry_witness :
  fst (Client.listTools demo_platform gw_state (Client.serve demo_platform env_key)
         (client_key, gw_state0)) = Ok (VArr (List.map tool_value MCP_TOOLS)).
Proof.
  apply (listTools_returns_the_registry demo_platform env_key client_key gw_state0).
  - exists (Some "Bearer s3cret"). split; [ reflexivity | ].
    right. exists "s3cret". split; reflexivity.
  - intros s Hs. discriminate Hs.
  - apply demo_uuids_travel.
Defined.

Lemma checkMcpAuth_mismatch request env key :
  MCP_API_KEY env = Some key -> key <> "" ->
  authorization request <> Some ("Bearer " ++ key) ->
  exists msg,
    checkMcpAuth request env =
      Some (Response_json (JsonRpcBody (rpcError VNull (-32001) msg)) 401
              [ ("Content-Type", "application/json") ]).
Proof.
  intros Hkey Hne Hdiff. unfold checkMcpAuth. rewrite Hkey.
  destruct (String.eqb_spec key "") as [E | _]; [ contradiction | ].
  destruct (authorization request) as [auth | ]; [ | eexists; reflexivity ].
  destruct (absent (Some auth)); [ eexists; reflexivity | ]. cbn [orb].
  destruct (String.prefix "Bearer " auth) eqn:Epre; [ | eexists; reflexivity ].
  cbn [negb]. destruct (prefix_split _ _ Epre) as (token & ->).
  rewrite (proj2 (bearer_token_of token)).
  destruct (String.eqb_spec token key) as [-> | _]; [ contradiction | ].
  eexists; reflexivity.
Qed.

(** A request whose [Authorization] header does not arrive as the one
    the server expects: [rpc] throws, and nothing changes. *)
Lemma rpc_refused P env c w method params id key :
  MCP_API_KEY env = Some key -> key <> "" ->
  sent_authorization c <> Ok (Some ("Bearer " ++ key)) ->
  exists e,
    Client.rpc P gw_state (Client.serve P env) method params id (c, w) =
      (Throw e, (c, w)) /\
    (forall auth,
       sent_authorization c = Ok auth -> session_travels c ->
       exists msg,
         e = Error ("MCP server 401: "
                    ++ JSON_stringify P
                         (Client.rpc_json
                            {| jsonrpc := "2.0"; rpc_id := VNull;
                               payload := RpcError (-32001) msg VUndefined |}))).
Proof.
  intros Hkey Hne Hdiff. unfold Client.rpc, Client.serve.
  destruct (Client.received (Client.rpc_request c (Client.rpc_body method params id)))
    as [request | e] eqn:Hrec.
  - assert (Hauth : authorization request <> Some ("Bearer " ++ key)).
    { intros Heq. apply Hdiff. unfold sent_authorization.
      rewrite <- Heq. exact (received_authorization _ _ Hrec). }
    destruct (checkMcpAuth_mismatch request env key Hkey Hne Hauth) as (msg & Hrefused).
    unfold handleMcpRequest. rewrite Hrefused.
    eexists. split; [ reflexivity | ].
    intros _ _ _. exists msg. reflexivity.
  - exists e. split; [ reflexivity | ].
    intros auth Hsent Hsid.
    rewrite (received_rpc_request c _ auth Hsent Hsid) in Hrec. discriminate Hrec.
Qed.

Lemma callTool_refused P env c w name args key :
  MCP_API_KEY env = Some key -> key <> "" ->
  sent_authorization c <> Ok (Some ("Bearer " ++ key)) ->
  exists e,
    Client.callTool P gw_state (Client.serve P env) name args (c, w) =
      (Throw e, (if Client.initialized c then Client.tick_clock c else c, w)) /\
    (forall auth,
       sent_authorization c = Ok auth -> session_travels c ->
       exists msg,
         e = Error ("MCP server 401: "
                    ++ JSON_stringify P
                         (Client.rpc_json
                            {| jsonrpc := "2.0"; rpc_id := VNull;
                               payload := RpcError (-32001) msg VUndefined |}))).
Proof.
  intros Hkey Hne Hdiff.
  unfold Client.callTool, Client.initialize. unfold bind at 1. cbn [fst snd].
  destruct (Client.initialized c) eqn:Hinit.
  - unfold bind at 1. unfold bind at 1. cbn [fst snd].
    destruct (rpc_refused P env (Client.tick_clock c) w "tools/call"
                (VObj [ ("name", VStr name); ("arguments", args) ])
                (VNum (number_of_Z (Date_now P (Client.now_reads c)))) key Hkey Hne Hdiff)
      as (e & -> & Hmsg).
    exists e. split; [ reflexivity | exact Hmsg ].
  - unfold bind at 1.
    match goal with
    | |- context [ Client.rpc P gw_state _ "initialize" ?ps ?i (c, w) ] =>
        destruct (rpc_refused P env c w "initialize" ps i key Hkey Hne Hdiff)
          as (e & -> & Hmsg)
    end.
    exists e. split; [ reflexivity | exact Hmsg ].
Qed.

(** X23. When the server expects a key and the client's [Authorization]
    header does not arrive as ["Bearer "] followed by that key (another
    key, none, a key with whitespace at its end, or a value [fetch]
    refuses), the client gets nothing done: the call throws, the server
    is left exactly as it was, no session is opened, and the client
    records neither a session nor the handshake. When the headers are
    values [fetch] accepts, what is thrown is the server's 401 with its
    body. *)
Theorem callTool_with_wrong_key_is_refused P env c w name args key :
  MCP_API_KEY env = Some key -> key <> "" ->
  sent_authorization c <> Ok (Some ("Bearer " ++ key)) ->
  let run := Client.callTool P gw_state (Client.serve P env) name args (c, w) in
  (exists e, fst run = Throw e) /\
  snd (snd run) = w /\
  Client.sessionId (fst (snd run)) = Client.sessionId c /\
  Client.initialized (fst (snd run)) = Client.initialized c /\
  (forall auth,
     sent_authorization c = Ok auth -> session_travels c ->
     exists msg,
       fst run =
         Throw (Error ("MCP server 401: "
                       ++ JSON_stringify P
                            (Client.rpc_json
                               {| jsonrpc := "2.0"; rpc_id := VNull;
                                  payload := RpcError (-32001) msg VUndefined |})))).
Proof.
  intros Hkey Hne Hdiff. cbv zeta.
  destruct (callTool_refused P env c w name args key Hkey Hne Hdiff) as (e & -> & Hmsg).
  cbn [fst snd]. split; [ exists e; reflexivity | ].
  split; [ reflexivity | ].
  split; [ destruct (Client.initialized c); reflexivity | ].
  split; [ destruct (Client.initialized c) eqn:Hinit; [ exact Hinit | ];
           cbn [fst]; exact Hinit | ].
  intros auth Hsent Hsid. destruct (Hmsg auth Hsent Hsid) as (msg & ->).
  exists msg. reflexivity.
Qed.

Lemma callTool_with_wrong_key_is_refused_witness :
  (exists msg,
     fst (Client.callTool demo_platform gw_state (Client.serve demo_platform env_abc_space)
            "get_product_by_barcode" (VObj []) (client_abc_space, gw_state0)) =
       Throw (Error ("MCP server 401: "
                     ++ JSON_stringify demo_platform
                          (Client.rpc_json
                             {| jsonrpc := "2.0"; rpc_id := VNull;
                                payload := RpcError (-32001) msg VUndefined |})))) /\
  snd (snd (Client.callTool demo_platform gw_state (Client.serve demo_platform env_abc_space)
              "get_product_by_barcode" (VObj []) (client_abc_space, gw_state0))) =
    gw_state0 /\
  Client.sessionId
    (fst (snd (Client.callTool demo_platform gw_state
                 (Client.serve demo_platform env_abc_space)
                 "get_product_by_barcode" (VObj []) (client_abc_space, gw_state0)))) =
    None /\
  Client.initialized
    (fst (snd (Client.callTool demo_platform gw_state
                 (Client.serve demo_platform env_abc_space)
                 "get_product_by_barcode" (VObj []) (client_abc_space, gw_state0)))) =
    false.
Proof.
  destruct (callTool_with_wrong_key_is_refused demo_platform env_abc_space
              client_abc_space gw_state0 "get_product_by_barcode" (VObj []) "abc "
              eq_refl ltac:(discriminate) ltac:(discriminate))
    as (_ & Hserver & Hsession & Hinit & Hrefused).
  split; [ | split; [ exact Hserver | split; [ exact Hsession | exact Hinit ] ] ].
  apply (Hrefused (Some "Bearer abc") eq_refl).
  intros s Hs. discriminate Hs.
Defined.

(** X24. The handshake against the server succeeds for a client whose
    exchanges are served (matching credentials as they arrive, session
    identifiers a header carries unchanged), leaves the tool layer alone,
    and is made once: on a client that made it, [initialize] sends
    nothing and changes nothing. *)
Theorem handshake_is_made_once P env c w :
  credentials_match env c ->
  session_travels c ->
  uuids_travel P ->
  let run := Client.initialize P gw_state (Client.serve P env) (c, w) in
  fst run = Ok tt /\
  Client.initialized (fst (snd run)) = true /\
  tools (snd (snd run)) = tools w /\
  Client.initialize P gw_state (Client.serve P env) (snd run) = (Ok tt, snd run).
Proof.
  intros Hcred Hsid Huuid. cbv zeta.
  assert (Hserved : exchanges_served P env c) by exact (conj Hcred (conj Hsid Huuid)).
  rewrite (initialize_against_server P env c w Hserved).
  destruct (after_handshake_keeps P env (c, w) Hserved) as (_ & Htools & Hinit).
  cbn [fst snd] in *. repeat split; try assumption.
  unfold Client.initialize. now rewrite Hinit.
Qed.

Lemma handshake_is_made_once_witness :
  fst (Client.initialize demo_platform gw_state (Client.serve demo_platform env_key)
         (client_key, gw_state0)) = Ok tt /\
  Client.initialized
    (fst (snd (Client.initialize demo_platform gw_state (Client.serve demo_platform env_key)
                 (client_key, gw_state0)))) = true /\
  tools (snd (snd (Client.initialize demo_platform gw_state
                     (Client.serve demo_platform env_key) (client_key, gw_state0)))) =
    tools gw_state0 /\
  Client.initialize demo_platform gw_state (Client.serve demo_platform env_key)
    (snd (Client.initialize demo_platform gw_state (Client.serve demo_platform env_key)
            (client_key, gw_state0))) =
    (Ok tt,
     snd (Client.initialize demo_platform gw_state (Client.serve demo_platform env_key)
            (client_key, gw_state0))).
Proof.
  apply (handshake_is_made_once demo_platform env_key client_key gw_state0).
  - exists (Some "Bearer s3cret"). split; [ reflexivity | ].
    right. exists "s3cret". split; reflexivity.
  - intros s Hs. discriminate Hs.
  - apply demo_uuids_travel.
Defined.
